(** * pulp-smash pytest plugin: fixture servers, cleanup tracker, service poller

    A shallow embedding of [pulp_smash/pulp3/pytest_plugin/__init__.py].

    Python values are embedded as follows: [str] as [string], [int] as [Z],
    [None]-or-value as [option], tuples as pairs, lists as [list].  Raising
    is explicit: a call yields [Ok v] or [Raise e].  Calls that leave the
    module (the API clients, [monitor_task], the service manager,
    [time.sleep], the threading primitives) are recorded, in program order,
    in the [trace] of the store, and what they answer is read from a
    [World] that sees the trace so far. *)

From Stdlib Require Import List String Ascii ZArith Lia Bool Arith DecimalString.
Import ListNotations.
Open Scope string_scope.
Open Scope list_scope.

(** ** Python exceptions and results *)

Module Py.

(** The exception classes the module names, plus any other subclass of
    [Exception].  Every inhabitant is an instance of [Exception]; an
    instance of a subclass of a named class counts as that class. *)
Inductive exn_class :=
| ValueError
| IndexError
| TypeError
| AttributeError
| MaxRetryError          (* urllib3.exceptions.MaxRetryError *)
| ApiException           (* pulpcore.client.pulpcore.exceptions.ApiException *)
| OtherException (name : string).

Record exn := Exn { cls : exn_class; msg : string }.

Definition class_eqb (a b : exn_class) : bool :=
  match a, b with
  | ValueError, ValueError => true
  | IndexError, IndexError => true
  | TypeError, TypeError => true
  | AttributeError, AttributeError => true
  | MaxRetryError, MaxRetryError => true
  | ApiException, ApiException => true
  | OtherException n, OtherException m => String.eqb n m
  | _, _ => false
  end.

(** [except (C1, ..., Cn)]: does the clause take [e]? *)
Definition isinstance (e : exn) (classes : list exn_class) : bool :=
  existsb (class_eqb (cls e)) classes.

(** [except Exception] *)
Definition is_Exception (e : exn) : bool := true.

Inductive result (A : Type) :=
| Ok (a : A)
| Raise (e : exn).
Arguments Ok {A} a.
Arguments Raise {A} e.

(** [x or default] on an optional list: [None] and the empty list are falsy. *)
Definition py_or {A} (x : option (list A)) (default : list A) : list A :=
  match x with
  | Some (a :: l) => a :: l
  | _ => default
  end.

(** [path[0]] on a [str]. *)
Definition str_index0 (s : string) : result ascii :=
  match s with
  | EmptyString => Raise (Exn IndexError "string index out of range")
  | String c _ => Ok c
  end.

(** [str(n)] for an [int]. *)
Definition str_int (n : Z) : string := NilEmpty.string_of_int (Z.to_int n).

End Py.
Import Py.

(** ** Threaded local fixture servers *)

Definition EventId := nat.
Definition ThreadId := nat.
Definition SSLContext := nat.
Definition App := nat.
Definition CallRecord := nat.

(** [class ThreadedAiohttpServer(threading.Thread)] *)
Record ThreadedAiohttpServer := {
  th_id : ThreadId;
  th_shutdown_event : EventId;
  th_app : App;
  th_host : string;
  th_port : Z;
  th_ssl_ctx : option SSLContext;
  th_daemon : bool
}.

(** [class ThreadedAiohttpServerData] *)
Record ThreadedAiohttpServerData := {
  host : string;
  port : Z;
  shutdown_event : EventId;
  thread : ThreadedAiohttpServer;
  ssl_ctx : option SSLContext;
  requests_record : CallRecord
}.

Definition make_url (self : ThreadedAiohttpServerData) (path : string)
  : result string :=
  match str_index0 path with
  | Raise e => Raise e
  | Ok c =>
      if negb (Ascii.eqb c "/"%char) then
        Raise (Exn ValueError "The `path` argument should start with a '/'")
      else
        let protocol_handler :=
          match ssl_ctx self with
          | None => "http://"
          | Some _ => "https://"
          end in
        Ok (protocol_handler ++ host self ++ ":" ++ str_int (port self) ++ path)%string
  end.

(** ** Remote objects *)

Definition ApiClient := nat.
Definition Href := string.
Definition TaskHref := string.
Definition CreateArgs := string.

(** A resource as the REST bindings return it. *)
Record PulpObject := { pulp_href : Href; body : string }.

(** The answer of a task-based endpoint. *)
Record AsyncOperationResponse := { task : TaskHref }.

(** What [create] and [delete] may hand back: a resource, a task
    reference, or [None]. *)
Inductive Response :=
| Resource (o : PulpObject)
| Async (r : AsyncOperationResponse)
| NoContent.

(** What [monitor_task] returns. *)
Record TaskData := { created_resources : list Href; state : string }.

(** [status.database_connection] and [status] of the status endpoint. *)
Record DatabaseConnection := { connected : bool }.
Record Status := {
  online_workers : list string;
  online_content_apps : list string;
  database_connection : DatabaseConnection
}.

Definition PULP_SERVICES : list string :=
  ["pulpcore-content"; "pulpcore-api"; "pulpcore-worker@1"; "pulpcore-worker@2"]%string.

(** ** Calls that leave the module *)

Inductive event :=
| CallDelete (api_client : ApiClient) (href : Href)
| CallCreate (api_client : ApiClient) (args : CreateArgs)
| CallRead (api_client : ApiClient) (href : Href)
| CallMonitorTask (t : TaskHref)
| CallSleep (seconds : Z)
| CallStatusRead
| CallStatusReadWithHttpInfo
| CallSvcStop (services : list string)
| CallSvcStart (services : list string)
| CallUnusedPort
| CallThreadStart (th : ThreadedAiohttpServer)
| CallEventSet (ev : EventId)
| CallThreadJoin (th : ThreadId).

(** The answers of the collaborators.  Each sees the trace up to the call,
    so an answer may depend on everything that happened before. *)
Record World := {
  api_delete : list event -> ApiClient -> Href -> result Response;
  api_create : list event -> ApiClient -> CreateArgs -> result Response;
  api_read : list event -> ApiClient -> Href -> result PulpObject;
  monitor_task : list event -> TaskHref -> result TaskData;
  status_read : list event -> result Status;
  status_read_with_http_info : list event -> result (Status * Z);
  svc_mgr_stop : list event -> list string -> result unit;
  svc_mgr_start : list event -> list string -> result unit;
  unused_port : list event -> result Z;
  format_task_data : TaskData -> string;
  aiohttp_fixtures_origin : string
}.

(** ** Store and monad *)

(** [obj_refs] and [fixture_servers_data] are the lists the two fixtures
    close over; [next_id] numbers the [threading] objects created. *)
Record Store := {
  trace : list event;
  obj_refs : list (ApiClient * Href);
  fixture_servers_data : list ThreadedAiohttpServerData;
  next_id : nat
}.

Definition with_trace (s : Store) (t : list event) : Store :=
  {| trace := t; obj_refs := obj_refs s;
     fixture_servers_data := fixture_servers_data s; next_id := next_id s |}.

Definition with_obj_refs (s : Store) (l : list (ApiClient * Href)) : Store :=
  {| trace := trace s; obj_refs := l;
     fixture_servers_data := fixture_servers_data s; next_id := next_id s |}.

Definition with_servers (s : Store) (l : list ThreadedAiohttpServerData) : Store :=
  {| trace := trace s; obj_refs := obj_refs s;
     fixture_servers_data := l; next_id := next_id s |}.

Definition log (s : Store) (evs : list event) : Store :=
  with_trace s (trace s ++ evs).

Definition M (A : Type) : Type := Store -> result A * Store.

Definition ret {A} (a : A) : M A := fun s => (Ok a, s).

Definition raise {A} (e : exn) : M A := fun s => (Raise e, s).

Definition bind {A B} (m : M A) (f : A -> M B) : M B :=
  fun s =>
    match m s with
    | (Ok a, s') => f a s'
    | (Raise e, s') => (Raise e, s')
    end.

Definition lift {A} (r : result A) : M A := fun s => (r, s).

(** [try: m  except <classes taken by catches>: handler] *)
Definition try_except {A} (m : M A) (catches : exn -> bool) (handler : exn -> M A)
  : M A :=
  fun s =>
    match m s with
    | (Ok a, s') => (Ok a, s')
    | (Raise e, s') => if catches e then handler e s' else (Raise e, s')
    end.

(** An outside call: answered from the trace so far, then recorded. *)
Definition call {A} (ev : event) (answer : list event -> result A) : M A :=
  fun s => (answer (trace s), log s [ev]).

Declare Scope py_scope.
Delimit Scope py_scope with py.
Notation "x <- m ;; k" := (bind m (fun x => k))
  (at level 61, m at next level, right associativity) : py_scope.
Notation "m ;; k" := (bind m (fun _ => k))
  (at level 61, right associativity) : py_scope.
Open Scope py_scope.

(** [for x in xs: body], no [return] inside. *)
Fixpoint for_each {X} (xs : list X) (body : X -> M unit) : M unit :=
  match xs with
  | [] => ret tt
  | x :: rest => body x ;; for_each rest body
  end.

(** [for x in xs: body] where the body may [return r] ([Some r]) or fall
    through to the next item ([None]). *)
Fixpoint for_return {X R} (xs : list X) (body : X -> M (option R)) : M (option R) :=
  match xs with
  | [] => ret None
  | x :: rest =>
      r <- body x ;;
      match r with
      | Some v => ret (Some v)
      | None => for_return rest body
      end
  end.

(** [range(n)] *)
Definition range (n : nat) : list nat := seq 0 n.

(** [type(o).__name__].  The class of a resource is named by the bindings
    of the plugin that serves it; the model has one name for all of them,
    and the only lookup whose message would show it, [task] on a resource,
    is made inside the [try] of the teardown, where the error is caught. *)
Definition type_name (o : Response) : string :=
  match o with
  | Resource _ => "PulpObject"
  | Async _ => "AsyncOperationResponse"
  | NoContent => "NoneType"
  end.

(** The text Python puts in the [AttributeError] of a failed lookup. *)
Definition no_attribute (o : Response) (name : string) : exn :=
  Exn AttributeError
    ("'" ++ type_name o ++ "' object has no attribute '" ++ name ++ "'")%string.

(** Attribute access on what an endpoint handed back. *)
Definition getattr_pulp_href (o : Response) : result Href :=
  match o with
  | Resource r => Ok (pulp_href r)
  | _ => Raise (no_attribute o "pulp_href")
  end.

Definition getattr_task (o : Response) : result TaskHref :=
  match o with
  | Async r => Ok (task r)
  | _ => Raise (no_attribute o "task")
  end.

Definition time_sleep (seconds : Z) : M unit :=
  call (CallSleep seconds) (fun _ => Ok tt).

(** A new [threading] object, named by the next free number. *)
Definition fresh : M nat :=
  fun s =>
    (Ok (next_id s),
     {| trace := trace s; obj_refs := obj_refs s;
        fixture_servers_data := fixture_servers_data s;
        next_id := S (next_id s) |}).

Section Fixtures.

Variable w : World.

(** *** Webserver fixtures *)

(** [fixture_servers_data = []] *)
Definition gen_threaded_aiohttp_server_setup : M unit :=
  fun s => (Ok tt, with_servers s []).

Definition _gen_threaded_aiohttp_server
    (app : App) (ssl_ctx : option SSLContext) (call_record : CallRecord)
  : M ThreadedAiohttpServerData :=
  let host := aiohttp_fixtures_origin w in
  port <- call CallUnusedPort (unused_port w) ;;
  shutdown_event <- fresh ;;
  tid <- fresh ;;
  let fixture_server :=
    {| th_id := tid; th_shutdown_event := shutdown_event; th_app := app;
       th_host := host; th_port := port; th_ssl_ctx := ssl_ctx;
       th_daemon := true |} in
  call (CallThreadStart fixture_server) (fun _ => Ok tt) ;;
  let fixture_server_data :=
    {| host := host; port := port; shutdown_event := shutdown_event;
       thread := fixture_server; requests_record := call_record;
       ssl_ctx := ssl_ctx |} in
  (fun s => (Ok tt, with_servers s (fixture_servers_data s ++ [fixture_server_data]))) ;;
  ret fixture_server_data.

(** The code after [yield]. *)
Definition gen_threaded_aiohttp_server_teardown : M unit :=
  fun s =>
    (for_each (fixture_servers_data s)
       (fun fixture_server_data =>
          call (CallEventSet (shutdown_event fixture_server_data)) (fun _ => Ok tt)) ;;
     for_each (fixture_servers_data s)
       (fun fixture_server_data =>
          call (CallThreadJoin (th_id (thread fixture_server_data))) (fun _ => Ok tt)))
    s.

(** *** Service availability *)

(** The body of the [for] loop of [_stop_and_check_services]. *)
Definition stop_poll (i : nat) : M (option bool) :=
  time_sleep 3 ;;
  try_except
    (call CallStatusRead (status_read w) ;; ret None)
    (fun e => isinstance e [MaxRetryError; ApiException])
    (fun _ => ret (Some true)).

Definition _stop_and_check_services (pulp_services : option (list string)) : M bool :=
  let services := py_or pulp_services PULP_SERVICES in
  call (CallSvcStop services) (fun t => svc_mgr_stop w t services) ;;
  r <- for_return (range 10) stop_poll ;;
  match r with
  | Some b => ret b
  | None => ret false
  end.

(** The condition of the [if] in [_start_and_check_services]. *)
Definition services_ready (status : Status) (http_code : Z) : bool :=
  (http_code =? 200)%Z
  && (0 <? List.length (online_workers status))%nat
  && (0 <? List.length (online_content_apps status))%nat
  && connected (database_connection status).

(** The body of the [for] loop of [_start_and_check_services]. *)
Definition start_poll (i : nat) : M (option bool) :=
  time_sleep 3 ;;
  got <- try_except
           (x <- call CallStatusReadWithHttpInfo (status_read_with_http_info w) ;;
            ret (Some x))
           (fun e => isinstance e [MaxRetryError; ApiException])
           (fun _ => ret None) ;;
  match got with
  | None => ret None                      (* API is not responding *)
  | Some (status, http_code) =>
      if services_ready status http_code
      then ret (Some true)
      else ret None       (* sometimes it takes longer for the content app to start *)
  end.

Definition _start_and_check_services (pulp_services : option (list string)) : M bool :=
  let services := py_or pulp_services PULP_SERVICES in
  call (CallSvcStart services) (fun t => svc_mgr_start w t services) ;;
  r <- for_return (range 10) start_poll ;;
  match r with
  | Some b => ret b
  | None => ret false
  end.

(** *** Object cleanup fixtures *)

(** [obj_refs = []] *)
Definition add_to_cleanup_setup : M unit :=
  fun s => (Ok tt, with_obj_refs s []).

Definition _add_to_cleanup (api_client : ApiClient) (pulp_href : Href) : M unit :=
  fun s => (Ok tt, with_obj_refs s (obj_refs s ++ [(api_client, pulp_href)])).

(** The first loop after [yield]; [delete_task_hrefs] is the list built so far. *)
Fixpoint delete_loop (refs : list (ApiClient * Href)) (delete_task_hrefs : list TaskHref)
  : M (list TaskHref) :=
  match refs with
  | [] => ret delete_task_hrefs
  | (api_client, pulp_href) :: rest =>
      delete_task_hrefs' <-
        try_except
          (resp <- call (CallDelete api_client pulp_href)
                     (fun t => api_delete w t api_client pulp_href) ;;
           task_url <- lift (getattr_task resp) ;;
           ret (delete_task_hrefs ++ [task_url]))
          is_Exception
          (fun _ => ret delete_task_hrefs) ;;
      delete_loop rest delete_task_hrefs'
  end.

(** The body of the second loop after [yield]. *)
Definition wait_for (deleted_task_href : TaskHref) : M unit :=
  call (CallMonitorTask deleted_task_href)
    (fun t => monitor_task w t deleted_task_href) ;;
  ret tt.

(** The code after [yield]. *)
Definition add_to_cleanup_teardown : M unit :=
  fun s =>
    (delete_task_hrefs <- delete_loop (rev (obj_refs s)) [] ;;
     for_each delete_task_hrefs wait_for)
    s.

(** The body of the [for] loop of [_gen_object_with_cleanup]: [None] when
    this is not the right created resource for the client, [Some new_obj]
    when the loop returns. *)
Definition try_created_resource (api_client : ApiClient) (created_resource : Href)
  : M (option Response) :=
  got <- try_except
           (o <- call (CallRead api_client created_resource)
                   (fun tr => api_read w tr api_client created_resource) ;;
            ret (Some o))
           is_Exception
           (fun _ => ret None) ;;
  match got with
  | None => ret None
  | Some new_obj =>
      _add_to_cleanup api_client (pulp_href new_obj) ;;
      ret (Some (Resource new_obj))
  end.

Definition _gen_object_with_cleanup (api_client : ApiClient) (args : CreateArgs)
  : M Response :=
  new_obj <- call (CallCreate api_client args)
               (fun t => api_create w t api_client args) ;;
  returned <-
    try_except
      (href <- lift (getattr_pulp_href new_obj) ;;
       _add_to_cleanup api_client href ;;
       ret None)
      (fun e => isinstance e [AttributeError])
      (fun _ =>
         (* This is a task and the real object href comes from monitoring it *)
         t <- lift (getattr_task new_obj) ;;
         task_data <- call (CallMonitorTask t) (fun tr => monitor_task w tr t) ;;
         found <- for_return (created_resources task_data)
                    (try_created_resource api_client) ;;
         match found with
         | Some o => ret (Some o)
         | None =>
             raise (Exn TypeError
                      ("No appropriate created_resource could be found in task data "
                       ++ format_task_data w task_data)%string)
         end) ;;
  match returned with
  | Some o => ret o
  | None => ret new_obj
  end.

(** A test that registers [entries] one after the other, inside the
    [add_to_cleanup] fixture: setup, the registrations, then the teardown. *)
Definition add_to_cleanup_fixture (entries : list (ApiClient * Href)) : M unit :=
  add_to_cleanup_setup ;;
  for_each entries (fun e => _add_to_cleanup (fst e) (snd e)) ;;
  add_to_cleanup_teardown.

(** One step of a test: ask the fixture for a server. *)
Definition start_server (r : App * option SSLContext * CallRecord) : M unit :=
  _gen_threaded_aiohttp_server (fst (fst r)) (snd (fst r)) (snd r) ;;
  ret tt.

(** A test that starts one server per request, inside the
    [gen_threaded_aiohttp_server] fixture.  The test ends at the first
    request that raises; pytest runs the teardown whether or not the test
    body raised. *)
Definition gen_threaded_aiohttp_server_fixture
    (requests : list (App * option SSLContext * CallRecord)) : M unit :=
  gen_threaded_aiohttp_server_setup ;;
  try_except (for_each requests start_server) is_Exception (fun _ => ret tt) ;;
  gen_threaded_aiohttp_server_teardown.

End Fixtures.

(** ** Reading a trace *)

(** The [delete] calls of a trace, in order. *)
Definition deletes_of (t : list event) : list (ApiClient * Href) :=
  flat_map (fun ev => match ev with CallDelete c h => [(c, h)] | _ => [] end) t.

(** The tasks [monitor_task] was called on, in order. *)
Definition monitored (t : list event) : list TaskHref :=
  flat_map (fun ev => match ev with CallMonitorTask x => [x] | _ => [] end) t.

(** The shutdown events set and the threads joined, in order. *)
Definition sets_of (t : list event) : list EventId :=
  flat_map (fun ev => match ev with CallEventSet x => [x] | _ => [] end) t.

Definition joins_of (t : list event) : list ThreadId :=
  flat_map (fun ev => match ev with CallThreadJoin x => [x] | _ => [] end) t.

Definition started (t : list event) : list ThreadedAiohttpServer :=
  flat_map (fun ev => match ev with CallThreadStart x => [x] | _ => [] end) t.

Definition ev_delete (e : ApiClient * Href) : event := CallDelete (fst e) (snd e).

(** The task references the deletions of [refs] hand back when they are
    called one after the other from trace [t]: one for each call that
    returns an object with a [task] attribute, none for a call that raises
    or returns anything else. *)
Fixpoint collected_tasks (w : World) (t : list event) (refs : list (ApiClient * Href))
  : list TaskHref :=
  match refs with
  | [] => []
  | (c, h) :: rest =>
      match api_delete w t c h with
      | Ok (Async r) => [task r]
      | _ => []
      end ++ collected_tasks w (t ++ [CallDelete c h]) rest
  end.

(** What [monitor_task] answers for the tasks [ts] when they are waited on
    one after the other from trace [t]: each call but the last returned. *)
Fixpoint monitors_return (w : World) (t : list event) (ts : list TaskHref) : Prop :=
  match ts with
  | [] => True
  | x :: rest =>
      (exists d, monitor_task w t x = Ok d)
      /\ monitors_return w (t ++ [CallMonitorTask x]) rest
  end.

(** [k] polling attempts: a sleep of 3 seconds, then the status read. *)
Fixpoint polls (read : event) (k : nat) : list event :=
  match k with
  | O => []
  | S k' => CallSleep 3 :: read :: polls read k'
  end.

(** What the status endpoint answers at attempt [j] (counted from 0) of a
    polling loop entered with trace [t0]. *)
Definition stop_answer (w : World) (t0 : list event) (j : nat) : result Status :=
  status_read w (t0 ++ polls CallStatusRead j ++ [CallSleep 3]).

Definition start_answer (w : World) (t0 : list event) (j : nat) : result (Status * Z) :=
  status_read_with_http_info w
    (t0 ++ polls CallStatusReadWithHttpInfo j ++ [CallSleep 3]).

(** The two failures both pollers take as "not responding". *)
Definition not_responding (e : exn) : bool :=
  isinstance e [MaxRetryError; ApiException].

(** An attempt of the start poller that lets the loop go on. *)
Definition not_ready_yet (r : result (Status * Z)) : Prop :=
  match r with
  | Ok (status, http_code) => services_ready status http_code = false
  | Raise e => not_responding e = true
  end.

(** ** Worlds and stores to run the fixtures in *)

Definition empty_store : Store :=
  {| trace := []; obj_refs := []; fixture_servers_data := []; next_id := 0 |}.

Definition up_status : Status :=
  {| online_workers := ["worker-1"]%string;
     online_content_apps := ["content-1"]%string;
     database_connection := {| connected := true |} |}.

Definition count_reads (t : list event) : nat :=
  List.length
    (filter (fun ev => match ev with
                       | CallStatusRead | CallStatusReadWithHttpInfo => true
                       | _ => false
                       end) t).

(** A server where every call succeeds: deletions and task-based creations
    hand back a task named after the locator, every task finishes, every
    resource is readable, the services are up. *)
Definition healthy : World :=
  {| api_delete := fun _ _ h => Ok (Async {| task := ("task:" ++ h)%string |});
     api_create := fun _ _ a => Ok (Resource {| pulp_href := a; body := a |});
     api_read := fun _ _ h => Ok {| pulp_href := h; body := "" |};
     monitor_task := fun _ _ => Ok {| created_resources := []; state := "completed" |};
     status_read := fun _ => Ok up_status;
     status_read_with_http_info := fun _ => Ok (up_status, 200%Z);
     svc_mgr_stop := fun _ _ => Ok tt;
     svc_mgr_start := fun _ _ => Ok tt;
     unused_port := fun t => Ok (40000 + Z.of_nat (List.length t))%Z;
     format_task_data := fun d => state d;
     aiohttp_fixtures_origin := "127.0.0.1" |}.

Definition plain_server : ThreadedAiohttpServerData :=
  {| host := "127.0.0.1"; port := 8080; shutdown_event := 0;
     thread := {| th_id := 1; th_shutdown_event := 0; th_app := 0;
                  th_host := "127.0.0.1"; th_port := 8080;
                  th_ssl_ctx := None; th_daemon := true |};
     ssl_ctx := None; requests_record := 0 |}.

Definition tls_server : ThreadedAiohttpServerData :=
  {| host := "localhost"; port := 44321; shutdown_event := 2;
     thread := {| th_id := 3; th_shutdown_event := 2; th_app := 0;
                  th_host := "localhost"; th_port := 44321;
                  th_ssl_ctx := Some 7; th_daemon := true |};
     ssl_ctx := Some 7; requests_record := 0 |}.

(** The API stops answering at the third status read. *)
Definition going_down : World :=
  {| api_delete := api_delete healthy;
     api_create := api_create healthy;
     api_read := api_read healthy;
     monitor_task := monitor_task healthy;
     status_read := fun t => if (count_reads t <? 2)%nat then Ok up_status
                             else Raise (Exn MaxRetryError "Max retries exceeded");
     status_read_with_http_info := status_read_with_http_info healthy;
     svc_mgr_stop := svc_mgr_stop healthy;
     svc_mgr_start := svc_mgr_start healthy;
     unused_port := unused_port healthy;
     format_task_data := format_task_data healthy;
     aiohttp_fixtures_origin := aiohttp_fixtures_origin healthy |}.

(** The status reads fail with an exception that is neither a
    [MaxRetryError] nor an [ApiException]. *)
Definition garbled : World :=
  {| api_delete := api_delete healthy;
     api_create := api_create healthy;
     api_read := api_read healthy;
     monitor_task := monitor_task healthy;
     status_read := fun _ => Raise (Exn (OtherException "ProtocolError")
                                        "Connection aborted.");
     status_read_with_http_info :=
       fun _ => Raise (Exn (OtherException "ProtocolError") "Connection aborted.");
     svc_mgr_stop := svc_mgr_stop healthy;
     svc_mgr_start := svc_mgr_start healthy;
     unused_port := unused_port healthy;
     format_task_data := format_task_data healthy;
     aiohttp_fixtures_origin := aiohttp_fixtures_origin healthy |}.

(** What one attempt of the start poller makes of the answer it gets:
    [Ok (Some true)] returns from the loop, [Ok None] goes on to the next
    attempt, [Raise e] leaves the function. *)
Definition start_verdict (r : result (Status * Z)) : result (option bool) :=
  match r with
  | Ok (status, http_code) =>
      if services_ready status http_code then Ok (Some true) else Ok None
  | Raise e => if not_responding e then Ok None else Raise e
  end.

Definition no_content_app : Status :=
  {| online_workers := ["worker-1"]%string;
     online_content_apps := [];
     database_connection := {| connected := true |} |}.

(** The API refuses the first status read, answers the second while the
    content app is still missing, and is ready from the third on. *)
Definition warming_up : World :=
  {| api_delete := api_delete healthy;
     api_create := api_create healthy;
     api_read := api_read healthy;
     monitor_task := monitor_task healthy;
     status_read := status_read healthy;
     status_read_with_http_info :=
       fun t => match count_reads t with
                | 0 => Raise (Exn ApiException "(503) Service Unavailable")
                | 1 => Ok (no_content_app, 200%Z)
                | _ => Ok (up_status, 200%Z)
                end;
     svc_mgr_stop := svc_mgr_stop healthy;
     svc_mgr_start := svc_mgr_start healthy;
     unused_port := unused_port healthy;
     format_task_data := format_task_data healthy;
     aiohttp_fixtures_origin := aiohttp_fixtures_origin healthy |}.

(** The content app never comes up. *)
Definition never_ready : World :=
  {| api_delete := api_delete healthy;
     api_create := api_create healthy;
     api_read := api_read healthy;
     monitor_task := monitor_task healthy;
     status_read := status_read healthy;
     status_read_with_http_info := fun _ => Ok (no_content_app, 200%Z);
     svc_mgr_stop := svc_mgr_stop healthy;
     svc_mgr_start := svc_mgr_start healthy;
     unused_port := unused_port healthy;
     format_task_data := format_task_data healthy;
     aiohttp_fixtures_origin := aiohttp_fixtures_origin healthy |}.

(** Deleting a repository fails (it is already gone), deleting anything
    else hands back a task; every task finishes. *)
Definition repo_already_gone : World :=
  {| api_delete :=
       fun _ _ h => if String.prefix "/repositories/" h
                    then Raise (Exn ApiException "(404) Not Found")
                    else Ok (Async {| task := ("task:" ++ h)%string |});
     api_create := api_create healthy;
     api_read := api_read healthy;
     monitor_task := monitor_task healthy;
     status_read := status_read healthy;
     status_read_with_http_info := status_read_with_http_info healthy;
     svc_mgr_stop := svc_mgr_stop healthy;
     svc_mgr_start := svc_mgr_start healthy;
     unused_port := unused_port healthy;
     format_task_data := format_task_data healthy;
     aiohttp_fixtures_origin := aiohttp_fixtures_origin healthy |}.

(** Every deletion hands back a task, and waiting for a task raises (the
    task ended in the failed state). *)
Definition delete_task_fails : World :=
  {| api_delete := api_delete healthy;
     api_create := api_create healthy;
     api_read := api_read healthy;
     monitor_task := fun _ _ => Raise (Exn (OtherException "PulpTaskError") "failed");
     status_read := status_read healthy;
     status_read_with_http_info := status_read_with_http_info healthy;
     svc_mgr_stop := svc_mgr_stop healthy;
     svc_mgr_start := svc_mgr_start healthy;
     unused_port := unused_port healthy;
     format_task_data := format_task_data healthy;
     aiohttp_fixtures_origin := aiohttp_fixtures_origin healthy |}.

Definition entry_eq_dec (a b : ApiClient * Href) : {a = b} + {a <> b}.
Proof. decide equality; [apply string_dec|apply Nat.eq_dec]. Defined.

Definition three_entries : list (ApiClient * Href) :=
  [(1, "/remotes/A/"); (1, "/repositories/B/"); (2, "/distributions/C/")]%string.

(** Deleting a repository fails, and waiting for any delete task raises. *)
Definition gone_and_failing : World :=
  {| api_delete := api_delete repo_already_gone;
     api_create := api_create healthy;
     api_read := api_read healthy;
     monitor_task := monitor_task delete_task_fails;
     status_read := status_read healthy;
     status_read_with_http_info := status_read_with_http_info healthy;
     svc_mgr_stop := svc_mgr_stop healthy;
     svc_mgr_start := svc_mgr_start healthy;
     unused_port := unused_port healthy;
     format_task_data := format_task_data healthy;
     aiohttp_fixtures_origin := aiohttp_fixtures_origin healthy |}.

(** Stores at the end of a test that registered entries. *)
Definition three_registered : Store := with_obj_refs empty_store three_entries.

Definition repo_registered : Store :=
  with_obj_refs empty_store [(1, "/repositories/B/")]%string.

(** A task-based creation endpoint: [create] hands back a task whose data
    lists three created resources; client 1 can read publications only,
    any other client can read none of them. *)
Definition creation_task_data : TaskData :=
  {| created_resources :=
       ["/repositories/1/versions/1/"; "/publications/7/"; "/distributions/3/"]%string;
     state := "completed" |}.

Definition task_based : World :=
  {| api_delete := api_delete healthy;
     api_create := fun _ _ _ => Ok (Async {| task := "/tasks/42/" |});
     api_read :=
       fun _ c h => if (c =? 1)%nat && String.prefix "/publications/" h
                    then Ok {| pulp_href := h; body := "publication" |}
                    else Raise (Exn ApiException "(404) Not Found");
     monitor_task := fun _ _ => Ok creation_task_data;
     status_read := status_read healthy;
     status_read_with_http_info := status_read_with_http_info healthy;
     svc_mgr_stop := svc_mgr_stop healthy;
     svc_mgr_start := svc_mgr_start healthy;
     unused_port := unused_port healthy;
     format_task_data :=
       fun d => ("{'state': '" ++ state d ++ "'}")%string;
     aiohttp_fixtures_origin := aiohttp_fixtures_origin healthy |}.

Definition ev_read (api_client : ApiClient) (href : Href) : event :=
  CallRead api_client href.

(** No free port is left after the second server. *)
Definition ports_run_out : World :=
  {| api_delete := api_delete healthy;
     api_create := api_create healthy;
     api_read := api_read healthy;
     monitor_task := monitor_task healthy;
     status_read := status_read healthy;
     status_read_with_http_info := status_read_with_http_info healthy;
     svc_mgr_stop := svc_mgr_stop healthy;
     svc_mgr_start := svc_mgr_start healthy;
     unused_port :=
       fun t => if (List.length (started t) <? 2)%nat
                then Ok (40000 + Z.of_nat (List.length t))%Z
                else Raise (Exn (OtherException "OSError") "Address already in use");
     format_task_data := format_task_data healthy;
     aiohttp_fixtures_origin := aiohttp_fixtures_origin healthy |}.

(** The service manager cannot reach the host: [svc_mgr.stop] and
    [svc_mgr.start] raise. *)
Definition service_manager_fails : World :=
  {| api_delete := api_delete healthy;
     api_create := api_create healthy;
     api_read := api_read healthy;
     monitor_task := monitor_task healthy;
     status_read := status_read healthy;
     status_read_with_http_info := status_read_with_http_info healthy;
     svc_mgr_stop :=
       fun _ _ => Raise (Exn (OtherException "CalledProcessError")
                             "systemctl returned non-zero exit status 1");
     svc_mgr_start :=
       fun _ _ => Raise (Exn (OtherException "CalledProcessError")
                             "systemctl returned non-zero exit status 1");
     unused_port := unused_port healthy;
     format_task_data := format_task_data healthy;
     aiohttp_fixtures_origin := aiohttp_fixtures_origin healthy |}.

(** The creation endpoint refuses the request. *)
Definition create_refused : World :=
  {| api_delete := api_delete healthy;
     api_create := fun _ _ _ => Raise (Exn ApiException "(400) Bad Request");
     api_read := api_read healthy;
     monitor_task := monitor_task healthy;
     status_read := status_read healthy;
     status_read_with_http_info := status_read_with_http_info healthy;
     svc_mgr_stop := svc_mgr_stop healthy;
     svc_mgr_start := svc_mgr_start healthy;
     unused_port := unused_port healthy;
     format_task_data := format_task_data healthy;
     aiohttp_fixtures_origin := aiohttp_fixtures_origin healthy |}.

(** The creation endpoint answers [None]. *)
Definition create_answers_none : World :=
  {| api_delete := api_delete healthy;
     api_create := fun _ _ _ => Ok NoContent;
     api_read := api_read healthy;
     monitor_task := monitor_task healthy;
     status_read := status_read healthy;
     status_read_with_http_info := status_read_with_http_info healthy;
     svc_mgr_stop := svc_mgr_stop healthy;
     svc_mgr_start := svc_mgr_start healthy;
     unused_port := unused_port healthy;
     format_task_data := format_task_data healthy;
     aiohttp_fixtures_origin := aiohttp_fixtures_origin healthy |}.

(** A task-based creation endpoint whose task ends in the failed state. *)
Definition creation_task_fails : World :=
  {| api_delete := api_delete healthy;
     api_create := api_create task_based;
     api_read := api_read healthy;
     monitor_task := monitor_task delete_task_fails;
     status_read := status_read healthy;
     status_read_with_http_info := status_read_with_http_info healthy;
     svc_mgr_stop := svc_mgr_stop healthy;
     svc_mgr_start := svc_mgr_start healthy;
     unused_port := unused_port healthy;
     format_task_data := format_task_data healthy;
     aiohttp_fixtures_origin := aiohttp_fixtures_origin healthy |}.


(** The store of a test that started with three entries registered, made a
    publication through the task-based endpoint and then registered a
    remote made by another client. *)
Definition publication_then_remote : Store :=
  snd (_add_to_cleanup 2 "/remotes/R/"
         (snd (_gen_object_with_cleanup task_based 1 "publish" three_registered))).


Definition three_requests : list (App * option SSLContext * CallRecord) :=
  [(10, None, 20); (11, Some 7, 21); (12, None, 22)].

(** What every handle made by [_gen_threaded_aiohttp_server] satisfies. *)
Definition handle_of_started_thread (w : World) (d : ThreadedAiohttpServerData) : Prop :=
  th_daemon (thread d) = true
  /\ host d = aiohttp_fixtures_origin w
  /\ th_host (thread d) = host d
  /\ th_port (thread d) = port d
  /\ th_ssl_ctx (thread d) = ssl_ctx d
  /\ th_shutdown_event (thread d) = shutdown_event d.

(** The request a handle was made for. *)
Definition request_of (d : ThreadedAiohttpServerData)
  : App * option SSLContext * CallRecord :=
  (th_app (thread d), ssl_ctx d, requests_record d).

(** ** Code outside the fixtures' store

    The server thread, the pytest hooks, the proxy fixtures and the test
    classes talk to other collaborators than the fixtures above.  They are
    embedded over the same results and exceptions, each with the state it
    touches: a computation takes a state and gives back a result and the
    state it leaves, also when it raises. *)

Definition ST (S A : Type) : Type := S -> result A * S.

Definition sret {S A} (a : A) : ST S A := fun s => (Ok a, s).

Definition sraise {S A} (e : exn) : ST S A := fun s => (Raise e, s).

Definition sbind {S A B} (m : ST S A) (f : A -> ST S B) : ST S B :=
  fun s =>
    match m s with
    | (Ok a, s') => f a s'
    | (Raise e, s') => (Raise e, s')
    end.

(** [try: m  except <classes taken by catches>: handler] *)
Definition stry {S A} (m : ST S A) (catches : exn -> bool) (handler : exn -> ST S A)
  : ST S A :=
  fun s =>
    match m s with
    | (Ok a, s') => (Ok a, s')
    | (Raise e, s') => if catches e then handler e s' else (Raise e, s')
    end.

(** An outside call when the state is the trace of calls alone. *)
Definition tcall {E A} (ev : E) (answer : list E -> result A) : ST (list E) A :=
  fun t => (answer t, t ++ [ev]).

Declare Scope st_scope.
Delimit Scope st_scope with st.
Notation "x <- m ;; k" := (sbind m (fun x => k))
  (at level 61, m at next level, right associativity) : st_scope.
Notation "m ;; k" := (sbind m (fun _ => k))
  (at level 61, right associativity) : st_scope.
Open Scope st_scope.

(** *** [ThreadedAiohttpServer.run] *)

Inductive thread_event :=
| NewEventLoop
| SetEventLoop
| RunnerSetup (app : App)
| SiteStart (host : string) (port : Z) (ssl_ctx : option SSLContext)
| AsyncSleep (seconds : Z)
| EventIsSet (ev : EventId).

(** What [runner.setup()] and [site.start()] do, and what the shutdown
    event says each time it is asked. *)
Record ThreadWorld := {
  runner_setup : list thread_event -> result unit;
  site_start : list thread_event -> result unit;
  is_set : list thread_event -> EventId -> bool
}.

(** The [while True] loop of [run], unrolled [fuel] times: [true] when the
    loop was left by [break], [false] when it is still going round. *)
Fixpoint serve_until_shutdown (w : ThreadWorld) (self : ThreadedAiohttpServer)
    (fuel : nat) : ST (list thread_event) bool :=
  match fuel with
  | O => sret false
  | S fuel' =>
      tcall (AsyncSleep 1) (fun _ => Ok tt) ;;
      set <- tcall (EventIsSet (th_shutdown_event self))
               (fun t => Ok (is_set w t (th_shutdown_event self))) ;;
      if set : bool then sret true else serve_until_shutdown w self fuel'
  end.

Definition run (w : ThreadWorld) (self : ThreadedAiohttpServer) (fuel : nat)
  : ST (list thread_event) bool :=
  tcall NewEventLoop (fun _ => Ok tt) ;;
  tcall SetEventLoop (fun _ => Ok tt) ;;
  tcall (RunnerSetup (th_app self)) (runner_setup w) ;;
  tcall (SiteStart (th_host self) (th_port self) (th_ssl_ctx self)) (site_start w) ;;
  serve_until_shutdown w self fuel.

(** The calls [run] makes before its loop, and [k] rounds of the loop. *)
Definition run_prelude (self : ThreadedAiohttpServer) : list thread_event :=
  [NewEventLoop; SetEventLoop; RunnerSetup (th_app self);
   SiteStart (th_host self) (th_port self) (th_ssl_ctx self)].

Fixpoint rounds (self : ThreadedAiohttpServer) (k : nat) : list thread_event :=
  match k with
  | O => []
  | S k' => AsyncSleep 1 :: EventIsSet (th_shutdown_event self) :: rounds self k'
  end.

(** What the shutdown event says at check [j] (counted from 0) of a loop
    entered with trace [t0]. *)
Definition check_answer (w : ThreadWorld) (self : ThreadedAiohttpServer)
    (t0 : list thread_event) (j : nat) : bool :=
  is_set w (t0 ++ rounds self j ++ [AsyncSleep 1]) (th_shutdown_event self).

(** The event is set between the third and the fourth second. *)
Definition set_after_three_seconds : ThreadWorld :=
  {| runner_setup := fun _ => Ok tt;
     site_start := fun _ => Ok tt;
     is_set := fun t _ =>
       (3 <? List.length (filter (fun ev => match ev with
                                            | AsyncSleep _ => true
                                            | _ => false
                                            end) t))%nat |}.

(** The port is taken by the time the site is started. *)
Definition port_taken : ThreadWorld :=
  {| runner_setup := fun _ => Ok tt;
     site_start := fun _ => Raise (Exn (OtherException "OSError")
                                       "address already in use");
     is_set := fun _ _ => false |}.

Close Scope st_scope.

Open Scope st_scope.

(** *** The pytest hooks *)

(** What a command-line option may hold, and its truth value in an [if]. *)
Inductive optval :=
| VNone
| VBool (b : bool)
| VInt (n : Z)
| VStr (s : string).

Definition truthy (v : optval) : bool :=
  match v with
  | VNone => false
  | VBool b => b
  | VInt n => negb (n =? 0)%Z
  | VStr s => negb (String.eqb s "")
  end.

Record Mark := { mark_name : string; mark_reason : string }.

(** A collected test: its keywords and the marks of its own. *)
Record Item := { nodeid : string; keywords : list string; own_markers : list Mark }.

(** [item.add_marker(mark)] of pytest: the mark is appended to the item's
    own marks and its name becomes a keyword of the item. *)
Definition add_marker (item : Item) (mark : Mark) : Item :=
  {| nodeid := nodeid item;
     keywords := keywords item ++ [mark_name mark];
     own_markers := own_markers item ++ [mark] |}.

Inductive hook_event :=
| GetOption (name : string)
| HasPlugin (name : string)
| AddIniValueLine (name line : string)
| WrappedTeardown (item : string)
| CheckForLeftovers.

Record HookWorld := {
  getoption : list hook_event -> string -> result optval;
  hasplugin : list hook_event -> string -> bool;
  pytest_check_for_leftover_pulp_objects : list hook_event -> result unit
}.

(** [pytest.mark.skip(reason="need --nightly option to run")] *)
Definition skip_nightly : Mark :=
  {| mark_name := "skip"; mark_reason := "need --nightly option to run" |}.

(** ["nightly" in item.keywords] *)
Definition has_nightly_keyword (item : Item) : bool :=
  existsb (String.eqb "nightly") (keywords item).

(** The items are changed in place; the function gives them back as they
    are after the call. *)
Definition pytest_collection_modifyitems (w : HookWorld) (items : list Item)
  : ST (list hook_event) (list Item) :=
  nightly <- tcall (GetOption "--nightly") (fun t => getoption w t "--nightly") ;;
  if truthy nightly then
    (* Run all tests unmodified *)
    sret items
  else
    sret (map (fun item =>
                 if has_nightly_keyword item then add_marker item skip_nightly
                 else item)
              items).

Definition markers_lines : list (string * string) :=
  [("markers", "parallel: marks tests as safe to run in parallel");
   ("markers",
    "serial: marks tests as required to run serially without any other tests also running");
   ("markers", "nightly: marks tests as intended to run during the nightly CI run")].

Definition addinivalue_line (l : string * string) : ST (list hook_event) unit :=
  tcall (AddIniValueLine (fst l) (snd l)) (fun _ => Ok tt).

Definition pytest_configure (w : HookWorld) : ST (list hook_event) unit :=
  no_leftovers <- tcall (GetOption "--pulp-no-leftovers")
                    (fun t => getoption w t "--pulp-no-leftovers") ;;
  forbidden <-
    (if truthy no_leftovers then
       xdist <- tcall (HasPlugin "xdist") (fun t => Ok (hasplugin w t "xdist")) ;;
       if xdist : bool then
         n <- tcall (GetOption "-n") (fun t => getoption w t "-n") ;;
         sret (truthy n)
       else sret false
     else sret false) ;;
  if forbidden : bool then
    sraise (Exn (OtherException "Exception")
              "The --pulp-no-leftovers cannot be used with -n from xdist")
  else
    addinivalue_line
      ("markers", "parallel: marks tests as safe to run in parallel") ;;
    addinivalue_line
      ("markers",
       "serial: marks tests as required to run serially without any other tests also running") ;;
    addinivalue_line
      ("markers", "nightly: marks tests as intended to run during the nightly CI run").

(** The hook wrapper: [yield] lets the real teardown run, then the
    leftover check is made if asked for. *)
Definition pytest_runtest_teardown (w : HookWorld) (item : Item)
  : ST (list hook_event) unit :=
  tcall (WrappedTeardown (nodeid item)) (fun _ => Ok tt) ;;
  no_leftovers <- tcall (GetOption "--pulp-no-leftovers")
                    (fun t => getoption w t "--pulp-no-leftovers") ;;
  if truthy no_leftovers then
    tcall CheckForLeftovers (pytest_check_for_leftover_pulp_objects w)
  else sret tt.

(** The marker lines registered in a trace, in order. *)
Definition ini_lines (t : list hook_event) : list (string * string) :=
  flat_map (fun ev => match ev with
                      | AddIniValueLine n l => [(n, l)]
                      | _ => []
                      end) t.

(** A configuration that does not change during the session. *)
Definition stable_config (w : HookWorld) : Prop :=
  forall t t' name,
    getoption w t name = getoption w t' name
    /\ hasplugin w t name = hasplugin w t' name.

(** A command line: the options given with their values, the plugins
    installed; an option nobody registered makes [getoption] raise. *)
Definition command_line (options : list (string * optval)) (plugins : list string)
  : HookWorld :=
  {| getoption := fun _ name =>
       match find (fun o => String.eqb (fst o) name) options with
       | Some o => Ok (snd o)
       | None => Raise (Exn ValueError ("no option named " ++ name)%string)
       end;
     hasplugin := fun _ name => existsb (String.eqb name) plugins;
     pytest_check_for_leftover_pulp_objects := fun _ => Ok tt |}.

Definition plain_session : HookWorld :=
  command_line [("--pulp-no-leftovers", VBool false); ("--nightly", VBool false)] [].

Definition leftovers_session : HookWorld :=
  command_line [("--pulp-no-leftovers", VBool true); ("--nightly", VBool true)] [].

Definition parallel_leftovers_session : HookWorld :=
  command_line [("--pulp-no-leftovers", VBool true); ("--nightly", VBool false);
                ("-n", VInt 4)] ["xdist"%string].

Definition some_items : list Item :=
  [{| nodeid := "test_sync"; keywords := ["test_sync"; "parallel"]%string;
      own_markers := [] |};
   {| nodeid := "test_big_sync"; keywords := ["test_big_sync"; "nightly"]%string;
      own_markers := [] |}].

Close Scope st_scope.

Open Scope st_scope.

(** [for x in xs: body], no [return] inside. *)
Fixpoint sfor {S X} (xs : list X) (body : X -> ST S unit) : ST S unit :=
  match xs with
  | [] => sret tt
  | x :: rest => body x ;; sfor rest body
  end.

(** *** [UploadRpmTestCase]: class set-up and tear-down *)

(** A decoded JSON object, as far as the class reads it. *)
Definition Dict := list (string * string).

(** [d[key]] *)
Definition dict_get (d : Dict) (key : string) : result string :=
  match find (fun kv => String.eqb (fst kv) key) d with
  | Some kv => Ok (snd kv)
  | None => Raise (Exn (OtherException "KeyError") key)
  end.

Definition Cfg := nat.

Inductive http_event :=
| GetConfig
| CheckIssue2620
| HttpGet (url : string)
| GenRepo
| GenDistributor
| Post (path : string) (body : Dict) (distributors : list Dict)
| Get (href : string)
| Delete (href : string).

(** The server, the helpers of the test suite and its constants. *)
Record PulpV2 := {
  get_config : list http_event -> result Cfg;
  check_issue_2620 : list http_event -> result bool;
  http_get : list http_event -> string -> result string;
  gen_repo : list http_event -> result Dict;
  gen_distributor : list http_event -> result Dict;
  client_post : list http_event -> string -> Dict -> list Dict -> result Dict;
  client_get : list http_event -> string -> result Dict;
  client_delete : list http_event -> string -> result unit;
  REPOSITORY_PATH : string;
  ORPHANS_PATH : string;
  RPM_UNSIGNED_URL : string
}.

(** The attributes of the class, unset until [setUpClass] assigns them. *)
Record RpmCase := {
  calls : list http_event;
  cls_cfg : option Cfg;
  cls_rpm : option string;
  cls_repos : option (list Dict)
}.

Definition hcall {A} (ev : http_event) (answer : list http_event -> result A)
  : ST RpmCase A :=
  fun c => (answer (calls c),
            {| calls := calls c ++ [ev]; cls_cfg := cls_cfg c;
               cls_rpm := cls_rpm c; cls_repos := cls_repos c |}).

Definition slift {S A} (r : result A) : ST S A := fun s => (r, s).

Definition set_cfg (cfg : Cfg) : ST RpmCase unit :=
  fun c => (Ok tt, {| calls := calls c; cls_cfg := Some cfg;
                      cls_rpm := cls_rpm c; cls_repos := cls_repos c |}).

Definition set_rpm (rpm : string) : ST RpmCase unit :=
  fun c => (Ok tt, {| calls := calls c; cls_cfg := cls_cfg c;
                      cls_rpm := Some rpm; cls_repos := cls_repos c |}).

Definition set_repos (repos : list Dict) : ST RpmCase unit :=
  fun c => (Ok tt, {| calls := calls c; cls_cfg := cls_cfg c;
                      cls_rpm := cls_rpm c; cls_repos := Some repos |}).

(** [cls.cfg] and [cls.repos] *)
Definition get_cfg : ST RpmCase Cfg :=
  fun c => (match cls_cfg c with
            | Some cfg => Ok cfg
            | None => Raise (Exn AttributeError "type object 'UploadRpmTestCase' has no attribute 'cfg'")
            end, c).

Definition get_repos : ST RpmCase (list Dict) :=
  fun c => (match cls_repos c with
            | Some repos => Ok repos
            | None => Raise (Exn AttributeError "type object 'UploadRpmTestCase' has no attribute 'repos'")
            end, c).

(** [cls.repos.append(repo)] and [cls.repos[-1] = repo] *)
Definition repos_append (repo : Dict) : ST RpmCase unit :=
  repos <- get_repos ;; set_repos (repos ++ [repo]).

Definition repos_set_last (repo : Dict) : ST RpmCase unit :=
  repos <- get_repos ;;
  match repos with
  | [] => sraise (Exn IndexError "list assignment index out of range")
  | _ => set_repos (removelast repos ++ [repo])
  end.

Definition tearDownClass (w : PulpV2) : ST RpmCase unit :=
  get_cfg ;;
  repos <- get_repos ;;
  sfor repos
    (fun repo =>
       href <- slift (dict_get repo "_href") ;;
       hcall (Delete href) (fun t => client_delete w t href)) ;;
  hcall (Delete (ORPHANS_PATH w)) (fun t => client_delete w t (ORPHANS_PATH w)).

(** The body of the [for] loop of [setUpClass]. *)
Definition create_repo (w : PulpV2) (i : nat) : ST RpmCase unit :=
  body <- hcall GenRepo (gen_repo w) ;;
  distributor <- hcall GenDistributor (gen_distributor w) ;;
  repo <- hcall (Post (REPOSITORY_PATH w) body [distributor])
            (fun t => client_post w t (REPOSITORY_PATH w) body [distributor]) ;;
  repos_append repo ;;
  (* Info about repo distributors is needed when publishing. *)
  href <- slift (dict_get repo "_href") ;;
  repo <- hcall (Get href) (fun t => client_get w t href) ;;
  repos_set_last repo.

Definition setUpClass (w : PulpV2) : ST RpmCase unit :=
  cfg <- hcall GetConfig (get_config w) ;;
  set_cfg cfg ;;
  skip <- hcall CheckIssue2620 (check_issue_2620 w) ;;
  if skip : bool then
    sraise (Exn (OtherException "SkipTest") "https://pulp.plan.io/issues/2620")
  else
    rpm <- hcall (HttpGet (RPM_UNSIGNED_URL w))
             (fun t => http_get w t (RPM_UNSIGNED_URL w)) ;;
    set_rpm rpm ;;
    set_repos [] ;;
    stry (sfor (range 2) (create_repo w))
      (fun _ => true)
      (fun e => tearDownClass w ;; sraise e).

(** The locators deleted in a trace, in order. *)
Definition deleted (t : list http_event) : list string :=
  flat_map (fun ev => match ev with Delete h => [h] | _ => [] end) t.

(** The repositories the server made: the answers of the POST calls of
    [tr] that returned, [before] being the trace when [tr] starts. *)
Fixpoint answered_posts (w : PulpV2) (before tr : list http_event) : list Dict :=
  match tr with
  | [] => []
  | ev :: rest =>
      match ev with
      | Post path body distributors =>
          match client_post w before path body distributors with
          | Ok repo => [repo]
          | Raise _ => []
          end
      | _ => []
      end ++ answered_posts w (before ++ [ev]) rest
  end.

Definition new_class : RpmCase :=
  {| calls := []; cls_cfg := None; cls_rpm := None; cls_repos := None |}.

Definition count_posts (t : list http_event) : nat :=
  List.length (filter (fun ev => match ev with Post _ _ _ => true | _ => false end) t).

(** A server that creates repositories [/repositories/r<n>/]; [limit] is
    the number of POST calls it accepts before it answers with an error. *)
Definition pulp_v2 (limit : nat) : PulpV2 :=
  {| get_config := fun _ => Ok 0;
     check_issue_2620 := fun _ => Ok false;
     http_get := fun _ _ => Ok "rpm";
     gen_repo := fun _ => Ok [("id", "repo")]%string;
     gen_distributor := fun _ => Ok [("distributor_id", "yum")]%string;
     client_post := fun t _ _ _ =>
       if (count_posts t <? limit)%nat
       then Ok [("_href",
                 "/repositories/r" ++ str_int (Z.of_nat (count_posts t)) ++ "/")]%string
       else Raise (Exn (OtherException "HTTPError") "500 Server Error");
     client_get := fun _ h => Ok [("_href", h); ("details", "true")]%string;
     client_delete := fun _ _ => Ok tt;
     REPOSITORY_PATH := "/pulp/api/v2/repositories/";
     ORPHANS_PATH := "/pulp/api/v2/content/orphans/";
     RPM_UNSIGNED_URL := "https://fixtures/rpm-unsigned/bear.rpm" |}.

(** As [pulp_v2 2], but the repository r0 cannot be deleted. *)
Definition pulp_v2_stuck : PulpV2 :=
  {| get_config := get_config (pulp_v2 2);
     check_issue_2620 := check_issue_2620 (pulp_v2 2);
     http_get := http_get (pulp_v2 2);
     gen_repo := gen_repo (pulp_v2 2);
     gen_distributor := gen_distributor (pulp_v2 2);
     client_post := client_post (pulp_v2 2);
     client_get := client_get (pulp_v2 2);
     client_delete := fun _ h =>
       if String.eqb h "/repositories/r0/"
       then Raise (Exn (OtherException "HTTPError") "409 Conflict")
       else Ok tt;
     REPOSITORY_PATH := REPOSITORY_PATH (pulp_v2 2);
     ORPHANS_PATH := ORPHANS_PATH (pulp_v2 2);
     RPM_UNSIGNED_URL := RPM_UNSIGNED_URL (pulp_v2 2) |}.

Close Scope st_scope.

(** The class after the calls [tr], its attributes untouched. *)
Definition called (c : RpmCase) (tr : list http_event) : RpmCase :=
  {| calls := calls c ++ tr; cls_cfg := cls_cfg c;
     cls_rpm := cls_rpm c; cls_repos := cls_repos c |}.

(** One DELETE per locator, in order, up to the first that raises. *)
Definition delete_each (w : PulpV2) (hrefs : list string) : ST RpmCase unit :=
  sfor hrefs (fun href => hcall (Delete href) (fun t => client_delete w t href)).

(** [repo['_href']] is there and is [href]. *)
Definition href_of (repo : Dict) (href : string) : Prop :=
  dict_get repo "_href" = Ok href.

(** The class after the calls [tr], with [repos] as its repositories. *)
Definition tracking (c : RpmCase) (tr : list http_event) (repos : list Dict)
  : RpmCase :=
  {| calls := calls c ++ tr; cls_cfg := cls_cfg c;
     cls_rpm := cls_rpm c; cls_repos := Some repos |}.

(** Whatever locator [made] carries, [held] carries it too. *)
Definition same_href (made held : Dict) : Prop :=
  forall href, href_of made href -> href_of held href.

Open Scope st_scope.

(** *** Proxy fixtures *)

(** [class ProxyData] *)
Record ProxyData := {
  proxy_host : string;
  proxy_port : Z;
  username : option string;
  password : option string;
  ssl : bool;
  proxy_url : string
}.

Inductive proxy_event :=
| ProxyUnusedPort
| Uuid4
| UrlBuild (scheme host : string) (port : Z)
| ProxyEnter (input_args : list string)
| YieldProxyData (proxy_data : ProxyData)
| ProxyExit.

(** The port allocator, [uuid], [yarl.URL] and the proxy library. *)
Record ProxyWorld := {
  proxy_unused_port : list proxy_event -> result Z;
  uuid4 : list proxy_event -> string;
  url_build : list proxy_event -> string -> string -> Z -> result string;
  proxy_enter : list proxy_event -> list string -> result unit;
  proxy_exit : list proxy_event -> result unit;
  proxy_origin : string
}.

(** [ProxyData.__init__] *)
Definition ProxyData_init (w : ProxyWorld) (host : string) (port : Z)
    (username password : option string) (ssl : bool)
  : ST (list proxy_event) ProxyData :=
  let scheme := if ssl then "https" else "http" in
  url <- tcall (UrlBuild scheme host port) (fun t => url_build w t scheme host port) ;;
  sret {| proxy_host := host; proxy_port := port; username := username;
          password := password; ssl := ssl; proxy_url := url |}.

(** [with proxy.Proxy(input_args=...): yield proxy_data] *)
Definition with_Proxy (w : ProxyWorld) (input_args : list string)
    (proxy_data : ProxyData) : ST (list proxy_event) unit :=
  tcall (ProxyEnter input_args) (fun t => proxy_enter w t input_args) ;;
  tcall (YieldProxyData proxy_data) (fun _ => Ok tt) ;;
  tcall ProxyExit (proxy_exit w).

Definition http_proxy (w : ProxyWorld) : ST (list proxy_event) unit :=
  let host := proxy_origin w in
  port <- tcall ProxyUnusedPort (proxy_unused_port w) ;;
  let proxypy_args :=
    ["--num-workers"; "4"; "--hostname"; host; "--port"; str_int port]%string in
  proxy_data <- ProxyData_init w host port None None false ;;
  with_Proxy w proxypy_args proxy_data.

Definition http_proxy_with_auth (w : ProxyWorld) : ST (list proxy_event) unit :=
  let host := proxy_origin w in
  port <- tcall ProxyUnusedPort (proxy_unused_port w) ;;
  username <- tcall Uuid4 (fun t => Ok (uuid4 w t)) ;;
  password <- tcall Uuid4 (fun t => Ok (uuid4 w t)) ;;
  let proxypy_args :=
    ["--num-workers"; "4"; "--hostname"; host; "--port"; str_int port;
     "--basic-auth"; username ++ ":" ++ password]%string in
  proxy_data <- ProxyData_init w host port (Some username) (Some password) false ;;
  with_Proxy w proxypy_args proxy_data.

Definition https_proxy (w : ProxyWorld) (proxy_tls_certificate_pem_path : string)
  : ST (list proxy_event) unit :=
  let host := proxy_origin w in
  port <- tcall ProxyUnusedPort (proxy_unused_port w) ;;
  let proxypy_args :=
    ["--num-workers"; "4"; "--hostname"; host; "--port"; str_int port;
     "--cert-file"; proxy_tls_certificate_pem_path;
     "--key-file"; proxy_tls_certificate_pem_path]%string in
  proxy_data <- ProxyData_init w host port None None true ;;
  with_Proxy w proxypy_args proxy_data.

(** The value that follows option [name] in an argument list. *)
Fixpoint arg_value (name : string) (args : list string) : option string :=
  match args with
  | a :: v :: rest => if String.eqb a name then Some v else arg_value name rest
  | _ => None
  end.

(** What a trace tells about the proxy: the arguments it was started
    with, what the test was given, and how often it was stopped. *)
Definition proxy_starts (t : list proxy_event) : list (list string) :=
  flat_map (fun ev => match ev with ProxyEnter a => [a] | _ => [] end) t.

Definition proxy_yields (t : list proxy_event) : list ProxyData :=
  flat_map (fun ev => match ev with YieldProxyData d => [d] | _ => [] end) t.

Definition proxy_stops (t : list proxy_event) : nat :=
  List.length (filter (fun ev => match ev with ProxyExit => true | _ => false end) t).

(** The three fixtures behind one name. *)
Inductive proxy_kind := PlainProxy | AuthProxy | TlsProxy (pem_path : string).

Definition proxy_fixture (w : ProxyWorld) (k : proxy_kind)
  : ST (list proxy_event) unit :=
  match k with
  | PlainProxy => http_proxy w
  | AuthProxy => http_proxy_with_auth w
  | TlsProxy pem_path => https_proxy w pem_path
  end.

Definition local_proxies : ProxyWorld :=
  {| proxy_unused_port := fun _ => Ok 3128%Z;
     uuid4 := fun t => if (List.length t <? 2)%nat then "user-uuid" else "pass-uuid";
     url_build := fun _ scheme host port =>
       Ok (scheme ++ "://" ++ host ++ ":" ++ str_int port)%string;
     proxy_enter := fun _ _ => Ok tt;
     proxy_exit := fun _ => Ok tt;
     proxy_origin := "127.0.0.1" |}.

Close Scope st_scope.

(** The proxy was started where, and as, the data handed to the test say. *)
Definition proxy_data_matches (w : ProxyWorld) (k : proxy_kind)
    (args : list string) (d : ProxyData) : Prop :=
  proxy_host d = proxy_origin w
  /\ arg_value "--hostname" args = Some (proxy_host d)
  /\ arg_value "--port" args = Some (str_int (proxy_port d))
  /\ arg_value "--num-workers" args = Some "4"%string
  /\ match k with
     | PlainProxy =>
         username d = None /\ password d = None /\ ssl d = false
         /\ arg_value "--basic-auth" args = None
         /\ arg_value "--cert-file" args = None
     | AuthProxy =>
         ssl d = false
         /\ arg_value "--cert-file" args = None
         /\ exists u p,
              username d = Some u /\ password d = Some p
              /\ arg_value "--basic-auth" args = Some (u ++ ":" ++ p)%string
     | TlsProxy pem_path =>
         username d = None /\ password d = None /\ ssl d = true
         /\ arg_value "--basic-auth" args = None
         /\ arg_value "--cert-file" args = Some pem_path
         /\ arg_value "--key-file" args = Some pem_path
     end.

(** The calls a proxy fixture makes before it builds the URL of the proxy
    data, and the scheme it builds it with. *)
Definition proxy_prelude (k : proxy_kind) : list proxy_event :=
  match k with
  | AuthProxy => [ProxyUnusedPort; Uuid4; Uuid4]
  | _ => [ProxyUnusedPort]
  end.

Definition proxy_scheme (k : proxy_kind) : string :=
  match k with
  | TlsProxy _ => "https"
  | _ => "http"
  end.

(** No port is free. *)
Definition no_free_port : ProxyWorld :=
  {| proxy_unused_port :=
       fun _ => Raise (Exn (OtherException "OSError") "Address already in use");
     uuid4 := uuid4 local_proxies;
     url_build := url_build local_proxies;
     proxy_enter := proxy_enter local_proxies;
     proxy_exit := proxy_exit local_proxies;
     proxy_origin := proxy_origin local_proxies |}.

(** The configured origin is no host name [yarl] accepts. *)
Definition bad_origin : ProxyWorld :=
  {| proxy_unused_port := proxy_unused_port local_proxies;
     uuid4 := uuid4 local_proxies;
     url_build :=
       fun _ _ _ _ => Raise (Exn ValueError "Can't build URL with this host");
     proxy_enter := proxy_enter local_proxies;
     proxy_exit := proxy_exit local_proxies;
     proxy_origin := "http://pulp/" |}.

(** The proxy does not start. *)
Definition proxy_cannot_start : ProxyWorld :=
  {| proxy_unused_port := proxy_unused_port local_proxies;
     uuid4 := uuid4 local_proxies;
     url_build := url_build local_proxies;
     proxy_enter :=
       fun _ _ => Raise (Exn (OtherException "OSError") "Address already in use");
     proxy_exit := proxy_exit local_proxies;
     proxy_origin := proxy_origin local_proxies |}.


(** * Properties *)

(** ** [make_url] *)

Example make_url_plain :
  make_url plain_server "/repo/a.rpm" = Ok "http://127.0.0.1:8080/repo/a.rpm".
Proof. reflexivity. Qed.

Example make_url_tls :
  make_url tls_server "/" = Ok "https://localhost:44321/".
Proof. reflexivity. Qed.

Example make_url_relative :
  make_url plain_server "repo"
  = Raise (Exn ValueError "The `path` argument should start with a '/'").
Proof. reflexivity. Qed.

Lemma prefix_slash (path : string) :
  String.prefix "/" path = true -> exists rest, path = String "/" rest.
Proof.
  destruct path as [|c rest]; cbn -[ascii_dec]; [discriminate|].
  destruct (ascii_dec "/" c) as [<-|]; [|discriminate].
  intros _. now exists rest.
Qed.

Lemma prefix_slash_false (c : ascii) (rest : string) :
  String.prefix "/" (String c rest) = false -> Ascii.eqb c "/" = false.
Proof.
  cbn -[ascii_dec]. destruct (ascii_dec "/" c) as [<-|ne].
  - destruct rest; discriminate.
  - intros _. apply Ascii.eqb_neq. congruence.
Qed.

(** A path with a first character other than "/" is turned down with the
    [ValueError] of the source. *)
Lemma make_url_value_error (self : ThreadedAiohttpServerData) (path : string) :
  path <> "" ->
  String.prefix "/" path = false ->
  make_url self path
  = Raise (Exn ValueError "The `path` argument should start with a '/'").
Proof.
  destruct path as [|c rest]; [congruence|].
  intros _ Hp. unfold make_url. simpl.
  now rewrite (prefix_slash_false _ _ Hp).
Qed.

(** C7: the empty path does not start with "/", and [make_url] does raise on
    it, but what it raises is not a [ValueError]. *)
Theorem make_url_empty_path_not_value_error (self : ThreadedAiohttpServerData) :
  String.prefix "/" "" = false
  /\ exists e, make_url self "" = Raise e /\ cls e <> ValueError.
Proof.
  split; [reflexivity|].
  eexists. split; [reflexivity|]. simpl. discriminate.
Qed.

(** C8: for a path that starts with "/", [make_url] returns the scheme
    ("https://" with a TLS context, "http://" without), then the host of the
    handle, a colon, its port in decimal, and the path; and the handle that
    [_gen_threaded_aiohttp_server] returns carries the configured origin and
    the port [unused_port] answered, the very ones the started server thread
    was given. *)
Theorem make_url_scheme_host_port :
  (forall (self : ThreadedAiohttpServerData) (path : string),
      String.prefix "/" path = true ->
      make_url self path
      = Ok ((match ssl_ctx self with Some _ => "https://" | None => "http://" end)
            ++ host self ++ ":" ++ str_int (port self) ++ path)%string)
  /\ (forall (w : World) (app : App) (ctx : option SSLContext) (rec : CallRecord)
             (s : Store) (p : Z),
         unused_port w (trace s) = Ok p ->
         exists d s',
           _gen_threaded_aiohttp_server w app ctx rec s = (Ok d, s')
           /\ host d = aiohttp_fixtures_origin w /\ port d = p /\ ssl_ctx d = ctx
           /\ th_host (thread d) = host d /\ th_port (thread d) = port d
           /\ th_ssl_ctx (thread d) = ctx
           /\ started (trace s') = started (trace s) ++ [thread d]).
Proof.
  split.
  - intros self path Hp. destruct (prefix_slash _ Hp) as [rest ->].
    unfold make_url. simpl. now destruct (ssl_ctx self).
  - intros w app ctx rec s p Hport.
    unfold _gen_threaded_aiohttp_server, bind, call, fresh, ret. simpl.
    rewrite Hport. simpl.
    eexists. eexists. split; [reflexivity|]. simpl.
    repeat split.
    unfold started. rewrite !flat_map_app. simpl. now rewrite app_nil_r.
Qed.

Lemma make_url_scheme_host_port_witness :
  make_url tls_server "/pulp/content/" = Ok "https://localhost:44321/pulp/content/"
  /\ make_url plain_server "/" = Ok "http://127.0.0.1:8080/"
  /\ exists d s',
       _gen_threaded_aiohttp_server healthy 5 None 9 empty_store = (Ok d, s')
       /\ port d = 40000%Z /\ th_port (thread d) = 40000%Z.
Proof.
  destruct make_url_scheme_host_port as [Hurl Hgen].
  split; [|split].
  - apply (Hurl tls_server "/pulp/content/"). reflexivity.
  - apply (Hurl plain_server "/"). reflexivity.
  - destruct (Hgen healthy 5 None 9 empty_store 40000%Z eq_refl)
      as (d & s' & Hrun & _ & Hp & _ & _ & Htp & _).
    exists d, s'. split; [exact Hrun|]. split; [exact Hp|]. now rewrite Htp.
Defined.

(** C10: on the empty string [make_url] raises the [IndexError] of the
    indexing [path[0]], not the [ValueError] of its check: the empty string
    has no "/" prefix, yet it is the indexing that fails, and no path
    other than the empty one gets an [IndexError]. *)
Theorem make_url_empty_path_index_error (self : ThreadedAiohttpServerData) :
  make_url self "" = Raise (Exn IndexError "string index out of range")
  /\ str_index0 "" = Raise (Exn IndexError "string index out of range")
  /\ String.prefix "/" "" = false
  /\ (forall m, make_url self "" <> Raise (Exn ValueError m))
  /\ (forall c rest m, make_url self (String c rest) <> Raise (Exn IndexError m)).
Proof.
  repeat split; try discriminate.
  intros c rest m. unfold make_url. simpl.
  destruct (Ascii.eqb c "/"); simpl; discriminate.
Qed.

(** ** Stores and traces *)

Lemma log_log (s : Store) (a b : list event) : log (log s a) b = log s (a ++ b).
Proof. unfold log, with_trace. simpl. now rewrite app_assoc. Qed.

Lemma log_nil (s : Store) : log s [] = s.
Proof. destruct s. unfold log, with_trace. simpl. now rewrite app_nil_r. Qed.

Lemma trace_log (s : Store) (a : list event) : trace (log s a) = trace s ++ a.
Proof. reflexivity. Qed.

(** [polls read k] holds [k] status reads and [k] sleeps of 3 seconds. *)
Lemma count_reads_polls (k : nat) :
  count_reads (polls CallStatusRead k) = k
  /\ count_reads (polls CallStatusReadWithHttpInfo k) = k.
Proof.
  induction k as [|k [IH1 IH2]]; [split; reflexivity|].
  unfold count_reads in *. simpl. now rewrite IH1, IH2.
Qed.

Lemma sleeps_of_polls (k : nat) :
  let sleeps t :=
    flat_map (fun ev => match ev with CallSleep n => [n] | _ => [] end) t in
  sleeps (polls CallStatusRead k) = repeat 3%Z k
  /\ sleeps (polls CallStatusReadWithHttpInfo k) = repeat 3%Z k.
Proof.
  induction k as [|k [IH1 IH2]]; [split; reflexivity|].
  simpl in *. now rewrite IH1, IH2.
Qed.

(** Among the first [n] attempts either all pass a decidable test, or there
    is a first one that does not. *)
Lemma first_failing (P : nat -> bool) (n : nat) :
  (forall j, j < n -> P j = true)
  \/ exists k, k < n /\ (forall j, j < k -> P j = true) /\ P k = false.
Proof.
  induction n as [|n [Hall|(k & Hk & Hbefore & Hfail)]].
  - left. intros j Hj. lia.
  - destruct (P n) eqn:Hn.
    + left. intros j Hj. destruct (Nat.eq_dec j n) as [->|]; [exact Hn|].
      apply Hall. lia.
    + right. exists n. repeat split; [lia|assumption|assumption].
  - right. exists k. repeat split; [lia|assumption|assumption].
Qed.

(** ** Service availability: [stop_and_check_services] *)

Section Stop.

Variable w : World.

Lemma stop_poll_run (i : nat) (s : Store) :
  stop_poll w i s
  = (match status_read w (trace s ++ [CallSleep 3]) with
     | Ok _ => Ok None
     | Raise e => if not_responding e then Ok (Some true) else Raise e
     end,
     log s [CallSleep 3; CallStatusRead]).
Proof.
  unfold stop_poll, time_sleep, bind, try_except, call, ret. simpl.
  rewrite log_log. simpl.
  destruct (status_read w (trace s ++ [CallSleep 3])) as [st|e]; [reflexivity|].
  unfold not_responding, isinstance. simpl. now destruct (_ || _).
Qed.

Lemma stop_answer_shift (s : Store) (j : nat) :
  stop_answer w (trace (log s [CallSleep 3; CallStatusRead])) j
  = stop_answer w (trace s) (S j).
Proof.
  unfold stop_answer. rewrite trace_log. simpl. now rewrite <- app_assoc.
Qed.

Lemma stop_loop_all_up (l : list nat) :
  forall s,
    (forall j, j < List.length l -> exists st, stop_answer w (trace s) j = Ok st) ->
    for_return l (stop_poll w) s
    = (Ok None, log s (polls CallStatusRead (List.length l))).
Proof.
  induction l as [|i l IH]; intros s Hup.
  - simpl. unfold ret. now rewrite log_nil.
  - simpl. unfold bind. rewrite stop_poll_run.
    destruct (Hup 0) as [st Hst]; [simpl; lia|].
    unfold stop_answer in Hst. simpl in Hst. rewrite Hst.
    rewrite IH.
    + now rewrite log_log.
    + intros j Hj. rewrite stop_answer_shift. apply Hup. simpl. lia.
Qed.

Lemma stop_loop_first_down (k : nat) :
  forall (l : list nat) (s : Store) (e : exn),
    k < List.length l ->
    (forall j, j < k -> exists st, stop_answer w (trace s) j = Ok st) ->
    stop_answer w (trace s) k = Raise e ->
    for_return l (stop_poll w) s
    = ((if not_responding e then Ok (Some true) else Raise e),
       log s (polls CallStatusRead (S k))).
Proof.
  induction k as [|k IH]; intros l s e Hk Hup Hdown;
    (destruct l as [|i l]; [simpl in Hk; lia|]).
  - simpl. unfold bind. rewrite stop_poll_run.
    unfold stop_answer in Hdown. simpl in Hdown. rewrite Hdown.
    destruct (not_responding e); reflexivity.
  - simpl for_return. unfold bind. rewrite stop_poll_run.
    destruct (Hup 0) as [st Hst]; [lia|].
    unfold stop_answer in Hst. simpl in Hst. rewrite Hst.
    rewrite (IH l _ e).
    + now rewrite log_log.
    + simpl in Hk. lia.
    + intros j Hj. rewrite stop_answer_shift. apply Hup. lia.
    + rewrite stop_answer_shift. exact Hdown.
Qed.

End Stop.

Lemma stop_and_check_services_run (w : World) (pulp_services : option (list string))
    (s : Store) :
  let services := py_or pulp_services PULP_SERVICES in
  _stop_and_check_services w pulp_services s
  = match svc_mgr_stop w (trace s) services with
    | Raise e => (Raise e, log s [CallSvcStop services])
    | Ok _ =>
        match for_return (range 10) (stop_poll w) (log s [CallSvcStop services]) with
        | (Ok (Some b), s') => (Ok b, s')
        | (Ok None, s') => (Ok false, s')
        | (Raise e, s') => (Raise e, s')
        end
    end.
Proof.
  intros services. unfold _stop_and_check_services, bind, call, ret.
  fold services. destruct (svc_mgr_stop w (trace s) services); [|reflexivity].
  destruct (for_return _ _ _) as [[[b|]|e] s']; reflexivity.
Qed.

Example stop_going_down :
  _stop_and_check_services going_down None empty_store
  = (Ok true, log empty_store (CallSvcStop PULP_SERVICES :: polls CallStatusRead 3)).
Proof. reflexivity. Qed.

Example stop_still_up :
  _stop_and_check_services healthy (Some ["pulpcore-api"%string]) empty_store
  = (Ok false,
     log empty_store (CallSvcStop ["pulpcore-api"%string] :: polls CallStatusRead 10)).
Proof. reflexivity. Qed.

(** C6, as the code has it: what [svc_mgr.stop] raises is what the poller
    raises, no status read being made; once [svc_mgr.stop] has returned,
    the poller returns [True] at the first attempt whose status read raises
    a [MaxRetryError] or an [ApiException], having slept 3 seconds before
    each read made so far; it raises what the first failing status read
    raised when that is of neither class, no later attempt being made; it
    returns [False] after exactly 10 such attempts when every status read
    returns; and it raises nothing else. *)
Theorem stop_and_check_services_polls
    (w : World) (pulp_services : option (list string)) (s : Store) :
  let services := py_or pulp_services PULP_SERVICES in
  let t0 := trace s ++ [CallSvcStop services] in
  let run := _stop_and_check_services w pulp_services s in
  (forall k e,
      svc_mgr_stop w (trace s) services = Ok tt ->
      k < 10 ->
      (forall j, j < k -> exists st, stop_answer w t0 j = Ok st) ->
      stop_answer w t0 k = Raise e ->
      not_responding e = true ->
      run = (Ok true, log s (CallSvcStop services :: polls CallStatusRead (S k))))
  /\ (svc_mgr_stop w (trace s) services = Ok tt ->
      (forall j, j < 10 -> exists st, stop_answer w t0 j = Ok st) ->
      run = (Ok false, log s (CallSvcStop services :: polls CallStatusRead 10)))
  /\ (forall e,
        fst run = Raise e ->
        svc_mgr_stop w (trace s) services = Raise e
        \/ exists k, k < 10
             /\ (forall j, j < k -> exists st, stop_answer w t0 j = Ok st)
             /\ stop_answer w t0 k = Raise e
             /\ not_responding e = false)
  /\ (forall e,
        svc_mgr_stop w (trace s) services = Raise e ->
        run = (Raise e, log s [CallSvcStop services]))
  /\ (forall k e,
        svc_mgr_stop w (trace s) services = Ok tt ->
        k < 10 ->
        (forall j, j < k -> exists st, stop_answer w t0 j = Ok st) ->
        stop_answer w t0 k = Raise e ->
        not_responding e = false ->
        run = (Raise e, log s (CallSvcStop services :: polls CallStatusRead (S k)))).
Proof.
  intros services t0 run. subst run.
  rewrite stop_and_check_services_run. fold services.
  assert (Ht0 : trace (log s [CallSvcStop services]) = t0) by reflexivity.
  split; [|split; [|split; [|split]]].
  - intros k e Hstop Hk Hup Hdown He. rewrite Hstop.
    rewrite (stop_loop_first_down w k (range 10) _ e);
      [|exact Hk|rewrite Ht0; exact Hup|rewrite Ht0; exact Hdown].
    rewrite He, log_log. reflexivity.
  - intros Hstop Hup. rewrite Hstop.
    rewrite (stop_loop_all_up w (range 10)); [|rewrite Ht0; exact Hup].
    rewrite log_log. reflexivity.
  - intros e. destruct (svc_mgr_stop w (trace s) services) as [[]|e0].
    + destruct (first_failing
                  (fun j => match stop_answer w t0 j with Ok _ => true | _ => false end)
                  10) as [Hall|(k & Hk & Hbefore & Hfail)].
      * rewrite (stop_loop_all_up w (range 10)).
        { simpl. discriminate. }
        rewrite Ht0. intros j Hj. specialize (Hall j Hj).
        destruct (stop_answer w t0 j) as [st|]; [now exists st|discriminate].
      * assert (Hup : forall j, j < k -> exists st, stop_answer w t0 j = Ok st).
        { intros j Hj. specialize (Hbefore j Hj).
          destruct (stop_answer w t0 j) as [st|]; [now exists st|discriminate]. }
        destruct (stop_answer w t0 k) as [st|e1] eqn:Hdown; [discriminate|].
        rewrite (stop_loop_first_down w k (range 10) _ e1);
          [|exact Hk|rewrite Ht0; exact Hup|rewrite Ht0; exact Hdown].
        destruct (not_responding e1) eqn:He1; simpl; [discriminate|].
        intros [= ->]. right. exists k. repeat split; assumption.
    + simpl. intros [= ->]. now left.
  - intros e Hstop. rewrite Hstop. reflexivity.
  - intros k e Hstop Hk Hup Hdown He. rewrite Hstop.
    rewrite (stop_loop_first_down w k (range 10) _ e);
      [|exact Hk|rewrite Ht0; exact Hup|rewrite Ht0; exact Hdown].
    rewrite He, log_log. reflexivity.
Qed.

Lemma stop_and_check_services_polls_witness :
  _stop_and_check_services going_down None empty_store
  = (Ok true, log empty_store (CallSvcStop PULP_SERVICES :: polls CallStatusRead 3))
  /\ _stop_and_check_services healthy None empty_store
     = (Ok false, log empty_store (CallSvcStop PULP_SERVICES :: polls CallStatusRead 10))
  /\ (exists k, k < 10
        /\ stop_answer garbled [CallSvcStop PULP_SERVICES] k
           = Raise (Exn (OtherException "ProtocolError") "Connection aborted."))
  /\ _stop_and_check_services service_manager_fails None empty_store
     = (Raise (Exn (OtherException "CalledProcessError")
                   "systemctl returned non-zero exit status 1"),
        log empty_store [CallSvcStop PULP_SERVICES])
  /\ _stop_and_check_services garbled (Some ["pulpcore-api"%string]) empty_store
     = (Raise (Exn (OtherException "ProtocolError") "Connection aborted."),
        log empty_store (CallSvcStop ["pulpcore-api"%string] :: polls CallStatusRead 1)).
Proof.
  split; [|split; [|split; [|split]]].
  - destruct (stop_and_check_services_polls going_down None empty_store)
      as (Hdown & _).
    apply (Hdown 2 (Exn MaxRetryError "Max retries exceeded")).
    + reflexivity.
    + lia.
    + intros j Hj. exists up_status.
      destruct j as [|[|j]]; [reflexivity|reflexivity|lia].
    + reflexivity.
    + reflexivity.
  - destruct (stop_and_check_services_polls healthy None empty_store)
      as (_ & Hup & _).
    apply Hup.
    + reflexivity.
    + intros j Hj. now exists up_status.
  - destruct (stop_and_check_services_polls garbled None empty_store)
      as (_ & _ & Hraised & _).
    destruct (Hraised (Exn (OtherException "ProtocolError") "Connection aborted.")
                eq_refl) as [Hstop|(k & Hk & _ & Hdown & _)].
    + discriminate Hstop.
    + exists k. split; [exact Hk|exact Hdown].
  - destruct (stop_and_check_services_polls service_manager_fails None empty_store)
      as (_ & _ & _ & Hmanager & _).
    apply Hmanager. reflexivity.
  - destruct (stop_and_check_services_polls garbled (Some ["pulpcore-api"%string])
                empty_store) as (_ & _ & _ & _ & Hother).
    apply (Hother 0).
    + reflexivity.
    + lia.
    + intros j Hj. lia.
    + reflexivity.
    + reflexivity.
Defined.

(** C6 as stated fails: a status read that raises an exception of another
    class is not taken by the [except] clause, and the poller raises. *)
Lemma stop_and_check_services_can_raise :
  fst (_stop_and_check_services garbled None empty_store)
  = Raise (Exn (OtherException "ProtocolError") "Connection aborted.")
  /\ forall b, fst (_stop_and_check_services garbled None empty_store) <> Ok b.
Proof. split; [reflexivity|]. intros b. discriminate. Qed.

(** ** Service availability: [start_and_check_services] *)

Lemma services_ready_true (status : Status) (http_code : Z) :
  services_ready status http_code = true
  <-> (http_code = 200%Z
       /\ 0 < List.length (online_workers status)
       /\ 0 < List.length (online_content_apps status)
       /\ connected (database_connection status) = true).
Proof.
  unfold services_ready. rewrite !andb_true_iff, Z.eqb_eq, !Nat.ltb_lt. tauto.
Qed.

Lemma not_ready_yet_verdict (r : result (Status * Z)) :
  not_ready_yet r <-> start_verdict r = Ok None.
Proof.
  destruct r as [[status http_code]|e]; simpl.
  - destruct (services_ready status http_code); split; congruence.
  - destruct (not_responding e); split; congruence.
Qed.

Section Start.

Variable w : World.

Lemma start_poll_run (i : nat) (s : Store) :
  start_poll w i s
  = (start_verdict (status_read_with_http_info w (trace s ++ [CallSleep 3])),
     log s [CallSleep 3; CallStatusReadWithHttpInfo]).
Proof.
  unfold start_poll, time_sleep, bind, try_except, call, ret. simpl.
  rewrite log_log. simpl.
  destruct (status_read_with_http_info w (trace s ++ [CallSleep 3]))
    as [[status http_code]|e]; simpl.
  - now destruct (services_ready status http_code).
  - unfold not_responding, isinstance. simpl. now destruct (_ || _).
Qed.

Lemma start_answer_shift (s : Store) (j : nat) :
  start_answer w (trace (log s [CallSleep 3; CallStatusReadWithHttpInfo])) j
  = start_answer w (trace s) (S j).
Proof.
  unfold start_answer. rewrite trace_log. simpl. now rewrite <- app_assoc.
Qed.

Lemma start_answer_0 (s : Store) :
  status_read_with_http_info w (trace s ++ [CallSleep 3]) = start_answer w (trace s) 0.
Proof. reflexivity. Qed.

Lemma start_loop_all_waiting (l : list nat) :
  forall s,
    (forall j, j < List.length l ->
               start_verdict (start_answer w (trace s) j) = Ok None) ->
    for_return l (start_poll w) s
    = (Ok None, log s (polls CallStatusReadWithHttpInfo (List.length l))).
Proof.
  induction l as [|i l IH]; intros s Hwait.
  - simpl. unfold ret. now rewrite log_nil.
  - simpl. unfold bind. rewrite start_poll_run, start_answer_0.
    rewrite (Hwait 0) by (simpl; lia).
    rewrite IH.
    + now rewrite log_log.
    + intros j Hj. rewrite start_answer_shift. apply Hwait. simpl. lia.
Qed.

Lemma start_loop_first_verdict (k : nat) :
  forall (l : list nat) (s : Store),
    k < List.length l ->
    (forall j, j < k -> start_verdict (start_answer w (trace s) j) = Ok None) ->
    start_verdict (start_answer w (trace s) k) <> Ok None ->
    for_return l (start_poll w) s
    = (match start_verdict (start_answer w (trace s) k) with
       | Ok None => Ok None
       | Ok (Some b) => Ok (Some b)
       | Raise e => Raise e
       end,
       log s (polls CallStatusReadWithHttpInfo (S k))).
Proof.
  induction k as [|k IH]; intros l s Hk Hwait Hstop;
    (destruct l as [|i l]; [simpl in Hk; lia|]).
  - simpl. unfold bind. rewrite start_poll_run, start_answer_0.
    destruct (start_verdict (start_answer w (trace s) 0)) as [[b|]|e];
      [reflexivity|congruence|reflexivity].
  - simpl for_return. unfold bind. rewrite start_poll_run, start_answer_0.
    rewrite (Hwait 0) by lia.
    rewrite (IH l).
    + now rewrite log_log, start_answer_shift.
    + simpl in Hk. lia.
    + intros j Hj. rewrite start_answer_shift. apply Hwait. lia.
    + rewrite start_answer_shift. exact Hstop.
Qed.

Lemma start_and_check_services_run (pulp_services : option (list string)) (s : Store) :
  let services := py_or pulp_services PULP_SERVICES in
  _start_and_check_services w pulp_services s
  = match svc_mgr_start w (trace s) services with
    | Raise e => (Raise e, log s [CallSvcStart services])
    | Ok _ =>
        match for_return (range 10) (start_poll w) (log s [CallSvcStart services]) with
        | (Ok (Some b), s') => (Ok b, s')
        | (Ok None, s') => (Ok false, s')
        | (Raise e, s') => (Raise e, s')
        end
    end.
Proof.
  intros services. unfold _start_and_check_services, bind, call, ret.
  fold services. destruct (svc_mgr_start w (trace s) services); [|reflexivity].
  destruct (for_return _ _ _) as [[[b|]|e] s']; reflexivity.
Qed.

End Start.

Example start_warming_up :
  _start_and_check_services warming_up None empty_store
  = (Ok true,
     log empty_store (CallSvcStart PULP_SERVICES :: polls CallStatusReadWithHttpInfo 3)).
Proof. reflexivity. Qed.

Example start_never_ready :
  _start_and_check_services never_ready None empty_store
  = (Ok false,
     log empty_store (CallSvcStart PULP_SERVICES :: polls CallStatusReadWithHttpInfo 10)).
Proof. reflexivity. Qed.

Lemma start_loop_cases (w : World) (l : list nat) (s : Store) :
  ((forall j, j < List.length l -> not_ready_yet (start_answer w (trace s) j))
   /\ for_return l (start_poll w) s
      = (Ok None, log s (polls CallStatusReadWithHttpInfo (List.length l))))
  \/ exists k,
       k < List.length l
       /\ (forall j, j < k -> not_ready_yet (start_answer w (trace s) j))
       /\ start_verdict (start_answer w (trace s) k) <> Ok None
       /\ for_return l (start_poll w) s
          = (match start_verdict (start_answer w (trace s) k) with
             | Ok None => Ok None
             | Ok (Some b) => Ok (Some b)
             | Raise e => Raise e
             end,
             log s (polls CallStatusReadWithHttpInfo (S k))).
Proof.
  set (waiting := fun j =>
         match start_verdict (start_answer w (trace s) j) with
         | Ok None => true
         | _ => false
         end).
  assert (Hw : forall j, waiting j = true ->
                         start_verdict (start_answer w (trace s) j) = Ok None).
  { intros j. unfold waiting.
    destruct (start_verdict _) as [[b|]|e]; congruence. }
  destruct (first_failing waiting (List.length l))
    as [Hall|(k & Hk & Hbefore & Hfail)].
  - left. split.
    + intros j Hj. apply not_ready_yet_verdict, Hw, Hall, Hj.
    + apply start_loop_all_waiting. intros j Hj. apply Hw, Hall, Hj.
  - right. exists k.
    assert (Hstop : start_verdict (start_answer w (trace s) k) <> Ok None).
    { intros Hv. unfold waiting in Hfail. rewrite Hv in Hfail. discriminate. }
    repeat split; [exact Hk| |exact Hstop|].
    + intros j Hj. apply not_ready_yet_verdict, Hw, Hbefore, Hj.
    + apply start_loop_first_verdict; [exact Hk| |exact Hstop].
      intros j Hj. apply Hw, Hbefore, Hj.
Qed.

(** C5, as the code has it: what [svc_mgr.start] raises is what the poller
    raises, no status read being made; the poller returns [True] only if
    one of at most 10 attempts, each a 3-second sleep followed by a status
    read, got an answer with HTTP code 200, a worker online, a content app
    online and the database connected, and it does return [True] at the
    first such attempt when [svc_mgr.start] returned and every earlier
    attempt was either not ready or failed with a [MaxRetryError] or an
    [ApiException]; after such attempts it raises what a status read raised
    when that is of neither class, no later attempt being made; when all 10
    attempts are not ready or failed with one of the two classes it returns
    [False] after exactly 10 attempts; and it raises nothing else. *)
Theorem start_and_check_services_polls
    (w : World) (pulp_services : option (list string)) (s : Store) :
  let services := py_or pulp_services PULP_SERVICES in
  let t0 := trace s ++ [CallSvcStart services] in
  let run := _start_and_check_services w pulp_services s in
  (forall s',
      run = (Ok true, s') ->
      exists k status http_code,
        k < 10
        /\ start_answer w t0 k = Ok (status, http_code)
        /\ http_code = 200%Z
        /\ 0 < List.length (online_workers status)
        /\ 0 < List.length (online_content_apps status)
        /\ connected (database_connection status) = true
        /\ s' = log s (CallSvcStart services
                         :: polls CallStatusReadWithHttpInfo (S k)))
  /\ (forall k status http_code,
        svc_mgr_start w (trace s) services = Ok tt ->
        k < 10 ->
        (forall j, j < k -> not_ready_yet (start_answer w t0 j)) ->
        start_answer w t0 k = Ok (status, http_code) ->
        services_ready status http_code = true ->
        run = (Ok true,
               log s (CallSvcStart services
                        :: polls CallStatusReadWithHttpInfo (S k))))
  /\ (svc_mgr_start w (trace s) services = Ok tt ->
      (forall j, j < 10 -> not_ready_yet (start_answer w t0 j)) ->
      run = (Ok false,
             log s (CallSvcStart services :: polls CallStatusReadWithHttpInfo 10)))
  /\ (forall e,
        fst run = Raise e ->
        svc_mgr_start w (trace s) services = Raise e
        \/ exists k, k < 10
             /\ (forall j, j < k -> not_ready_yet (start_answer w t0 j))
             /\ start_answer w t0 k = Raise e
             /\ not_responding e = false)
  /\ (forall e,
        svc_mgr_start w (trace s) services = Raise e ->
        run = (Raise e, log s [CallSvcStart services]))
  /\ (forall k e,
        svc_mgr_start w (trace s) services = Ok tt ->
        k < 10 ->
        (forall j, j < k -> not_ready_yet (start_answer w t0 j)) ->
        start_answer w t0 k = Raise e ->
        not_responding e = false ->
        run = (Raise e,
               log s (CallSvcStart services
                        :: polls CallStatusReadWithHttpInfo (S k)))).
Proof.
  intros services t0 run. subst run.
  rewrite start_and_check_services_run. fold services.
  assert (Ht0 : trace (log s [CallSvcStart services]) = t0) by reflexivity.
  destruct (start_loop_cases w (range 10) (log s [CallSvcStart services]))
    as [[Hall Hloop]|(k & Hk & Hbefore & Hstop & Hloop)];
    rewrite Ht0 in *; rewrite Hloop; clear Hloop; rewrite log_log;
    change (List.length (range 10)) with 10 in *; simpl app.
  - (* all ten attempts went on *)
    split; [|split; [|split; [|split; [|split]]]].
    + intros s'. destruct (svc_mgr_start w (trace s) services); discriminate.
    + intros k status http_code _ Hk _ Hans Hready.
      specialize (Hall k Hk). rewrite Hans in Hall. simpl in Hall. congruence.
    + intros ->. reflexivity.
    + intros e. destruct (svc_mgr_start w (trace s) services) as [[]|e0]; simpl.
      * discriminate.
      * intros [= ->]. now left.
    + intros e ->. reflexivity.
    + intros k e _ Hk _ Hans He.
      specialize (Hall k Hk). rewrite Hans in Hall. simpl in Hall. congruence.
  - (* attempt k ended the loop *)
    split; [|split; [|split; [|split; [|split]]]].
    + intros s'. destruct (svc_mgr_start w (trace s) services); [|discriminate].
      destruct (start_answer w t0 k) as [[status http_code]|e] eqn:Hans; simpl in *.
      * destruct (services_ready status http_code) eqn:Hready; [|congruence].
        intros [= <-]. exists k, status, http_code.
        apply services_ready_true in Hready. tauto.
      * destruct (not_responding e); [congruence|discriminate].
    + intros k' status http_code -> Hk' Hbefore' Hans Hready.
      assert (k' = k) as ->.
      { destruct (Nat.lt_trichotomy k' k) as [Hlt|[Heq|Hgt]]; [|exact Heq|].
        - specialize (Hbefore k' Hlt). rewrite Hans in Hbefore.
          simpl in Hbefore. congruence.
        - specialize (Hbefore' k Hgt).
          apply not_ready_yet_verdict in Hbefore'. contradiction. }
      rewrite Hans. simpl. rewrite Hready. reflexivity.
    + intros _ Hall. specialize (Hall k Hk).
      apply not_ready_yet_verdict in Hall. contradiction.
    + intros e. destruct (svc_mgr_start w (trace s) services) as [[]|e0]; simpl.
      * destruct (start_answer w t0 k) as [[status http_code]|e1] eqn:Hans; simpl in *.
        { destruct (services_ready status http_code); [discriminate|congruence]. }
        destruct (not_responding e1) eqn:He1; [congruence|].
        simpl. intros [= ->]. right. exists k. repeat split; assumption.
      * intros [= ->]. now left.
    + intros e ->. reflexivity.
    + intros k' e -> Hk' Hbefore' Hans He.
      assert (k' = k) as ->.
      { destruct (Nat.lt_trichotomy k' k) as [Hlt|[Heq|Hgt]]; [|exact Heq|].
        - specialize (Hbefore k' Hlt). rewrite Hans in Hbefore.
          simpl in Hbefore. congruence.
        - specialize (Hbefore' k Hgt).
          apply not_ready_yet_verdict in Hbefore'. contradiction. }
      rewrite Hans. simpl. rewrite He. reflexivity.
Qed.

Lemma start_and_check_services_polls_witness :
  (exists k status, k < 10
     /\ start_answer warming_up [CallSvcStart PULP_SERVICES] k = Ok (status, 200%Z)
     /\ connected (database_connection status) = true)
  /\ _start_and_check_services warming_up None empty_store
     = (Ok true,
        log empty_store
          (CallSvcStart PULP_SERVICES :: polls CallStatusReadWithHttpInfo 3))
  /\ _start_and_check_services never_ready None empty_store
     = (Ok false,
        log empty_store
          (CallSvcStart PULP_SERVICES :: polls CallStatusReadWithHttpInfo 10))
  /\ (exists k, k < 10
        /\ start_answer garbled [CallSvcStart PULP_SERVICES] k
           = Raise (Exn (OtherException "ProtocolError") "Connection aborted."))
  /\ _start_and_check_services service_manager_fails None empty_store
     = (Raise (Exn (OtherException "CalledProcessError")
                   "systemctl returned non-zero exit status 1"),
        log empty_store [CallSvcStart PULP_SERVICES])
  /\ _start_and_check_services garbled (Some ["pulpcore-api"%string]) empty_store
     = (Raise (Exn (OtherException "ProtocolError") "Connection aborted."),
        log empty_store
          (CallSvcStart ["pulpcore-api"%string]
             :: polls CallStatusReadWithHttpInfo 1)).
Proof.
  destruct (start_and_check_services_polls warming_up None empty_store)
    as (Honly & Htrue & _).
  destruct (start_and_check_services_polls never_ready None empty_store)
    as (_ & _ & Hfalse & _).
  destruct (start_and_check_services_polls garbled None empty_store)
    as (_ & _ & _ & Hraise & _).
  destruct (start_and_check_services_polls service_manager_fails None empty_store)
    as (_ & _ & _ & _ & Hmanager & _).
  destruct (start_and_check_services_polls garbled (Some ["pulpcore-api"%string])
              empty_store) as (_ & _ & _ & _ & _ & Hother).
  split; [|split; [|split; [|split; [|split]]]].
  - destruct (Honly _ eq_refl)
      as (k & status & http_code & Hk & Hans & -> & _ & _ & Hdb & _).
    exists k, status. repeat split; assumption.
  - apply (Htrue 2 up_status 200%Z).
    + reflexivity.
    + lia.
    + intros j Hj. destruct j as [|[|j]]; [reflexivity|reflexivity|lia].
    + reflexivity.
    + reflexivity.
  - apply Hfalse.
    + reflexivity.
    + intros j Hj. reflexivity.
  - destruct (Hraise (Exn (OtherException "ProtocolError") "Connection aborted.")
                eq_refl) as [Hstart|(k & Hk & _ & Hans & _)].
    + discriminate Hstart.
    + exists k. split; [exact Hk|exact Hans].
  - apply Hmanager. reflexivity.
  - apply (Hother 0).
    + reflexivity.
    + lia.
    + intros j Hj. lia.
    + reflexivity.
    + reflexivity.
Defined.

(** C5 as stated fails: a status read that raises an exception of another
    class is not taken by the [except] clause; the poller then neither
    returns [False] after 10 attempts nor refrains from raising. *)
Lemma start_and_check_services_can_raise :
  fst (_start_and_check_services garbled None empty_store)
  = Raise (Exn (OtherException "ProtocolError") "Connection aborted.")
  /\ (forall b, fst (_start_and_check_services garbled None empty_store) <> Ok b)
  /\ trace (snd (_start_and_check_services garbled None empty_store))
     = CallSvcStart PULP_SERVICES :: polls CallStatusReadWithHttpInfo 1.
Proof. repeat split. intros b. discriminate. Qed.

(** ** Object cleanup: the [add_to_cleanup] teardown *)

Lemma deletes_of_app (a b : list event) :
  deletes_of (a ++ b) = deletes_of a ++ deletes_of b.
Proof. apply flat_map_app. Qed.

Lemma monitored_app (a b : list event) :
  monitored (a ++ b) = monitored a ++ monitored b.
Proof. apply flat_map_app. Qed.

Lemma deletes_of_deletes (l : list (ApiClient * Href)) :
  deletes_of (map ev_delete l) = l.
Proof. induction l as [|[c h] l IH]; simpl; [reflexivity|]. now rewrite IH. Qed.

Lemma monitored_deletes (l : list (ApiClient * Href)) :
  monitored (map ev_delete l) = [].
Proof. induction l as [|[c h] l IH]; simpl; [reflexivity|exact IH]. Qed.

Lemma deletes_of_monitors (ts : list TaskHref) :
  deletes_of (map CallMonitorTask ts) = [].
Proof. induction ts as [|t ts IH]; simpl; [reflexivity|exact IH]. Qed.

Lemma monitored_monitors (ts : list TaskHref) :
  monitored (map CallMonitorTask ts) = ts.
Proof. induction ts as [|t ts IH]; simpl; [reflexivity|]. now rewrite IH. Qed.

Lemma collected_tasks_app (w : World) (pre post : list (ApiClient * Href)) :
  forall t,
    collected_tasks w t (pre ++ post)
    = collected_tasks w t pre
      ++ collected_tasks w (t ++ map ev_delete pre) post.
Proof.
  induction pre as [|[c h] pre IH]; intros t; simpl.
  - now rewrite app_nil_r.
  - rewrite IH, <- !app_assoc. reflexivity.
Qed.

Section Cleanup.

Variable w : World.

(** The first loop never raises: whatever a deletion does, the loop goes
    on to the next entry, and it keeps the task references handed back. *)
Lemma delete_loop_run (refs : list (ApiClient * Href)) :
  forall (acc : list TaskHref) (s : Store),
    delete_loop w refs acc s
    = (Ok (acc ++ collected_tasks w (trace s) refs), log s (map ev_delete refs)).
Proof.
  induction refs as [|[c h] refs IH]; intros acc s.
  - simpl. unfold ret. now rewrite app_nil_r, log_nil.
  - simpl delete_loop. unfold bind at 1.
    unfold try_except, bind, call, lift, ret, is_Exception.
    simpl collected_tasks.
    destruct (api_delete w (trace s) c h) as [[o|r|]|e]; simpl;
      rewrite IH, log_log; simpl; rewrite <- ?app_assoc; reflexivity.
Qed.

Lemma teardown_run (s : Store) :
  add_to_cleanup_teardown w s
  = for_each (collected_tasks w (trace s) (rev (obj_refs s))) (wait_for w)
      (log s (map ev_delete (rev (obj_refs s)))).
Proof.
  unfold add_to_cleanup_teardown, bind. rewrite delete_loop_run. reflexivity.
Qed.

Lemma wait_loop_step (t : TaskHref) (ts : list TaskHref) (s : Store) :
  for_each (t :: ts) (wait_for w) s
  = match monitor_task w (trace s) t with
    | Ok _ => for_each ts (wait_for w) (log s [CallMonitorTask t])
    | Raise e => (Raise e, log s [CallMonitorTask t])
    end.
Proof.
  simpl for_each. unfold bind at 1. unfold wait_for at 1. unfold bind, call, ret.
  now destruct (monitor_task w (trace s) t).
Qed.

(** The second loop: either every [monitor_task] call returns and all the
    tasks are waited for, or the first call that raises ends the loop. *)
Lemma wait_loop_cases (ts : list TaskHref) :
  forall s,
    (monitors_return w (trace s) ts
     /\ for_each ts (wait_for w) s = (Ok tt, log s (map CallMonitorTask ts)))
    \/ exists pre t post e,
         ts = pre ++ t :: post
         /\ monitor_task w (trace s ++ map CallMonitorTask pre) t = Raise e
         /\ for_each ts (wait_for w) s
            = (Raise e, log s (map CallMonitorTask (pre ++ [t]))).
Proof.
  induction ts as [|t ts IH]; intros s.
  - left. split; [exact I|]. simpl. unfold ret. now rewrite log_nil.
  - rewrite wait_loop_step.
    destruct (monitor_task w (trace s) t) as [d|e] eqn:Hm.
    + destruct (IH (log s [CallMonitorTask t]))
        as [[Hret Hrun]|(pre & t' & post & e & -> & Hraise & Hrun)].
      * left. split.
        { simpl. split; [now exists d|exact Hret]. }
        now rewrite Hrun, log_log.
      * right. exists (t :: pre), t', post, e. split; [reflexivity|].
        split.
        { rewrite trace_log, <- app_assoc in Hraise. exact Hraise. }
        now rewrite Hrun, log_log.
    + right. exists [], t, ts, e. split; [reflexivity|].
      split; [now rewrite app_nil_r|reflexivity].
Qed.

Lemma wait_loop_returns (ts : list TaskHref) (s : Store) :
  monitors_return w (trace s) ts ->
  for_each ts (wait_for w) s = (Ok tt, log s (map CallMonitorTask ts)).
Proof.
  revert s. induction ts as [|t ts IH]; intros s Hret.
  - simpl. unfold ret. now rewrite log_nil.
  - destruct Hret as [[d Hd] Hrest].
    rewrite wait_loop_step, Hd. rewrite IH by exact Hrest. now rewrite log_log.
Qed.

(** The first [monitor_task] call that raises ends the second loop with
    what it raised; the tasks after it are not waited for. *)
Lemma wait_loop_first_raise (pre : list TaskHref) :
  forall (t : TaskHref) (post : list TaskHref) (e : exn) (s : Store),
    monitors_return w (trace s) pre ->
    monitor_task w (trace s ++ map CallMonitorTask pre) t = Raise e ->
    for_each (pre ++ t :: post) (wait_for w) s
    = (Raise e, log s (map CallMonitorTask (pre ++ [t]))).
Proof.
  induction pre as [|x pre IH]; intros t post e s Hret Hraise.
  - simpl app. rewrite wait_loop_step.
    simpl in Hraise. rewrite app_nil_r in Hraise. now rewrite Hraise.
  - destruct Hret as [[d Hd] Hrest].
    change ((x :: pre) ++ t :: post) with (x :: (pre ++ t :: post)).
    rewrite wait_loop_step, Hd.
    rewrite (IH t post e).
    + now rewrite log_log.
    + exact Hrest.
    + rewrite trace_log, <- app_assoc. exact Hraise.
Qed.

End Cleanup.

Lemma with_obj_refs_twice (s : Store) (a b : list (ApiClient * Href)) :
  with_obj_refs (with_obj_refs s a) b = with_obj_refs s b.
Proof. reflexivity. Qed.

Lemma register_all (entries : list (ApiClient * Href)) :
  forall s,
    for_each entries (fun e => _add_to_cleanup (fst e) (snd e)) s
    = (Ok tt, with_obj_refs s (obj_refs s ++ entries)).
Proof.
  induction entries as [|[c h] entries IH]; intros s.
  - simpl. unfold ret. rewrite app_nil_r. now destruct s.
  - simpl for_each. unfold bind, _add_to_cleanup at 1. rewrite IH.
    simpl. now rewrite <- app_assoc.
Qed.

Lemma add_to_cleanup_fixture_run (w : World) (entries : list (ApiClient * Href))
    (s : Store) :
  add_to_cleanup_fixture w entries s
  = add_to_cleanup_teardown w (with_obj_refs s entries).
Proof.
  unfold add_to_cleanup_fixture, bind, add_to_cleanup_setup.
  now rewrite register_all.
Qed.

(** What the teardown leaves in the trace: one deletion per entry, newest
    first, then the waits. *)
Lemma teardown_trace (w : World) (s : Store) :
  exists waited,
    trace (snd (add_to_cleanup_teardown w s))
    = trace s ++ map ev_delete (rev (obj_refs s)) ++ map CallMonitorTask waited.
Proof.
  rewrite teardown_run.
  destruct (wait_loop_cases w (collected_tasks w (trace s) (rev (obj_refs s)))
              (log s (map ev_delete (rev (obj_refs s)))))
    as [[_ Hrun]|(pre & t & post & e & _ & _ & Hrun)]; rewrite Hrun; simpl.
  - eexists. now rewrite <- app_assoc.
  - eexists. now rewrite <- app_assoc.
Qed.

Example cleanup_three_entries :
  deletes_of (trace (snd (add_to_cleanup_fixture repo_already_gone three_entries
                            empty_store)))
  = [(2, "/distributions/C/"); (1, "/repositories/B/"); (1, "/remotes/A/")]%string
  /\ monitored (trace (snd (add_to_cleanup_fixture repo_already_gone three_entries
                              empty_store)))
     = ["task:/distributions/C/"; "task:/remotes/A/"]%string
  /\ fst (add_to_cleanup_fixture repo_already_gone three_entries empty_store) = Ok tt.
Proof. repeat split. Qed.

(** C1: whatever entries a test registers through [add_to_cleanup], and
    whatever the deletions and the task monitor do, the teardown calls
    [delete] on the entries in reverse order of registration, once for each
    registration; and from any store, the teardown deletes what [obj_refs]
    holds, last entry first. *)
Theorem add_to_cleanup_deletes_in_reverse (w : World) (s : Store) :
  (forall entries : list (ApiClient * Href),
      exists tr,
        trace (snd (add_to_cleanup_fixture w entries s)) = trace s ++ tr
        /\ deletes_of tr = rev entries
        /\ forall e, count_occ entry_eq_dec (deletes_of tr) e
                     = count_occ entry_eq_dec entries e)
  /\ exists tr,
       trace (snd (add_to_cleanup_teardown w s)) = trace s ++ tr
       /\ deletes_of tr = rev (obj_refs s).
Proof.
  assert (Hdel : forall l waited,
             deletes_of (map ev_delete l ++ map CallMonitorTask waited) = l).
  { intros l waited.
    now rewrite deletes_of_app, deletes_of_deletes, deletes_of_monitors, app_nil_r. }
  split.
  - intros entries. rewrite add_to_cleanup_fixture_run.
    destruct (teardown_trace w (with_obj_refs s entries)) as [waited Htr].
    simpl in Htr.
    exists (map ev_delete (rev entries) ++ map CallMonitorTask waited).
    split; [exact Htr|]. split; [apply Hdel|].
    intros e. rewrite Hdel. apply count_occ_rev.
  - destruct (teardown_trace w s) as [waited Htr].
    exists (map ev_delete (rev (obj_refs s)) ++ map CallMonitorTask waited).
    split; [exact Htr|apply Hdel].
Qed.

Lemma collected_tasks_all_raise (w : World) (refs : list (ApiClient * Href)) :
  forall t,
    (forall pre c h post,
        refs = pre ++ (c, h) :: post ->
        exists e, api_delete w (t ++ map ev_delete pre) c h = Raise e) ->
    collected_tasks w t refs = [].
Proof.
  induction refs as [|[c h] refs IH]; intros t Hraise; [reflexivity|].
  simpl. destruct (Hraise [] c h refs eq_refl) as [e He].
  simpl in He. rewrite app_nil_r in He. rewrite He. simpl.
  apply IH. intros pre c' h' post ->.
  destruct (Hraise ((c, h) :: pre) c' h' post eq_refl) as [e' He'].
  exists e'. simpl in He'. now rewrite <- app_assoc.
Qed.

Lemma collected_tasks_In (w : World) (t : list event)
    (pre post : list (ApiClient * Href)) (c : ApiClient) (h : Href)
    (r : AsyncOperationResponse) :
  api_delete w (t ++ map ev_delete pre) c h = Ok (Async r) ->
  In (task r) (collected_tasks w t (pre ++ (c, h) :: post)).
Proof.
  intros Hdel. rewrite collected_tasks_app. simpl. rewrite Hdel.
  apply in_or_app. right. now left.
Qed.

(** C2, as the code has it: an exception raised by a deletion is taken by
    the [except] clause of that entry, so the entries after it are still
    deleted, and no number of failed deletions makes the teardown raise: it
    returns when the waits on the collected tasks return, in particular
    when every deletion raised; what [monitor_task] raises on a task that a
    deletion handed back, the waits before it having returned, is what the
    teardown raises, the tasks after it not being waited for; and the
    teardown raises nothing else. *)
Theorem cleanup_failures_are_swallowed (w : World) (s : Store) :
  let refs := rev (obj_refs s) in
  let tasks := collected_tasks w (trace s) refs in
  let after_deletes := trace s ++ map ev_delete refs in
  let run := add_to_cleanup_teardown w s in
  (forall pre c h post e,
      refs = pre ++ (c, h) :: post ->
      api_delete w (trace s ++ map ev_delete pre) c h = Raise e ->
      exists waited,
        trace (snd run)
        = trace s ++ map ev_delete pre ++ CallDelete c h :: map ev_delete post
          ++ map CallMonitorTask waited)
  /\ (monitors_return w after_deletes tasks ->
      run = (Ok tt, log s (map ev_delete refs ++ map CallMonitorTask tasks)))
  /\ ((forall pre c h post,
          refs = pre ++ (c, h) :: post ->
          exists e, api_delete w (trace s ++ map ev_delete pre) c h = Raise e) ->
      run = (Ok tt, log s (map ev_delete refs)))
  /\ (forall e,
        fst run = Raise e ->
        exists pre t post,
          tasks = pre ++ t :: post
          /\ monitor_task w (after_deletes ++ map CallMonitorTask pre) t = Raise e)
  /\ (forall pre t post e,
        tasks = pre ++ t :: post ->
        monitors_return w after_deletes pre ->
        monitor_task w (after_deletes ++ map CallMonitorTask pre) t = Raise e ->
        run = (Raise e,
               log s (map ev_delete refs ++ map CallMonitorTask (pre ++ [t])))).
Proof.
  intros refs tasks after_deletes run.
  split; [|split; [|split; [|split]]].
  - intros pre c h post e Hrefs _.
    destruct (teardown_trace w s) as [waited Htr]. exists waited.
    subst run. rewrite Htr. fold refs. rewrite Hrefs, map_app. simpl.
    now rewrite <- !app_assoc.
  - intros Hret. subst run. rewrite teardown_run. fold refs tasks.
    rewrite wait_loop_returns by exact Hret. now rewrite log_log.
  - intros Hall. subst run. rewrite teardown_run. fold refs.
    rewrite (collected_tasks_all_raise w refs (trace s) Hall). simpl.
    reflexivity.
  - intros e. subst run. rewrite teardown_run. fold refs tasks.
    destruct (wait_loop_cases w tasks (log s (map ev_delete refs)))
      as [[_ Hrun]|(pre & t & post & e' & Htasks & Hraise & Hrun)];
      rewrite Hrun; simpl; [discriminate|].
    intros [= ->]. exists pre, t, post. split; [exact Htasks|exact Hraise].
  - intros pre t post e Htasks Hret Hraise.
    subst run. rewrite teardown_run. fold refs tasks. rewrite Htasks.
    rewrite (wait_loop_first_raise w pre t post e);
      [now rewrite log_log|exact Hret|exact Hraise].
Qed.

Lemma cleanup_failures_are_swallowed_witness :
  (exists waited,
      trace (snd (add_to_cleanup_teardown repo_already_gone three_registered))
      = [CallDelete 2 "/distributions/C/"; CallDelete 1 "/repositories/B/";
         CallDelete 1 "/remotes/A/"] ++ map CallMonitorTask waited)
  /\ fst (add_to_cleanup_teardown repo_already_gone three_registered) = Ok tt
  /\ add_to_cleanup_teardown repo_already_gone repo_registered
     = (Ok tt, log repo_registered [CallDelete 1 "/repositories/B/"])
  /\ (exists t, monitor_task gone_and_failing
                  [CallDelete 2 "/distributions/C/"; CallDelete 1 "/repositories/B/";
                   CallDelete 1 "/remotes/A/"] t
                = Raise (Exn (OtherException "PulpTaskError") "failed"))
  /\ add_to_cleanup_teardown gone_and_failing three_registered
     = (Raise (Exn (OtherException "PulpTaskError") "failed"),
        log three_registered
          [CallDelete 2 "/distributions/C/"; CallDelete 1 "/repositories/B/";
           CallDelete 1 "/remotes/A/"; CallMonitorTask "task:/distributions/C/"]).
Proof.
  split; [|split; [|split; [|split]]].
  - destruct (cleanup_failures_are_swallowed repo_already_gone three_registered)
      as (Hgoes_on & _).
    destruct (Hgoes_on [(2, "/distributions/C/"%string)] 1 "/repositories/B/"%string
                [(1, "/remotes/A/"%string)] (Exn ApiException "(404) Not Found")
                eq_refl eq_refl) as [waited Htr].
    exists waited. exact Htr.
  - destruct (cleanup_failures_are_swallowed repo_already_gone three_registered)
      as (_ & Hreturns & _).
    rewrite Hreturns.
    + reflexivity.
    + simpl. split; [eexists; reflexivity|]. split; [eexists; reflexivity|exact I].
  - destruct (cleanup_failures_are_swallowed repo_already_gone repo_registered)
      as (_ & _ & Hall_raise & _).
    apply Hall_raise.
    intros pre c h post Hrefs.
    destruct pre as [|p pre].
    + injection Hrefs as <- <- <-. eexists. reflexivity.
    + destruct pre; discriminate Hrefs.
  - destruct (cleanup_failures_are_swallowed gone_and_failing three_registered)
      as (_ & _ & _ & Honly & _).
    destruct (Honly (Exn (OtherException "PulpTaskError") "failed") eq_refl)
      as (pre & t & post & Htasks & Hraise).
    exists t. destruct pre as [|t0 pre]; [exact Hraise|reflexivity].
  - destruct (cleanup_failures_are_swallowed gone_and_failing three_registered)
      as (_ & _ & _ & _ & Hraises).
    apply (Hraises [] "task:/distributions/C/"%string ["task:/remotes/A/"%string]).
    + reflexivity.
    + exact I.
    + reflexivity.
Defined.

(** C2 as stated fails: the deletion of the repository raises and is
    swallowed, the other two deletions hand back tasks, and the teardown
    raises what [monitor_task] raises on the first of them; the second task
    is never waited for. *)
Lemma cleanup_teardown_can_raise :
  fst (add_to_cleanup_fixture gone_and_failing three_entries empty_store)
  = Raise (Exn (OtherException "PulpTaskError") "failed")
  /\ fst (add_to_cleanup_fixture gone_and_failing three_entries empty_store) <> Ok tt
  /\ trace (snd (add_to_cleanup_fixture gone_and_failing three_entries empty_store))
     = [CallDelete 2 "/distributions/C/"; CallDelete 1 "/repositories/B/";
        CallDelete 1 "/remotes/A/"; CallMonitorTask "task:/distributions/C/"].
Proof. repeat split. discriminate. Qed.

(** C3: the first loop of the teardown keeps the task reference of every
    deletion that returns one; when the teardown returns, [monitor_task] has
    been called on each of the kept references, in the order of the
    deletions and after the last deletion; and the teardown does return
    when those calls return. *)
Theorem cleanup_waits_for_collected_tasks (w : World) (s : Store) :
  let refs := rev (obj_refs s) in
  let tasks := collected_tasks w (trace s) refs in
  let run := add_to_cleanup_teardown w s in
  delete_loop w refs [] s = (Ok tasks, log s (map ev_delete refs))
  /\ (forall pre c h post r,
         refs = pre ++ (c, h) :: post ->
         api_delete w (trace s ++ map ev_delete pre) c h = Ok (Async r) ->
         In (task r) tasks)
  /\ (monitors_return w (trace s ++ map ev_delete refs) tasks -> fst run = Ok tt)
  /\ (fst run = Ok tt ->
      trace (snd run) = trace s ++ map ev_delete refs ++ map CallMonitorTask tasks
      /\ monitored (map ev_delete refs ++ map CallMonitorTask tasks) = tasks).
Proof.
  intros refs tasks run.
  split; [apply delete_loop_run|].
  split.
  { intros pre c h post r Hrefs Hdel. unfold tasks.
    rewrite Hrefs. now apply collected_tasks_In. }
  subst run. rewrite teardown_run. fold refs tasks.
  split.
  - intros Hret. now rewrite wait_loop_returns by exact Hret.
  - destruct (wait_loop_cases w tasks (log s (map ev_delete refs)))
      as [[_ Hrun]|(pre & t & post & e & _ & _ & Hrun)];
      rewrite Hrun; simpl; [|discriminate].
    intros _. split; [now rewrite <- app_assoc|].
    now rewrite monitored_app, monitored_deletes, monitored_monitors.
Qed.

Lemma cleanup_waits_for_collected_tasks_witness :
  fst (add_to_cleanup_teardown repo_already_gone three_registered) = Ok tt
  /\ trace (snd (add_to_cleanup_teardown repo_already_gone three_registered))
     = [CallDelete 2 "/distributions/C/"; CallDelete 1 "/repositories/B/";
        CallDelete 1 "/remotes/A/";
        CallMonitorTask "task:/distributions/C/"; CallMonitorTask "task:/remotes/A/"]
  /\ In "task:/remotes/A/"%string
       (monitored (trace (snd (add_to_cleanup_teardown repo_already_gone
                                 three_registered)))).
Proof.
  destruct (cleanup_waits_for_collected_tasks repo_already_gone three_registered)
    as (_ & Hkept & Hreturns & Hwaits).
  assert (Hok : fst (add_to_cleanup_teardown repo_already_gone three_registered) = Ok tt).
  { apply Hreturns. simpl.
    split; [eexists; reflexivity|]. split; [eexists; reflexivity|exact I]. }
  destruct (Hwaits Hok) as (Htr & Hmon).
  split; [exact Hok|]. split; [exact Htr|].
  rewrite Htr, monitored_app. apply in_or_app. right. rewrite Hmon.
  apply (Hkept [(2, "/distributions/C/"%string); (1, "/repositories/B/"%string)]
           1 "/remotes/A/"%string [] {| task := "task:/remotes/A/" |});
    reflexivity.
Defined.

(** ** Object cleanup: [gen_object_with_cleanup] *)

Section GenObject.

Variable w : World.
Variable api_client : ApiClient.

Lemma try_created_resource_run (created_resource : Href) (s : Store) :
  try_created_resource w api_client created_resource s
  = match api_read w (trace s) api_client created_resource with
    | Ok new_obj =>
        (Ok (Some (Resource new_obj)),
         with_obj_refs (log s [CallRead api_client created_resource])
           (obj_refs s ++ [(api_client, pulp_href new_obj)]))
    | Raise _ => (Ok None, log s [CallRead api_client created_resource])
    end.
Proof.
  unfold try_created_resource, bind, try_except, call, ret, is_Exception.
  now destruct (api_read w (trace s) api_client created_resource).
Qed.

(** No created resource can be read: the loop reads them all and ends. *)
Lemma read_loop_none (l : list Href) :
  forall s,
    (forall pre x post,
        l = pre ++ x :: post ->
        exists e, api_read w (trace s ++ map (ev_read api_client) pre) api_client x
                  = Raise e) ->
    for_return l (try_created_resource w api_client) s
    = (Ok None, log s (map (ev_read api_client) l)).
Proof.
  induction l as [|x l IH]; intros s Hnone.
  - simpl. unfold ret. now rewrite log_nil.
  - simpl for_return. unfold bind. rewrite try_created_resource_run.
    destruct (Hnone [] x l eq_refl) as [e He].
    simpl in He. rewrite app_nil_r in He. rewrite He.
    rewrite IH.
    + now rewrite log_log.
    + intros pre y post ->.
      destruct (Hnone (x :: pre) y post eq_refl) as [e' He'].
      exists e'. simpl in He'. rewrite trace_log, <- app_assoc. exact He'.
Qed.

(** The first created resource that can be read ends the loop. *)
Lemma read_loop_first (pre : list Href) :
  forall (s : Store) (res : Href) (post : list Href) (new_obj : PulpObject),
    (forall pre1 x post1,
        pre = pre1 ++ x :: post1 ->
        exists e, api_read w (trace s ++ map (ev_read api_client) pre1) api_client x
                  = Raise e) ->
    api_read w (trace s ++ map (ev_read api_client) pre) api_client res = Ok new_obj ->
    for_return (pre ++ res :: post) (try_created_resource w api_client) s
    = (Ok (Some (Resource new_obj)),
       with_obj_refs (log s (map (ev_read api_client) (pre ++ [res])))
         (obj_refs s ++ [(api_client, pulp_href new_obj)])).
Proof.
  induction pre as [|x pre IH]; intros s res post new_obj Hnone Hread.
  - simpl in *. unfold bind. rewrite try_created_resource_run.
    rewrite app_nil_r in Hread. now rewrite Hread.
  - simpl for_return. unfold bind. rewrite try_created_resource_run.
    destruct (Hnone [] x pre eq_refl) as [e He].
    simpl in He. rewrite app_nil_r in He. rewrite He.
    rewrite (IH _ res post new_obj).
    + unfold with_obj_refs, log, with_trace. simpl. now rewrite <- app_assoc.
    + intros pre1 y post1 ->.
      destruct (Hnone (x :: pre1) y post1 eq_refl) as [e' He'].
      exists e'. simpl in He'. rewrite trace_log, <- app_assoc. exact He'.
    + rewrite trace_log, <- app_assoc. exact Hread.
Qed.

(** With a task handed back by [create] and the task data of
    [monitor_task], the function is the loop over the created resources. *)
Lemma gen_object_task_run (args : CreateArgs) (s : Store)
    (r : AsyncOperationResponse) (task_data : TaskData) :
  api_create w (trace s) api_client args = Ok (Async r) ->
  monitor_task w (trace s ++ [CallCreate api_client args]) (task r) = Ok task_data ->
  _gen_object_with_cleanup w api_client args s
  = match for_return (created_resources task_data)
            (try_created_resource w api_client)
            (log s [CallCreate api_client args; CallMonitorTask (task r)]) with
    | (Ok (Some o), s') => (Ok o, s')
    | (Ok None, s') =>
        (Raise (Exn TypeError
                  ("No appropriate created_resource could be found in task data "
                   ++ format_task_data w task_data)%string), s')
    | (Raise e, s') => (Raise e, s')
    end.
Proof.
  intros Hcreate Hmonitor.
  unfold _gen_object_with_cleanup, bind at 1. unfold call at 1.
  rewrite Hcreate. unfold bind at 1.
  unfold try_except, bind at 1. unfold lift at 1. simpl getattr_pulp_href. cbv iota.
  unfold isinstance. simpl existsb. cbv iota.
  unfold bind at 1. unfold lift at 1. simpl getattr_task. cbv iota.
  unfold bind at 1. unfold call at 1. rewrite trace_log, Hmonitor, log_log.
  simpl app. unfold bind at 1.
  destruct (for_return _ _ _) as [[[o|]|e] s']; reflexivity.
Qed.

End GenObject.

Example gen_object_direct :
  _gen_object_with_cleanup healthy 1 "/remotes/new/" empty_store
  = (Ok (Resource {| pulp_href := "/remotes/new/"; body := "/remotes/new/" |}),
     with_obj_refs (log empty_store [CallCreate 1 "/remotes/new/"])
       [(1, "/remotes/new/"%string)]).
Proof. reflexivity. Qed.

Example gen_object_from_task :
  _gen_object_with_cleanup task_based 1 "publish" empty_store
  = (Ok (Resource {| pulp_href := "/publications/7/"; body := "publication" |}),
     with_obj_refs
       (log empty_store
          [CallCreate 1 "publish"; CallMonitorTask "/tasks/42/";
           CallRead 1 "/repositories/1/versions/1/"; CallRead 1 "/publications/7/"])
       [(1, "/publications/7/"%string)]).
Proof. reflexivity. Qed.

(** C4: when [create] hands back a task and [monitor_task] returns its
    data, the function reads the created resources in their order through
    the same client; at the first read that returns it registers that
    object's locator for cleanup under the same client and returns the
    object, without reading the remaining resources; when every read raises
    it registers nothing and raises a [TypeError] whose message ends with
    the task data. *)
Theorem gen_object_with_cleanup_from_task
    (w : World) (api_client : ApiClient) (args : CreateArgs) (s : Store)
    (r : AsyncOperationResponse) (task_data : TaskData) :
  api_create w (trace s) api_client args = Ok (Async r) ->
  monitor_task w (trace s ++ [CallCreate api_client args]) (task r) = Ok task_data ->
  let awaited :=
    trace s ++ [CallCreate api_client args; CallMonitorTask (task r)] in
  let unreadable_before (l : list Href) :=
    forall pre x post,
      l = pre ++ x :: post ->
      exists e, api_read w (awaited ++ map (ev_read api_client) pre) api_client x
                = Raise e in
  (forall pre res post new_obj,
      created_resources task_data = pre ++ res :: post ->
      unreadable_before pre ->
      api_read w (awaited ++ map (ev_read api_client) pre) api_client res
      = Ok new_obj ->
      _gen_object_with_cleanup w api_client args s
      = (Ok (Resource new_obj),
         with_obj_refs
           (with_trace s (awaited ++ map (ev_read api_client) (pre ++ [res])))
           (obj_refs s ++ [(api_client, pulp_href new_obj)])))
  /\ (unreadable_before (created_resources task_data) ->
      _gen_object_with_cleanup w api_client args s
      = (Raise (Exn TypeError
                  ("No appropriate created_resource could be found in task data "
                   ++ format_task_data w task_data)%string),
         with_trace s
           (awaited ++ map (ev_read api_client) (created_resources task_data)))).
Proof.
  intros Hcreate Hmonitor awaited unreadable_before.
  rewrite (gen_object_task_run w api_client args s r task_data Hcreate Hmonitor).
  assert (Hawaited :
            trace (log s [CallCreate api_client args; CallMonitorTask (task r)])
            = awaited) by reflexivity.
  split.
  - intros pre res post new_obj Hres Hnone Hread. rewrite Hres.
    rewrite (read_loop_first w api_client pre _ res post new_obj).
    + unfold with_obj_refs, log, with_trace, awaited. simpl.
      now rewrite <- !app_assoc.
    + rewrite Hawaited. exact Hnone.
    + rewrite Hawaited. exact Hread.
  - intros Hnone. rewrite read_loop_none.
    + unfold log, with_trace, awaited. simpl. now rewrite <- !app_assoc.
    + rewrite Hawaited. exact Hnone.
Qed.

Lemma gen_object_with_cleanup_from_task_witness :
  _gen_object_with_cleanup task_based 1 "publish" empty_store
  = (Ok (Resource {| pulp_href := "/publications/7/"; body := "publication" |}),
     with_obj_refs
       (with_trace empty_store
          [CallCreate 1 "publish"; CallMonitorTask "/tasks/42/";
           CallRead 1 "/repositories/1/versions/1/"; CallRead 1 "/publications/7/"])
       [(1, "/publications/7/"%string)])
  /\ _gen_object_with_cleanup task_based 2 "publish" empty_store
     = (Raise (Exn TypeError
                 "No appropriate created_resource could be found in task data {'state': 'completed'}"),
        with_trace empty_store
          [CallCreate 2 "publish"; CallMonitorTask "/tasks/42/";
           CallRead 2 "/repositories/1/versions/1/"; CallRead 2 "/publications/7/";
           CallRead 2 "/distributions/3/"]).
Proof.
  split.
  - apply (proj1 (gen_object_with_cleanup_from_task task_based 1 "publish" empty_store
                    {| task := "/tasks/42/" |} creation_task_data eq_refl eq_refl)
             ["/repositories/1/versions/1/"%string] "/publications/7/"%string
             ["/distributions/3/"%string]
             {| pulp_href := "/publications/7/"; body := "publication" |}).
    + reflexivity.
    + intros pre x post Hpre. exists (Exn ApiException "(404) Not Found").
      destruct pre as [|p pre].
      * injection Hpre as <- <-. reflexivity.
      * destruct pre; discriminate Hpre.
    + reflexivity.
  - apply (proj2 (gen_object_with_cleanup_from_task task_based 2 "publish" empty_store
                    {| task := "/tasks/42/" |} creation_task_data eq_refl eq_refl)).
    intros pre x post Hpre. exists (Exn ApiException "(404) Not Found").
    reflexivity.
Defined.

(** ** Fixture servers: teardown order *)

Lemma sets_of_app (a b : list event) : sets_of (a ++ b) = sets_of a ++ sets_of b.
Proof. apply flat_map_app. Qed.

Lemma joins_of_app (a b : list event) : joins_of (a ++ b) = joins_of a ++ joins_of b.
Proof. apply flat_map_app. Qed.

Lemma started_app (a b : list event) : started (a ++ b) = started a ++ started b.
Proof. apply flat_map_app. Qed.

(** A loop whose body is one outside call that returns. *)
Lemma for_each_calls {X} (ev : X -> event) (l : list X) :
  forall s,
    for_each l (fun x => call (ev x) (fun _ => Ok tt)) s = (Ok tt, log s (map ev l)).
Proof.
  induction l as [|x l IH]; intros s.
  - simpl. unfold ret. now rewrite log_nil.
  - simpl for_each. unfold bind, call at 1. rewrite IH. now rewrite log_log.
Qed.

Lemma server_teardown_run (s : Store) :
  gen_threaded_aiohttp_server_teardown s
  = (Ok tt,
     log s (map CallEventSet (map shutdown_event (fixture_servers_data s))
            ++ map CallThreadJoin
                 (map (fun d => th_id (thread d)) (fixture_servers_data s)))).
Proof.
  unfold gen_threaded_aiohttp_server_teardown, bind.
  rewrite (for_each_calls (fun d => CallEventSet (shutdown_event d))).
  rewrite (for_each_calls (fun d => CallThreadJoin (th_id (thread d)))).
  now rewrite log_log, !map_map.
Qed.

Section Servers.

Variable w : World.

Lemma start_server_run (r : App * option SSLContext * CallRecord) (s : Store) :
  (exists e, start_server w r s = (Raise e, log s [CallUnusedPort]))
  \/ exists d,
       th_shutdown_event (thread d) = shutdown_event d
       /\ trace (snd (start_server w r s))
          = trace s ++ [CallUnusedPort; CallThreadStart (thread d)]
       /\ fixture_servers_data (snd (start_server w r s))
          = fixture_servers_data s ++ [d]
       /\ fst (start_server w r s) = Ok tt.
Proof.
  unfold start_server, _gen_threaded_aiohttp_server, bind, call, fresh, ret.
  simpl. destruct (unused_port w (trace s)) as [p|e].
  - right. eexists. simpl. split; [|split; [|split]].
    3: reflexivity.
    + reflexivity.
    + now rewrite <- app_assoc.
    + reflexivity.
  - left. now exists e.
Qed.

(** What a test that asks for servers leaves behind: the handles it
    registered are those of the threads it started, in the same order, and
    it set no event and joined no thread. *)
Lemma start_servers_run (requests : list (App * option SSLContext * CallRecord)) :
  forall s,
  exists body ds,
    trace (snd (for_each requests (start_server w) s)) = trace s ++ body
    /\ fixture_servers_data (snd (for_each requests (start_server w) s))
       = fixture_servers_data s ++ ds
    /\ started body = map thread ds
    /\ map shutdown_event ds = map th_shutdown_event (map thread ds)
    /\ sets_of body = [] /\ joins_of body = [].
Proof.
  induction requests as [|r requests IH]; intros s.
  - exists [], []. simpl. rewrite !app_nil_r. repeat split.
  - simpl for_each. unfold bind.
    destruct (start_server_run r s) as [[e Hrun]|(d & Hev & Htr & Hds & Hok)].
    + rewrite Hrun. exists [CallUnusedPort], []. simpl.
      rewrite app_nil_r. repeat split.
    + destruct (start_server w r s) as [[[]|e] s1]; simpl in *; [|discriminate].
      destruct (IH s1) as (body & ds & Htr' & Hds' & Hstarted & Hevs & Hsets & Hjoins).
      exists ([CallUnusedPort; CallThreadStart (thread d)] ++ body), (d :: ds).
      rewrite Htr', Hds', Htr, Hds, <- !app_assoc.
      split; [reflexivity|]. split; [reflexivity|].
      rewrite started_app, sets_of_app, joins_of_app. simpl.
      rewrite Hstarted, Hevs, Hsets, Hjoins, Hev. repeat split.
Qed.

End Servers.

Lemma server_fixture_run (w : World)
    (requests : list (App * option SSLContext * CallRecord)) (s : Store) :
  gen_threaded_aiohttp_server_fixture w requests s
  = gen_threaded_aiohttp_server_teardown
      (snd (for_each requests (start_server w) (with_servers s []))).
Proof.
  unfold gen_threaded_aiohttp_server_fixture, bind,
    gen_threaded_aiohttp_server_setup, try_except, is_Exception, ret.
  destruct (for_each requests (start_server w) (with_servers s [])) as [[[]|e] s1];
    reflexivity.
Qed.

Example servers_two_of_three :
  gen_threaded_aiohttp_server_fixture ports_run_out three_requests empty_store
  = (Ok tt,
     {| trace :=
          [CallUnusedPort;
           CallThreadStart {| th_id := 1; th_shutdown_event := 0; th_app := 10;
                              th_host := "127.0.0.1"; th_port := 40000;
                              th_ssl_ctx := None; th_daemon := true |};
           CallUnusedPort;
           CallThreadStart {| th_id := 3; th_shutdown_event := 2; th_app := 11;
                              th_host := "127.0.0.1"; th_port := 40002;
                              th_ssl_ctx := Some 7; th_daemon := true |};
           CallUnusedPort;
           CallEventSet 0; CallEventSet 2; CallThreadJoin 1; CallThreadJoin 3];
        obj_refs := [];
        fixture_servers_data :=
          fixture_servers_data
            (snd (gen_threaded_aiohttp_server_fixture ports_run_out three_requests
                    empty_store));
        next_id := 4 |}).
Proof. reflexivity. Qed.

(** C9: the teardown of the fixture sets the shutdown event of every
    server thread the test started, in the order the servers were started,
    and only then joins every one of those threads, in the same order; the
    test itself sets no event and joins no thread, and the fixture ends
    once the last join has returned. *)
Theorem fixture_servers_signalled_then_joined
    (w : World) (requests : list (App * option SSLContext * CallRecord)) (s : Store) :
  exists body,
    let servers := started body in
    fst (gen_threaded_aiohttp_server_fixture w requests s) = Ok tt
    /\ trace (snd (gen_threaded_aiohttp_server_fixture w requests s))
       = trace s ++ body
         ++ map CallEventSet (map th_shutdown_event servers)
         ++ map CallThreadJoin (map th_id servers)
    /\ map thread (fixture_servers_data
                     (snd (gen_threaded_aiohttp_server_fixture w requests s)))
       = servers
    /\ sets_of body = []
    /\ joins_of body = [].
Proof.
  destruct (start_servers_run w requests (with_servers s []))
    as (body & ds & Htr & Hds & Hstarted & Hevs & Hsets & Hjoins).
  exists body. simpl.
  rewrite server_fixture_run, server_teardown_run.
  destruct (snd (for_each requests (start_server w) (with_servers s [])))
    as [t1 refs1 ds1 n1].
  simpl in *. subst t1 ds1.
  rewrite Hstarted, <- Hevs, !map_map.
  repeat split; try assumption.
  now rewrite <- !app_assoc.
Qed.

(** * Further properties of the plugin *)

(** ** [make_url]: when it answers, and what tells two answers apart *)

Lemma make_url_ok_form (self : ThreadedAiohttpServerData) (path url : string) :
  make_url self path = Ok url ->
  String.prefix "/" path = true
  /\ url = ((match ssl_ctx self with Some _ => "https://" | None => "http://" end)
            ++ host self ++ ":" ++ str_int (port self) ++ path)%string.
Proof.
  destruct path as [|c rest]; [discriminate|].
  unfold make_url. simpl str_index0. cbv iota.
  destruct (Ascii.eqb c "/") eqn:Hc; simpl negb; cbv iota; [|discriminate].
  apply Ascii.eqb_eq in Hc. subst c. intros [= <-].
  split; [|reflexivity].
  cbn -[ascii_dec]. destruct (ascii_dec "/" "/") as [_|ne]; [|congruence].
  now destruct rest.
Qed.

Lemma append_cancel_l (a x y : string) : (a ++ x = a ++ y)%string -> x = y.
Proof.
  induction a as [|c a IH]; simpl; [easy|].
  intros [= H]. now apply IH.
Qed.

(** X1: [make_url] answers with a URL exactly for the paths that start with
    "/"; every other path makes it raise. *)
Theorem make_url_answers_iff_leading_slash
    (self : ThreadedAiohttpServerData) (path : string) :
  (exists url, make_url self path = Ok url) <-> String.prefix "/" path = true.
Proof.
  split.
  - intros [url Hurl]. exact (proj1 (make_url_ok_form self path url Hurl)).
  - intros Hp. destruct (prefix_slash _ Hp) as [rest ->].
    unfold make_url. simpl. eexists. reflexivity.
Qed.

(** X2: The path is appended as it is, so on one handle two different paths
    never get the same URL; and a handle with a TLS context and a handle
    without one never give the same URL, whatever their hosts, ports and
    paths. *)
Theorem make_url_tells_paths_and_schemes_apart :
  (forall (self : ThreadedAiohttpServerData) (p1 p2 url : string),
      make_url self p1 = Ok url -> make_url self p2 = Ok url -> p1 = p2)
  /\ (forall (plain tls : ThreadedAiohttpServerData) (ctx : SSLContext)
             (p1 p2 u1 u2 : string),
         ssl_ctx plain = None -> ssl_ctx tls = Some ctx ->
         make_url plain p1 = Ok u1 -> make_url tls p2 = Ok u2 ->
         u1 <> u2).
Proof.
  split.
  - intros self p1 p2 url H1 H2.
    apply make_url_ok_form in H1 as [_ H1]. apply make_url_ok_form in H2 as [_ H2].
    rewrite H1 in H2.
    repeat (apply append_cancel_l in H2). exact H2.
  - intros plain tls ctx p1 p2 u1 u2 Hplain Htls H1 H2.
    apply make_url_ok_form in H1 as [_ ->]. apply make_url_ok_form in H2 as [_ ->].
    rewrite Hplain, Htls. simpl. discriminate.
Qed.

Lemma make_url_tells_paths_and_schemes_apart_witness :
  ("/a" = "/a")%string
  /\ ("http://127.0.0.1:8080/" <> "https://localhost:44321/")%string.
Proof.
  destruct make_url_tells_paths_and_schemes_apart as [Hpaths Hschemes].
  split.
  - apply (Hpaths plain_server "/a" "/a" "http://127.0.0.1:8080/a")%string;
      reflexivity.
  - apply (Hschemes plain_server tls_server 7 "/" "/")%string; reflexivity.
Defined.

(** ** [gen_object_with_cleanup]: every outcome *)

(** The loop over the created resources never raises, and it registers
    exactly the object it returns. *)
Lemma read_loop_outcome (w : World) (api_client : ApiClient) (l : list Href) :
  forall s,
  exists tr,
    trace (snd (for_return l (try_created_resource w api_client) s)) = trace s ++ tr
    /\ deletes_of tr = [] /\ monitored tr = []
    /\ ((fst (for_return l (try_created_resource w api_client) s) = Ok None
         /\ obj_refs (snd (for_return l (try_created_resource w api_client) s))
            = obj_refs s)
        \/ exists o,
             fst (for_return l (try_created_resource w api_client) s)
             = Ok (Some (Resource o))
             /\ obj_refs (snd (for_return l (try_created_resource w api_client) s))
                = obj_refs s ++ [(api_client, pulp_href o)]).
Proof.
  induction l as [|x l IH]; intros s.
  - exists []. simpl. rewrite app_nil_r. repeat split. now left.
  - simpl for_return. unfold bind. rewrite try_created_resource_run.
    destruct (api_read w (trace s) api_client x) as [o|e] eqn:Hread.
    + exists [CallRead api_client x]. simpl. repeat split.
      right. exists o. repeat split.
    + destruct (IH (log s [CallRead api_client x]))
        as (tr & Htr & Hdel & Hmon & Hcases).
      exists (CallRead api_client x :: tr).
      rewrite Htr, trace_log, <- app_assoc. simpl.
      repeat split; assumption.
Qed.

Lemma gen_object_outcome
    (w : World) (api_client : ApiClient) (args : CreateArgs) (s : Store) :
  let run := _gen_object_with_cleanup w api_client args s in
  (exists tr, trace (snd run) = trace s ++ tr /\ deletes_of tr = [])
  /\ match fst run with
     | Ok new_obj =>
         exists o, new_obj = Resource o
                   /\ obj_refs (snd run) = obj_refs s ++ [(api_client, pulp_href o)]
     | Raise _ => obj_refs (snd run) = obj_refs s
     end.
Proof.
  intros run. subst run.
  destruct (api_create w (trace s) api_client args) as [[o|r|]|e] eqn:Hcreate.
  - (* the object itself *)
    unfold _gen_object_with_cleanup, bind, call, try_except, lift, ret.
    rewrite Hcreate. simpl. split.
    + exists [CallCreate api_client args]. now split.
    + now exists o.
  - (* a task *)
    destruct (monitor_task w (trace s ++ [CallCreate api_client args]) (task r))
      as [task_data|e] eqn:Hmonitor.
    + rewrite (gen_object_task_run w api_client args s r task_data Hcreate Hmonitor).
      destruct (read_loop_outcome w api_client (created_resources task_data)
                  (log s [CallCreate api_client args; CallMonitorTask (task r)]))
        as (tr & Htr & Hdel & _ & Hcases).
      destruct (for_return _ _ _) as [res s1]. simpl in *. split.
      * exists ([CallCreate api_client args; CallMonitorTask (task r)] ++ tr).
        split.
        { destruct res as [[o|]|e]; simpl; now rewrite Htr, <- app_assoc. }
        now rewrite deletes_of_app, Hdel.
      * destruct Hcases as [[-> Hrefs]|(o & -> & Hrefs)]; simpl.
        { exact Hrefs. }
        now exists o.
    + unfold _gen_object_with_cleanup, bind, call, try_except, lift, ret.
      rewrite Hcreate. simpl. rewrite Hmonitor. simpl. split; [|reflexivity].
      exists [CallCreate api_client args; CallMonitorTask (task r)].
      split; [now rewrite <- app_assoc|reflexivity].
  - (* neither a locator nor a task *)
    unfold _gen_object_with_cleanup, bind, call, try_except, lift, ret.
    rewrite Hcreate. simpl. split; [|reflexivity].
    exists [CallCreate api_client args]. now split.
  - unfold _gen_object_with_cleanup, bind, call.
    rewrite Hcreate. simpl. split; [|reflexivity].
    exists [CallCreate api_client args]. now split.
Qed.

(** X3: Whatever [create], [monitor_task] and [read] do: when the function
    returns, what it returns is a resource, and the registry got exactly one
    new entry, last in the list, made of the client and that resource's
    locator; when it raises, the registry is as it was.  No path deletes
    anything. *)
Theorem gen_object_registers_what_it_returns
    (w : World) (api_client : ApiClient) (args : CreateArgs) (s : Store) :
  let run := _gen_object_with_cleanup w api_client args s in
  (exists tr, trace (snd run) = trace s ++ tr /\ deletes_of tr = [])
  /\ match fst run with
     | Ok new_obj =>
         exists o, new_obj = Resource o
                   /\ obj_refs (snd run) = obj_refs s ++ [(api_client, pulp_href o)]
     | Raise _ => obj_refs (snd run) = obj_refs s
     end.
Proof.
  intros run.
  destruct (gen_object_outcome w api_client args s) as [Htrace Hregistry].
  split.
  - exact Htrace.
  - exact Hregistry.
Qed.

(** X4: The paths of [gen_object_with_cleanup] outside the loop over created
    resources: a [create] that returns the object registers it and returns
    it after that single call; a [create] that raises is not caught; an
    answer of [None], which has neither [pulp_href] nor [task], ends in the
    [AttributeError] of the [task] lookup made inside the handler; and what
    [monitor_task] raises is not caught, no resource being read. *)
Theorem gen_object_direct_and_failures
    (w : World) (api_client : ApiClient) (args : CreateArgs) (s : Store) :
  let created := api_create w (trace s) api_client args in
  let run := _gen_object_with_cleanup w api_client args s in
  (forall o,
      created = Ok (Resource o) ->
      run = (Ok (Resource o),
             with_obj_refs (log s [CallCreate api_client args])
               (obj_refs s ++ [(api_client, pulp_href o)])))
  /\ (forall e,
        created = Raise e -> run = (Raise e, log s [CallCreate api_client args]))
  /\ (created = Ok NoContent ->
      exists m,
        run = (Raise (Exn AttributeError m), log s [CallCreate api_client args]))
  /\ (forall r e,
        created = Ok (Async r) ->
        monitor_task w (trace s ++ [CallCreate api_client args]) (task r) = Raise e ->
        run = (Raise e,
               log s [CallCreate api_client args; CallMonitorTask (task r)])).
Proof.
  intros created run. subst created run.
  unfold _gen_object_with_cleanup, bind, call, try_except, lift, ret.
  split; [|split; [|split]].
  - intros o ->. reflexivity.
  - intros e ->. reflexivity.
  - intros ->. eexists. reflexivity.
  - intros r e -> Hmonitor. simpl. rewrite Hmonitor. now rewrite log_log.
Qed.

Lemma gen_object_direct_and_failures_witness :
  _gen_object_with_cleanup healthy 1 "/remotes/new/" repo_registered
  = (Ok (Resource {| pulp_href := "/remotes/new/"; body := "/remotes/new/" |}),
     with_obj_refs (log repo_registered [CallCreate 1 "/remotes/new/"])
       [(1, "/repositories/B/"%string); (1, "/remotes/new/"%string)])
  /\ _gen_object_with_cleanup create_refused 1 "/remotes/new/" repo_registered
     = (Raise (Exn ApiException "(400) Bad Request"),
        log repo_registered [CallCreate 1 "/remotes/new/"])
  /\ (exists m,
        _gen_object_with_cleanup create_answers_none 1 "/remotes/new/" repo_registered
        = (Raise (Exn AttributeError m),
           log repo_registered [CallCreate 1 "/remotes/new/"]))
  /\ _gen_object_with_cleanup creation_task_fails 1 "publish" repo_registered
     = (Raise (Exn (OtherException "PulpTaskError") "failed"),
        log repo_registered [CallCreate 1 "publish"; CallMonitorTask "/tasks/42/"]).
Proof.
  split; [|split; [|split]].
  - destruct (gen_object_direct_and_failures healthy 1 "/remotes/new/" repo_registered)
      as (Hdirect & _).
    apply Hdirect. reflexivity.
  - destruct (gen_object_direct_and_failures create_refused 1 "/remotes/new/"
                repo_registered) as (_ & Hrefused & _).
    apply Hrefused. reflexivity.
  - destruct (gen_object_direct_and_failures create_answers_none 1 "/remotes/new/"
                repo_registered) as (_ & _ & Hnone & _).
    apply Hnone. reflexivity.
  - destruct (gen_object_direct_and_failures creation_task_fails 1 "publish"
                repo_registered) as (_ & _ & _ & Htask).
    apply (Htask {| task := "/tasks/42/" |}); reflexivity.
Defined.

(** X5: What [gen_object_with_cleanup] returns is deleted by the teardown
    through the client that created it, after every entry registered later
    in the test and before every entry registered earlier: with [later] the
    entries appended to the registry after the creation, the teardown
    deletes [later] in reverse, then the created object, then the earlier
    entries in reverse. *)
Theorem created_object_is_deleted_in_turn
    (w : World) (api_client : ApiClient) (args : CreateArgs) (s s1 s2 : Store)
    (new_obj : Response) (later : list (ApiClient * Href)) :
  _gen_object_with_cleanup w api_client args s = (Ok new_obj, s1) ->
  obj_refs s2 = obj_refs s1 ++ later ->
  exists o tr,
    new_obj = Resource o
    /\ trace (snd (add_to_cleanup_teardown w s2)) = trace s2 ++ tr
    /\ deletes_of tr = rev later ++ (api_client, pulp_href o) :: rev (obj_refs s).
Proof.
  intros Hrun Hlater.
  destruct (gen_object_outcome w api_client args s) as [_ Hreg].
  rewrite Hrun in Hreg. simpl in Hreg. destruct Hreg as (o & -> & Hrefs).
  destruct (teardown_trace w s2) as [waited Htr].
  exists o, (map ev_delete (rev (obj_refs s2)) ++ map CallMonitorTask waited).
  split; [reflexivity|]. split; [exact Htr|].
  rewrite deletes_of_app, deletes_of_deletes, deletes_of_monitors, app_nil_r.
  rewrite Hlater, Hrefs, !rev_app_distr. reflexivity.
Qed.

Lemma created_object_is_deleted_in_turn_witness :
  exists tr,
    trace (snd (add_to_cleanup_teardown task_based publication_then_remote))
    = trace publication_then_remote ++ tr
    /\ deletes_of tr
       = [(2, "/remotes/R/"); (1, "/publications/7/"); (2, "/distributions/C/");
          (1, "/repositories/B/"); (1, "/remotes/A/")]%string.
Proof.
  destruct (created_object_is_deleted_in_turn task_based 1 "publish"
              three_registered
              (snd (_gen_object_with_cleanup task_based 1 "publish" three_registered))
              publication_then_remote _ [(2, "/remotes/R/"%string)]
              eq_refl eq_refl) as (o & tr & Ho & Htr & Hdel).
  injection Ho as <-. exists tr. split; [exact Htr|exact Hdel].
Defined.

(** ** The [add_to_cleanup] teardown: two phases *)

(** X6: In every run of the teardown, also one that raises, all deletions are
    made before the first wait, the tasks waited for are an initial part of
    the tasks handed back, in that order, and nothing but the trace
    changes; a teardown that returns has waited for all of them. *)
Theorem teardown_deletes_then_waits (w : World) (s : Store) :
  let refs := rev (obj_refs s) in
  let tasks := collected_tasks w (trace s) refs in
  let run := add_to_cleanup_teardown w s in
  exists n,
    n <= List.length tasks
    /\ snd run = log s (map ev_delete refs ++ map CallMonitorTask (firstn n tasks))
    /\ (fst run = Ok tt -> n = List.length tasks).
Proof.
  intros refs tasks run. subst run. rewrite teardown_run. fold refs tasks.
  destruct (wait_loop_cases w tasks (log s (map ev_delete refs)))
    as [[_ Hrun]|(pre & t & post & e & Htasks & _ & Hrun)]; rewrite Hrun; simpl.
  - exists (List.length tasks). rewrite firstn_all, log_log. repeat split. lia.
  - exists (List.length pre + 1). rewrite Htasks, firstn_app_2, log_log. simpl.
    repeat split; [|discriminate].
    rewrite length_app. simpl. lia.
Qed.

Lemma teardown_deletes_then_waits_witness :
  exists n,
    snd (add_to_cleanup_teardown repo_already_gone three_registered)
    = log three_registered
        (map ev_delete (rev three_entries)
         ++ map CallMonitorTask
              (firstn n ["task:/distributions/C/"; "task:/remotes/A/"]%string))
    /\ n = 2.
Proof.
  destruct (teardown_deletes_then_waits repo_already_gone three_registered)
    as (n & _ & Hsnd & Hall).
  exists n. split; [exact Hsnd|]. exact (Hall eq_refl).
Defined.

(** ** The pollers: how long they can take, and which services they name *)

Lemma stop_loop_bound (w : World) (l : list nat) :
  forall s,
  exists k,
    k <= List.length l /\ (l <> [] -> 1 <= k)
    /\ snd (for_return l (stop_poll w) s) = log s (polls CallStatusRead k).
Proof.
  induction l as [|i l IH]; intros s.
  - exists 0. simpl. rewrite log_nil. repeat split; [lia|congruence].
  - simpl for_return. unfold bind. rewrite stop_poll_run.
    destruct (status_read w (trace s ++ [CallSleep 3])) as [st|e].
    + destruct (IH (log s [CallSleep 3; CallStatusRead])) as (k & Hk & _ & Hsnd).
      exists (S k). rewrite Hsnd, log_log. simpl. repeat split; lia.
    + exists 1. simpl. destruct (not_responding e); simpl; repeat split; lia.
Qed.

Lemma start_loop_bound (w : World) (l : list nat) :
  forall s,
  exists k,
    k <= List.length l /\ (l <> [] -> 1 <= k)
    /\ snd (for_return l (start_poll w) s)
       = log s (polls CallStatusReadWithHttpInfo k).
Proof.
  induction l as [|i l IH]; intros s.
  - exists 0. simpl. rewrite log_nil. repeat split; [lia|congruence].
  - simpl for_return. unfold bind. rewrite start_poll_run.
    destruct (start_verdict _) as [[b|]|e].
    + exists 1. simpl. repeat split; lia.
    + destruct (IH (log s [CallSleep 3; CallStatusReadWithHttpInfo]))
        as (k & Hk & _ & Hsnd).
      exists (S k). rewrite Hsnd, log_log. simpl. repeat split; lia.
    + exists 1. simpl. repeat split; lia.
Qed.

Lemma poller_stop_trace
    (w : World) (pulp_services : option (list string)) (s : Store) :
  exists k,
    snd (_stop_and_check_services w pulp_services s)
    = log s (CallSvcStop (py_or pulp_services PULP_SERVICES)
               :: polls CallStatusRead k).
Proof.
  rewrite stop_and_check_services_run.
  destruct (svc_mgr_stop w (trace s) _) as [[]|e]; [|now exists 0].
  destruct (stop_loop_bound w (range 10)
              (log s [CallSvcStop (py_or pulp_services PULP_SERVICES)]))
    as (k & _ & _ & Hsnd).
  exists k. destruct (for_return _ _ _) as [[[b|]|e] s1]; simpl in *;
    now rewrite Hsnd, log_log.
Qed.

Lemma poller_start_trace
    (w : World) (pulp_services : option (list string)) (s : Store) :
  exists k,
    snd (_start_and_check_services w pulp_services s)
    = log s (CallSvcStart (py_or pulp_services PULP_SERVICES)
               :: polls CallStatusReadWithHttpInfo k).
Proof.
  rewrite start_and_check_services_run.
  destruct (svc_mgr_start w (trace s) _) as [[]|e]; [|now exists 0].
  destruct (start_loop_bound w (range 10)
              (log s [CallSvcStart (py_or pulp_services PULP_SERVICES)]))
    as (k & _ & _ & Hsnd).
  exists k. destruct (for_return _ _ _) as [[[b|]|e] s1]; simpl in *;
    now rewrite Hsnd, log_log.
Qed.

(** X7: Both pollers wait up to 30 seconds, as their docstrings say, whatever
    the service manager and the status endpoint do: the service manager is
    called once, first; then come at most 10 status reads, each after a
    sleep of 3 seconds, and nothing else; no sleep and no read is made when
    the service manager raised, and at least one of each when it returned. *)
Theorem pollers_wait_up_to_thirty_seconds
    (w : World) (pulp_services : option (list string)) (s : Store) :
  let services := py_or pulp_services PULP_SERVICES in
  (exists k,
      k <= 10
      /\ snd (_stop_and_check_services w pulp_services s)
         = log s (CallSvcStop services :: polls CallStatusRead k)
      /\ match svc_mgr_stop w (trace s) services with
         | Ok _ => 1 <= k
         | Raise _ => k = 0
         end)
  /\ (exists k,
        k <= 10
        /\ snd (_start_and_check_services w pulp_services s)
           = log s (CallSvcStart services :: polls CallStatusReadWithHttpInfo k)
        /\ match svc_mgr_start w (trace s) services with
           | Ok _ => 1 <= k
           | Raise _ => k = 0
           end).
Proof.
  intros services. split.
  - rewrite stop_and_check_services_run. fold services.
    destruct (svc_mgr_stop w (trace s) services) as [[]|e].
    + destruct (stop_loop_bound w (range 10) (log s [CallSvcStop services]))
        as (k & Hk & Hpos & Hsnd).
      exists k. split; [exact Hk|].
      destruct (for_return _ _ _) as [[[b|]|e] s1]; simpl in *;
        (split; [now rewrite Hsnd, log_log|apply Hpos; discriminate]).
    + exists 0. repeat split. lia.
  - rewrite start_and_check_services_run. fold services.
    destruct (svc_mgr_start w (trace s) services) as [[]|e].
    + destruct (start_loop_bound w (range 10) (log s [CallSvcStart services]))
        as (k & Hk & Hpos & Hsnd).
      exists k. split; [exact Hk|].
      destruct (for_return _ _ _) as [[[b|]|e] s1]; simpl in *;
        (split; [now rewrite Hsnd, log_log|apply Hpos; discriminate]).
    + exists 0. repeat split. lia.
Qed.

(** X8: An empty list of services counts as none given: both pollers then act
    on the four services of [PULP_SERVICES], exactly as they do without an
    argument; a list with at least one service is handed to the service
    manager as it is. *)
Theorem pollers_default_services (w : World) (s : Store) :
  _stop_and_check_services w (Some []) s = _stop_and_check_services w None s
  /\ _start_and_check_services w (Some []) s = _start_and_check_services w None s
  /\ (exists rest,
         trace (snd (_stop_and_check_services w (Some []) s))
         = trace s ++ CallSvcStop PULP_SERVICES :: rest)
  /\ (exists rest,
         trace (snd (_start_and_check_services w (Some []) s))
         = trace s ++ CallSvcStart PULP_SERVICES :: rest)
  /\ forall service others,
       (exists rest,
           trace (snd (_stop_and_check_services w (Some (service :: others)) s))
           = trace s ++ CallSvcStop (service :: others) :: rest)
       /\ (exists rest,
              trace (snd (_start_and_check_services w (Some (service :: others)) s))
              = trace s ++ CallSvcStart (service :: others) :: rest).
Proof.
  split; [reflexivity|]. split; [reflexivity|].
  assert (Hstop : forall ps, exists rest,
             trace (snd (_stop_and_check_services w ps s))
             = trace s ++ CallSvcStop (py_or ps PULP_SERVICES) :: rest).
  { intros ps.
    destruct (poller_stop_trace w ps s) as (k & Hsnd).
    exists (polls CallStatusRead k). now rewrite Hsnd. }
  assert (Hstart : forall ps, exists rest,
             trace (snd (_start_and_check_services w ps s))
             = trace s ++ CallSvcStart (py_or ps PULP_SERVICES) :: rest).
  { intros ps.
    destruct (poller_start_trace w ps s) as (k & Hsnd).
    exists (polls CallStatusReadWithHttpInfo k). now rewrite Hsnd. }
  split; [apply (Hstop (Some []))|]. split; [apply (Hstart (Some []))|].
  intros service others. split.
  - apply (Hstop (Some (service :: others))).
  - apply (Hstart (Some (service :: others))).
Qed.

(** ** Fixture servers: the handles of one test *)

Lemma start_server_cases (w : World) (r : App * option SSLContext * CallRecord)
    (s : Store) :
  (exists e, start_server w r s = (Raise e, log s [CallUnusedPort]))
  \/ exists d s1,
       start_server w r s = (Ok tt, s1)
       /\ fixture_servers_data s1 = fixture_servers_data s ++ [d]
       /\ next_id s1 = S (S (next_id s))
       /\ shutdown_event d = next_id s
       /\ th_id (thread d) = S (next_id s)
       /\ handle_of_started_thread w d
       /\ request_of d = r.
Proof.
  unfold start_server, _gen_threaded_aiohttp_server, bind, call, fresh, ret.
  simpl. destruct (unused_port w (trace s)) as [p|e].
  - right. eexists. eexists. split; [reflexivity|]. simpl.
    split; [reflexivity|]. split; [reflexivity|]. split; [reflexivity|].
    split; [reflexivity|]. split; [repeat split|].
    now destruct r as [[app ctx] rec].
  - left. now exists e.
Qed.

Lemma start_servers_handles (w : World)
    (requests : list (App * option SSLContext * CallRecord)) :
  forall s,
  exists ds,
    fixture_servers_data (snd (for_each requests (start_server w) s))
    = fixture_servers_data s ++ ds
    /\ map shutdown_event ds
       = map (fun i => next_id s + 2 * i) (seq 0 (List.length ds))
    /\ map (fun d => th_id (thread d)) ds
       = map (fun i => next_id s + 2 * i + 1) (seq 0 (List.length ds))
    /\ Forall (handle_of_started_thread w) ds
    /\ map request_of ds = firstn (List.length ds) requests
    /\ ((forall t, exists p, unused_port w t = Ok p) ->
        List.length ds = List.length requests).
Proof.
  induction requests as [|r requests IH]; intros s.
  - exists []. simpl. rewrite app_nil_r. repeat split. constructor.
  - simpl for_each. unfold bind.
    destruct (start_server_cases w r s)
      as [[e Hrun]|(d & s1 & Hrun & Hds & Hnext & Hev & Hth & Hgood & Hreq)];
      rewrite Hrun.
    + exists []. simpl. rewrite app_nil_r. repeat split; [constructor|].
      intros Hports. exfalso.
      destruct (Hports (trace s)) as [p Hp].
      unfold start_server, _gen_threaded_aiohttp_server, bind, call in Hrun.
      rewrite Hp in Hrun. discriminate Hrun.
    + destruct (IH s1) as (ds & Hds' & Hevs & Hths & Hgoods & Hreqs & Hlen).
      exists (d :: ds). rewrite Hds', Hds, <- app_assoc. simpl.
      split; [reflexivity|].
      rewrite Hevs, Hths, Hnext, Hev, Hth, Hreq, Hreqs.
      rewrite <- !seq_shift, !map_map.
      split; [f_equal; [lia|apply map_ext; intros i; lia]|].
      split; [f_equal; [lia|apply map_ext; intros i; lia]|].
      split; [now constructor|]. split; [reflexivity|].
      intros Hports. f_equal. now apply Hlen.
Qed.

(** X9: The servers of one test never share a shutdown event or a thread:
    the handles the fixture holds at its end have pairwise different events
    and threads; each thread is a daemon and was given the host, port, TLS
    context and shutdown event of its handle; the handles are those of the
    first requests, in order, and of all the requests when no port
    allocation failed. *)
Theorem fixture_servers_are_separate
    (w : World) (requests : list (App * option SSLContext * CallRecord)) (s : Store) :
  let ds :=
    fixture_servers_data (snd (gen_threaded_aiohttp_server_fixture w requests s)) in
  NoDup (map shutdown_event ds)
  /\ NoDup (map (fun d => th_id (thread d)) ds)
  /\ Forall (handle_of_started_thread w) ds
  /\ map request_of ds = firstn (List.length ds) requests
  /\ ((forall t, exists p, unused_port w t = Ok p) ->
      List.length ds = List.length requests).
Proof.
  intros ds. subst ds. rewrite server_fixture_run, server_teardown_run.
  destruct (start_servers_handles w requests (with_servers s []))
    as (ds & Hds & Hevs & Hths & Hgood & Hreqs & Hlen).
  simpl in *. rewrite Hds.
  split; [|split; [|repeat split; assumption]].
  - rewrite Hevs. apply NoDup_map_NoDup_ForallPairs; [|apply seq_NoDup].
    intros i j _ _ Hij. lia.
  - rewrite Hths. apply NoDup_map_NoDup_ForallPairs; [|apply seq_NoDup].
    intros i j _ _ Hij. lia.
Qed.

Lemma fixture_servers_are_separate_witness :
  List.length
    (fixture_servers_data
       (snd (gen_threaded_aiohttp_server_fixture healthy three_requests empty_store)))
  = 3.
Proof.
  apply (proj2 (proj2 (proj2 (proj2
           (fixture_servers_are_separate healthy three_requests empty_store))))).
  intros t. eexists. reflexivity.
Defined.

(** * The server thread *)

Section ServerThread.

Variable w : ThreadWorld.
Variable self : ThreadedAiohttpServer.

Lemma serve_round (fuel : nat) (t : list thread_event) :
  serve_until_shutdown w self (S fuel) t
  = if check_answer w self t 0
    then (Ok true, t ++ rounds self 1)
    else serve_until_shutdown w self fuel (t ++ rounds self 1).
Proof.
  unfold check_answer. simpl. unfold sbind, tcall, sret.
  destruct (is_set w (t ++ [AsyncSleep 1]) (th_shutdown_event self));
    now rewrite <- app_assoc.
Qed.

Lemma check_answer_shift (t : list thread_event) (j : nat) :
  check_answer w self (t ++ rounds self 1) j = check_answer w self t (S j).
Proof. unfold check_answer. simpl. now rewrite <- app_assoc. Qed.

Lemma rounds_shift (t : list thread_event) (k : nat) :
  (t ++ rounds self 1) ++ rounds self k = t ++ rounds self (S k).
Proof. now rewrite <- app_assoc. Qed.

Lemma serve_goes_on (fuel : nat) :
  forall t,
    (forall j, j < fuel -> check_answer w self t j = false) ->
    serve_until_shutdown w self fuel t = (Ok false, t ++ rounds self fuel).
Proof.
  induction fuel as [|fuel IH]; intros t Hunset.
  - simpl. unfold sret. now rewrite app_nil_r.
  - rewrite serve_round, (Hunset 0) by lia.
    rewrite IH, rounds_shift; [reflexivity|].
    intros j Hj. rewrite check_answer_shift. apply Hunset. lia.
Qed.

Lemma serve_stops (k : nat) :
  forall fuel t,
    k < fuel ->
    (forall j, j < k -> check_answer w self t j = false) ->
    check_answer w self t k = true ->
    serve_until_shutdown w self fuel t = (Ok true, t ++ rounds self (S k)).
Proof.
  induction k as [|k IH]; intros fuel t Hk Hunset Hset;
    (destruct fuel as [|fuel]; [lia|]); rewrite serve_round.
  - now rewrite Hset.
  - rewrite (Hunset 0) by lia.
    rewrite (IH fuel), rounds_shift; [reflexivity|lia| |].
    + intros j Hj. rewrite check_answer_shift. apply Hunset. lia.
    + now rewrite check_answer_shift.
Qed.

Lemma run_started (fuel : nat) (t : list thread_event) :
  runner_setup w (t ++ [NewEventLoop; SetEventLoop]) = Ok tt ->
  site_start w (t ++ [NewEventLoop; SetEventLoop; RunnerSetup (th_app self)]) = Ok tt ->
  run w self fuel t = serve_until_shutdown w self fuel (t ++ run_prelude self).
Proof.
  intros Hsetup Hstart. unfold run, sbind, tcall. simpl.
  rewrite <- ?app_assoc. simpl. rewrite Hsetup.
  rewrite <- ?app_assoc. simpl. rewrite Hstart.
  rewrite <- ?app_assoc. reflexivity.
Qed.

End ServerThread.

(** X10: Once the site is up, the server thread leaves its loop right after the
    first check that finds the shutdown event set, and at no other moment:
    with the event first found set at check [k], every unrolling of more
    than [k] rounds ends there, after [k + 1] one-second sleeps and as many
    checks (one sleep at least, also when the event was set from the
    start); while no check finds it set the loop is still running, however
    far it is unrolled. *)
Theorem server_thread_stops_at_first_set_check
    (w : ThreadWorld) (self : ThreadedAiohttpServer) (t : list thread_event) :
  runner_setup w (t ++ [NewEventLoop; SetEventLoop]) = Ok tt ->
  site_start w (t ++ [NewEventLoop; SetEventLoop; RunnerSetup (th_app self)]) = Ok tt ->
  let t0 := t ++ run_prelude self in
  (forall k fuel,
      k < fuel ->
      (forall j, j < k -> check_answer w self t0 j = false) ->
      check_answer w self t0 k = true ->
      run w self fuel t = (Ok true, t0 ++ rounds self (S k)))
  /\ (forall fuel,
        (forall j, j < fuel -> check_answer w self t0 j = false) ->
        run w self fuel t = (Ok false, t0 ++ rounds self fuel)).
Proof.
  intros Hsetup Hstart t0. split.
  - intros k fuel Hk Hunset Hset.
    rewrite run_started by assumption. now apply serve_stops.
  - intros fuel Hunset.
    rewrite run_started by assumption. now apply serve_goes_on.
Qed.

Lemma server_thread_stops_at_first_set_check_witness :
  run set_after_three_seconds (thread tls_server) 100 []
  = (Ok true, run_prelude (thread tls_server) ++ rounds (thread tls_server) 4)
  /\ run set_after_three_seconds (thread tls_server) 3 []
     = (Ok false, run_prelude (thread tls_server) ++ rounds (thread tls_server) 3).
Proof.
  destruct (server_thread_stops_at_first_set_check set_after_three_seconds
              (thread tls_server) [] eq_refl eq_refl) as [Hstops Hgoes].
  split.
  - apply (Hstops 3 100); [lia| |reflexivity].
    intros j Hj. destruct j as [|[|[|j]]]; [reflexivity|reflexivity|reflexivity|lia].
  - apply (Hgoes 3).
    intros j Hj. destruct j as [|[|[|j]]]; [reflexivity|reflexivity|reflexivity|lia].
Defined.

(** X11: A server thread whose application or site cannot be started ends at
    once with that exception: it never sleeps, never asks for the shutdown
    event, and when the setup of the application failed it does not try to
    start the site. *)
Theorem server_thread_start_failure
    (w : ThreadWorld) (self : ThreadedAiohttpServer) (t : list thread_event)
    (fuel : nat) :
  (forall e,
      runner_setup w (t ++ [NewEventLoop; SetEventLoop]) = Raise e ->
      run w self fuel t
      = (Raise e, t ++ [NewEventLoop; SetEventLoop; RunnerSetup (th_app self)]))
  /\ (forall e,
        runner_setup w (t ++ [NewEventLoop; SetEventLoop]) = Ok tt ->
        site_start w (t ++ [NewEventLoop; SetEventLoop; RunnerSetup (th_app self)])
        = Raise e ->
        run w self fuel t = (Raise e, t ++ run_prelude self)).
Proof.
  split.
  - intros e Hsetup. unfold run, sbind, tcall. simpl.
    rewrite <- ?app_assoc. simpl. rewrite Hsetup.
    now rewrite <- ?app_assoc.
  - intros e Hsetup Hstart. unfold run, sbind, tcall. simpl.
    rewrite <- ?app_assoc. simpl. rewrite Hsetup.
    rewrite <- ?app_assoc. simpl. rewrite Hstart.
    now rewrite <- ?app_assoc.
Qed.

Lemma server_thread_start_failure_witness :
  run port_taken (thread plain_server) 5 []
  = (Raise (Exn (OtherException "OSError") "address already in use"),
     run_prelude (thread plain_server)).
Proof.
  apply (proj2 (server_thread_start_failure port_taken (thread plain_server) [] 5));
    reflexivity.
Defined.

(** * The pytest hooks *)

Example configure_plain :
  pytest_configure plain_session []
  = (Ok tt,
     [GetOption "--pulp-no-leftovers";
      AddIniValueLine "markers" "parallel: marks tests as safe to run in parallel";
      AddIniValueLine "markers"
        "serial: marks tests as required to run serially without any other tests also running";
      AddIniValueLine "markers"
        "nightly: marks tests as intended to run during the nightly CI run"]).
Proof. reflexivity. Qed.

Lemma ini_lines_app (a b : list hook_event) :
  ini_lines (a ++ b) = ini_lines a ++ ini_lines b.
Proof. apply flat_map_app. Qed.

(** What [pytest_configure] does for each answer of the configuration. *)
Lemma pytest_configure_run (w : HookWorld) (t : list hook_event) :
  let t1 := t ++ [GetOption "--pulp-no-leftovers"] in
  let t2 := t1 ++ [HasPlugin "xdist"] in
  let t3 := t2 ++ [GetOption "-n"] in
  let register t' :=
    (Ok tt, t' ++ map (fun l => AddIniValueLine (fst l) (snd l)) markers_lines) in
  pytest_configure w t
  = match getoption w t "--pulp-no-leftovers" with
    | Raise e => (Raise e, t1)
    | Ok a =>
        if truthy a then
          if hasplugin w t1 "xdist" then
            match getoption w t2 "-n" with
            | Raise e => (Raise e, t3)
            | Ok n =>
                if truthy n then
                  (Raise (Exn (OtherException "Exception")
                            "The --pulp-no-leftovers cannot be used with -n from xdist"),
                   t3)
                else register t3
            end
          else register t2
        else register t1
    end.
Proof.
  unfold pytest_configure, sbind, tcall, sret, sraise, addinivalue_line. simpl.
  destruct (getoption w t "--pulp-no-leftovers") as [a|e]; [|reflexivity].
  destruct (truthy a); simpl.
  - destruct (hasplugin w _ "xdist"); simpl.
    + destruct (getoption w _ "-n") as [n|e]; [|reflexivity].
      destruct (truthy n); simpl; [reflexivity|].
      unfold tcall. now rewrite <- !app_assoc.
    + unfold tcall. now rewrite <- !app_assoc.
  - unfold tcall. now rewrite <- !app_assoc.
Qed.

Lemma ini_lines_markers :
  ini_lines (map (fun l => AddIniValueLine (fst l) (snd l)) markers_lines)
  = markers_lines.
Proof. reflexivity. Qed.

(** X12: [pytest_configure] registers the three markers, parallel, serial and
    nightly in this order, exactly when it returns, and none when it
    raises; and it asks for the option "-n" only after it found
    --pulp-no-leftovers true and the xdist plugin present, so a session
    without xdist never looks up an option that only xdist defines. *)
Theorem pytest_configure_markers_and_guard (w : HookWorld) (t : list hook_event) :
  let run := pytest_configure w t in
  exists tr,
    snd run = t ++ tr
    /\ ini_lines tr = match fst run with
                      | Ok _ => markers_lines
                      | Raise _ => []
                      end
    /\ (In (GetOption "-n") tr ->
        exists v,
          getoption w t "--pulp-no-leftovers" = Ok v /\ truthy v = true
          /\ hasplugin w (t ++ [GetOption "--pulp-no-leftovers"]) "xdist" = true).
Proof.
  intros run. subst run. rewrite pytest_configure_run. cbv zeta.
  set (reg := map (fun l => AddIniValueLine (fst l) (snd l)) markers_lines).
  destruct (getoption w t "--pulp-no-leftovers") as [a|e].
  2: { eexists. split; [reflexivity|]. split; [reflexivity|].
       simpl. intros [H|[]]. discriminate H. }
  destruct (truthy a) eqn:Ha.
  - destruct (hasplugin w _ "xdist") eqn:Hx.
    + assert (Hguard : exists v, Ok a = Ok v /\ truthy v = true /\ true = true)
        by (exists a; repeat split; assumption).
      destruct (getoption w _ "-n") as [n|e].
      * destruct (truthy n); simpl; rewrite <- ?app_assoc; simpl.
        { eexists. split; [reflexivity|]. split; [reflexivity|]. now intros _. }
        eexists. split; [reflexivity|]. split; [reflexivity|]. now intros _.
      * simpl; rewrite <- ?app_assoc; simpl.
        eexists. split; [reflexivity|]. split; [reflexivity|]. now intros _.
    + simpl; rewrite <- ?app_assoc; simpl.
      eexists. split; [reflexivity|]. split; [reflexivity|].
      simpl. intuition discriminate.
  - simpl; rewrite <- ?app_assoc; simpl.
    eexists. split; [reflexivity|]. split; [reflexivity|].
    simpl. intuition discriminate.
Qed.

Lemma pytest_configure_markers_and_guard_witness :
  exists v,
    getoption parallel_leftovers_session [] "--pulp-no-leftovers" = Ok v
    /\ truthy v = true
    /\ hasplugin parallel_leftovers_session [GetOption "--pulp-no-leftovers"] "xdist"
       = true.
Proof.
  destruct (pytest_configure_markers_and_guard parallel_leftovers_session [])
    as (tr & Hsnd & _ & Hguard).
  apply Hguard. simpl in Hsnd. subst tr. simpl. tauto.
Defined.

Lemma pytest_runtest_teardown_run (w : HookWorld) (item : Item) (t : list hook_event) :
  let asked := t ++ [WrappedTeardown (nodeid item); GetOption "--pulp-no-leftovers"] in
  pytest_runtest_teardown w item t
  = match getoption w (t ++ [WrappedTeardown (nodeid item)]) "--pulp-no-leftovers" with
    | Raise e => (Raise e, asked)
    | Ok a =>
        if truthy a
        then (pytest_check_for_leftover_pulp_objects w asked,
              asked ++ [CheckForLeftovers])
        else (Ok tt, asked)
    end.
Proof.
  unfold pytest_runtest_teardown, sbind, tcall, sret. simpl.
  rewrite <- !app_assoc. simpl.
  destruct (getoption w _ "--pulp-no-leftovers") as [a|e]; [|reflexivity].
  destruct (truthy a); [now rewrite <- app_assoc|reflexivity].
Qed.

(** X13: The leftover check of [pytest_runtest_teardown] is made after the
    wrapped teardown has run, and at most once per test; and in a session
    whose configuration does not change and that [pytest_configure] let
    pass, it is never made while the xdist plugin is present with a true
    "-n": with workers, [pytest_configure] raises instead. *)
Theorem leftover_check_never_with_xdist_workers (w : HookWorld) :
  (forall item t,
      exists tr,
        snd (pytest_runtest_teardown w item t)
        = t ++ WrappedTeardown (nodeid item) :: GetOption "--pulp-no-leftovers" :: tr
        /\ (tr = [] \/ tr = [CheckForLeftovers]))
  /\ (stable_config w ->
      forall item t t',
        fst (pytest_configure w t) = Ok tt ->
        snd (pytest_runtest_teardown w item t')
        = t' ++ [WrappedTeardown (nodeid item); GetOption "--pulp-no-leftovers";
                 CheckForLeftovers] ->
        hasplugin w [] "xdist" = false
        \/ exists n, getoption w [] "-n" = Ok n /\ truthy n = false)
  /\ (forall t a n,
        getoption w t "--pulp-no-leftovers" = Ok a -> truthy a = true ->
        hasplugin w (t ++ [GetOption "--pulp-no-leftovers"]) "xdist" = true ->
        getoption w (t ++ [GetOption "--pulp-no-leftovers"; HasPlugin "xdist"]) "-n"
        = Ok n ->
        truthy n = true ->
        fst (pytest_configure w t)
        = Raise (Exn (OtherException "Exception")
                   "The --pulp-no-leftovers cannot be used with -n from xdist")).
Proof.
  split; [|split].
  - intros item t. rewrite pytest_runtest_teardown_run. cbv zeta.
    destruct (getoption w _ "--pulp-no-leftovers") as [a|e].
    + destruct (truthy a); simpl; rewrite <- ?app_assoc; simpl.
      * eexists. split; [reflexivity|]. now right.
      * eexists. split; [reflexivity|]. now left.
    + simpl; rewrite <- ?app_assoc; simpl.
      eexists. split; [reflexivity|]. now left.
  - intros Hstable item t t'.
    rewrite pytest_configure_run, pytest_runtest_teardown_run. cbv zeta.
    rewrite (proj1 (Hstable (t' ++ [WrappedTeardown (nodeid item)]) t
                      "--pulp-no-leftovers")).
    destruct (getoption w t "--pulp-no-leftovers") as [a|e].
    2: { intros H; discriminate H. }
    destruct (truthy a).
    + rewrite (proj2 (Hstable (t ++ [GetOption "--pulp-no-leftovers"]) [] "xdist")).
      destruct (hasplugin w [] "xdist"); [|now left].
      rewrite (proj1 (Hstable ((t ++ [GetOption "--pulp-no-leftovers"])
                                 ++ [HasPlugin "xdist"]) [] "-n")).
      destruct (getoption w [] "-n") as [n|e]; [|intros H; discriminate H].
      destruct (truthy n) eqn:Hn; [intros H; discriminate H|].
      intros _ _. right. now exists n.
    + intros _ Htr. exfalso. simpl in Htr.
      apply app_inv_head in Htr. discriminate Htr.
  - intros t a n Ha Hta Hx Hn Htn. rewrite pytest_configure_run. cbv zeta.
    rewrite Ha, Hta, Hx. rewrite <- app_assoc. simpl. now rewrite Hn, Htn.
Qed.

Lemma leftover_check_never_with_xdist_workers_witness :
  (hasplugin leftovers_session [] "xdist" = false
   \/ exists n, getoption leftovers_session [] "-n" = Ok n /\ truthy n = false)
  /\ fst (pytest_configure parallel_leftovers_session [])
     = Raise (Exn (OtherException "Exception")
                "The --pulp-no-leftovers cannot be used with -n from xdist").
Proof.
  split.
  - apply (proj1 (proj2 (leftover_check_never_with_xdist_workers leftovers_session)))
      with (item := {| nodeid := "test_sync"; keywords := []; own_markers := [] |})
           (t := []) (t' := []).
    + intros t t' name. split; reflexivity.
    + reflexivity.
    + reflexivity.
  - apply (proj2 (proj2 (leftover_check_never_with_xdist_workers
                           parallel_leftovers_session))
             [] (VBool true) (VInt 4)); reflexivity.
Defined.

(** ** Skipping the nightly tests *)

Lemma modifyitems_marks (items : list Item) :
  Forall2
    (fun item item' =>
       if has_nightly_keyword item
       then own_markers item' = own_markers item ++ [skip_nightly]
            /\ keywords item' = keywords item ++ ["skip"%string]
            /\ nodeid item' = nodeid item
       else item' = item)
    items
    (map (fun item =>
            if has_nightly_keyword item then add_marker item skip_nightly else item)
       items).
Proof.
  induction items as [|item items IH]; simpl; constructor; [|exact IH].
  destruct (has_nightly_keyword item); [|reflexivity]. repeat split.
Qed.

(** X14: [pytest_collection_modifyitems] makes one call, the lookup of
    --nightly.  With the option true no item is touched.  Otherwise the
    items stay the same tests in the same order; each item with the keyword
    "nightly" gets the skip mark with the reason "need --nightly option to
    run" appended to its own marks, and each other item is left as it
    is. *)
Theorem nightly_items_are_skipped_without_the_option
    (w : HookWorld) (items : list Item) (t : list hook_event) (v : optval) :
  getoption w t "--nightly" = Ok v ->
  exists items',
    pytest_collection_modifyitems w items t = (Ok items', t ++ [GetOption "--nightly"])
    /\ map nodeid items' = map nodeid items
    /\ (truthy v = true -> items' = items)
    /\ (truthy v = false ->
        Forall2
          (fun item item' =>
             if has_nightly_keyword item
             then own_markers item' = own_markers item ++ [skip_nightly]
                  /\ keywords item' = keywords item ++ ["skip"%string]
                  /\ nodeid item' = nodeid item
             else item' = item)
          items items').
Proof.
  intros Hv. unfold pytest_collection_modifyitems, sbind, tcall, sret.
  rewrite Hv. destruct (truthy v).
  - exists items. repeat split. intros H; discriminate H.
  - eexists. split; [reflexivity|]. split; [|split].
    + rewrite map_map. apply map_ext. intros item.
      now destruct (has_nightly_keyword item).
    + intros H; discriminate H.
    + intros _. apply modifyitems_marks.
Qed.

Lemma nightly_items_are_skipped_without_the_option_witness :
  exists items',
    pytest_collection_modifyitems plain_session some_items []
    = (Ok items', [GetOption "--nightly"])
    /\ map own_markers items' = [[]; [skip_nightly]].
Proof.
  destruct (nightly_items_are_skipped_without_the_option plain_session some_items []
              (VBool false) eq_refl) as (items' & Hrun & _ & _ & Hmarks).
  exists items'. split; [exact Hrun|].
  specialize (Hmarks eq_refl).
  inversion Hmarks as [|i1 i1' l1 l1' H1 Hrest]; subst.
  inversion Hrest as [|i2 i2' l2 l2' H2 Hnil]; subst.
  inversion Hnil; subst.
  simpl in H1, H2. destruct H2 as (H2 & _). subst i1'. simpl. now rewrite H2.
Defined.

(** * [UploadRpmTestCase] *)

Example setUpClass_two_repos :
  setUpClass (pulp_v2 2) new_class
  = (Ok tt,
     {| calls :=
          [GetConfig; CheckIssue2620; HttpGet "https://fixtures/rpm-unsigned/bear.rpm";
           GenRepo; GenDistributor;
           Post "/pulp/api/v2/repositories/" [("id", "repo")]
             [[("distributor_id", "yum")]];
           Get "/repositories/r0/";
           GenRepo; GenDistributor;
           Post "/pulp/api/v2/repositories/" [("id", "repo")]
             [[("distributor_id", "yum")]];
           Get "/repositories/r1/"]%string;
        cls_cfg := Some 0;
        cls_rpm := Some "rpm"%string;
        cls_repos := Some [[("_href", "/repositories/r0/"); ("details", "true")];
                           [("_href", "/repositories/r1/"); ("details", "true")]]%string
     |}).
Proof. reflexivity. Qed.

Example setUpClass_second_post_fails :
  fst (setUpClass (pulp_v2 1) new_class)
  = Raise (Exn (OtherException "HTTPError") "500 Server Error")
  /\ deleted (calls (snd (setUpClass (pulp_v2 1) new_class)))
     = ["/repositories/r0/"; "/pulp/api/v2/content/orphans/"]%string.
Proof. split; reflexivity. Qed.

Lemma called_called (c : RpmCase) (a b : list http_event) :
  called (called c a) b = called c (a ++ b).
Proof. unfold called. simpl. now rewrite app_assoc. Qed.

Lemma called_nil (c : RpmCase) : called c [] = c.
Proof. destruct c. unfold called. simpl. now rewrite app_nil_r. Qed.

Lemma hcall_run {A} (ev : http_event) (answer : list http_event -> result A)
    (c : RpmCase) :
  hcall ev answer c = (answer (calls c), called c [ev]).
Proof. reflexivity. Qed.

Lemma deleted_app (a b : list http_event) : deleted (a ++ b) = deleted a ++ deleted b.
Proof. apply flat_map_app. Qed.

Lemma deleted_deletes (hs : list string) : deleted (map Delete hs) = hs.
Proof. induction hs as [|h hs IH]; simpl; [reflexivity|]. now rewrite IH. Qed.

Section TearDown.

Variable w : PulpV2.

Lemma delete_each_step (h : string) (hs : list string) (c : RpmCase) :
  delete_each w (h :: hs) c
  = match client_delete w (calls c) h with
    | Ok _ => delete_each w hs (called c [Delete h])
    | Raise e => (Raise e, called c [Delete h])
    end.
Proof.
  unfold delete_each. simpl sfor. unfold sbind at 1. rewrite hcall_run.
  now destruct (client_delete w (calls c) h).
Qed.

Lemma delete_each_all (hs : list string) :
  forall c,
    (forall pre h post,
        hs = pre ++ h :: post ->
        client_delete w (calls c ++ map Delete pre) h = Ok tt) ->
    delete_each w hs c = (Ok tt, called c (map Delete hs)).
Proof.
  induction hs as [|h hs IH]; intros c Hok.
  - unfold delete_each. simpl. unfold sret. now rewrite called_nil.
  - rewrite delete_each_step.
    pose proof (Hok [] h hs eq_refl) as H0. simpl in H0. rewrite app_nil_r in H0.
    rewrite H0, IH; [now rewrite called_called|].
    intros pre x post ->. simpl. rewrite <- app_assoc.
    apply (Hok (h :: pre) x post eq_refl).
Qed.

Lemma delete_each_first_failure (pre : list string) :
  forall c h post e,
    (forall pre1 x post1,
        pre = pre1 ++ x :: post1 ->
        client_delete w (calls c ++ map Delete pre1) x = Ok tt) ->
    client_delete w (calls c ++ map Delete pre) h = Raise e ->
    delete_each w (pre ++ h :: post) c = (Raise e, called c (map Delete (pre ++ [h]))).
Proof.
  induction pre as [|p pre IH]; intros c h post e Hok Hfail.
  - simpl in *. rewrite app_nil_r in Hfail. now rewrite delete_each_step, Hfail.
  - simpl app. rewrite delete_each_step.
    pose proof (Hok [] p pre eq_refl) as H0. simpl in H0. rewrite app_nil_r in H0.
    rewrite H0, (IH _ h post e); [now rewrite called_called| |].
    + intros pre1 x post1 ->. simpl. rewrite <- app_assoc.
      apply (Hok (p :: pre1) x post1 eq_refl).
    + simpl. rewrite <- app_assoc. exact Hfail.
Qed.

Lemma delete_each_app (a b : list string) :
  forall c,
    delete_each w (a ++ b) c
    = match delete_each w a c with
      | (Ok _, c1) => delete_each w b c1
      | (Raise e, c1) => (Raise e, c1)
      end.
Proof.
  induction a as [|h a IH]; intros c.
  - reflexivity.
  - simpl app. rewrite !delete_each_step.
    destruct (client_delete w (calls c) h); [apply IH|reflexivity].
Qed.

(** With the class attributes set and every repository carrying its
    locator, the tear-down is the deletion of the locators, then of the
    orphans. *)
Lemma tearDownClass_run (c : RpmCase) (cfg : Cfg) (rs : list Dict) (hs : list string) :
  cls_cfg c = Some cfg ->
  cls_repos c = Some rs ->
  Forall2 href_of rs hs ->
  tearDownClass w c = delete_each w (hs ++ [ORPHANS_PATH w]) c.
Proof.
  intros Hcfg Hrepos Hhrefs.
  unfold tearDownClass, sbind at 1, get_cfg. rewrite Hcfg.
  unfold sbind at 1, get_repos. rewrite Hrepos.
  rewrite delete_each_app.
  assert (Hloop : forall c0,
             sfor rs (fun repo =>
                        sbind (slift (dict_get repo "_href"))
                          (fun href => hcall (Delete href)
                                         (fun t => client_delete w t href))) c0
             = delete_each w hs c0).
  { clear Hrepos. induction Hhrefs as [|r h rs hs Hr _ IH]; intros c0; [reflexivity|].
    simpl sfor. rewrite delete_each_step. unfold sbind at 1, sbind at 1, slift.
    unfold href_of in Hr. rewrite Hr, hcall_run.
    destruct (client_delete w (calls c0) h); [apply IH|reflexivity]. }
  unfold sbind. rewrite Hloop.
  destruct (delete_each w hs c) as [[[]|e] c1]; [|reflexivity].
  unfold delete_each. simpl. unfold sbind, sret. rewrite !hcall_run.
  now destruct (client_delete w (calls c1) (ORPHANS_PATH w)) as [[]|e].
Qed.

End TearDown.

(** X15: [tearDownClass] deletes the repositories in the order they were
    created, then the orphans, and it stops at the first deletion that
    raises: the repositories after that one and the orphans are then not
    deleted, and the exception is what the caller gets. *)
Theorem tearDownClass_stops_at_first_failure
    (w : PulpV2) (c : RpmCase) (cfg : Cfg) (rs : list Dict) (hs : list string) :
  cls_cfg c = Some cfg ->
  cls_repos c = Some rs ->
  Forall2 href_of rs hs ->
  let targets := hs ++ [ORPHANS_PATH w] in
  ((forall pre h post,
       targets = pre ++ h :: post ->
       client_delete w (calls c ++ map Delete pre) h = Ok tt) ->
   tearDownClass w c = (Ok tt, called c (map Delete targets)))
  /\ (forall pre h post e,
        targets = pre ++ h :: post ->
        (forall pre1 x post1,
            pre = pre1 ++ x :: post1 ->
            client_delete w (calls c ++ map Delete pre1) x = Ok tt) ->
        client_delete w (calls c ++ map Delete pre) h = Raise e ->
        tearDownClass w c = (Raise e, called c (map Delete (pre ++ [h])))).
Proof.
  intros Hcfg Hrepos Hhrefs targets.
  rewrite (tearDownClass_run w c cfg rs hs Hcfg Hrepos Hhrefs). fold targets.
  split.
  - apply delete_each_all.
  - intros pre h post e -> Hok Hfail. now apply delete_each_first_failure.
Qed.

Lemma tearDownClass_stops_at_first_failure_witness :
  tearDownClass (pulp_v2 2) (snd (setUpClass (pulp_v2 2) new_class))
  = (Ok tt,
     called (snd (setUpClass (pulp_v2 2) new_class))
       (map Delete ["/repositories/r0/"; "/repositories/r1/";
                    "/pulp/api/v2/content/orphans/"]%string))
  /\ tearDownClass pulp_v2_stuck (snd (setUpClass (pulp_v2 2) new_class))
     = (Raise (Exn (OtherException "HTTPError") "409 Conflict"),
        called (snd (setUpClass (pulp_v2 2) new_class))
          [Delete "/repositories/r0/"]).
Proof.
  destruct (tearDownClass_stops_at_first_failure (pulp_v2 2)
              (snd (setUpClass (pulp_v2 2) new_class)) 0
              [[("_href", "/repositories/r0/"); ("details", "true")];
               [("_href", "/repositories/r1/"); ("details", "true")]]%string
              ["/repositories/r0/"; "/repositories/r1/"]%string
              eq_refl eq_refl) as [Hall _].
  { repeat constructor. }
  destruct (tearDownClass_stops_at_first_failure pulp_v2_stuck
              (snd (setUpClass (pulp_v2 2) new_class)) 0
              [[("_href", "/repositories/r0/"); ("details", "true")];
               [("_href", "/repositories/r1/"); ("details", "true")]]%string
              ["/repositories/r0/"; "/repositories/r1/"]%string
              eq_refl eq_refl) as [_ Hfirst].
  { repeat constructor. }
  split.
  - apply Hall. intros pre h post _. reflexivity.
  - apply (Hfirst [] "/repositories/r0/"%string
             ["/repositories/r1/"; "/pulp/api/v2/content/orphans/"]%string
             (Exn (OtherException "HTTPError") "409 Conflict")).
    + reflexivity.
    + intros pre1 x post1 H. destruct pre1; discriminate H.
    + reflexivity.
Defined.

Lemma answered_posts_app (w : PulpV2) (a b : list http_event) :
  forall before,
    answered_posts w before (a ++ b)
    = answered_posts w before a ++ answered_posts w (before ++ a) b.
Proof.
  induction a as [|ev a IH]; intros before; simpl.
  - now rewrite app_nil_r.
  - rewrite IH, <- !app_assoc. reflexivity.
Qed.

Lemma answered_posts_deletes (w : PulpV2) (hs : list string) :
  forall before, answered_posts w before (map Delete hs) = [].
Proof. induction hs as [|h hs IH]; intros before; simpl; [reflexivity|apply IH]. Qed.

Lemma tracking_tracking (c : RpmCase) (a b : list http_event) (r1 r2 : list Dict) :
  tracking (tracking c a r1) b r2 = tracking c (a ++ b) r2.
Proof. unfold tracking. simpl. now rewrite app_assoc. Qed.

Section SetUp.

Variable w : PulpV2.

Lemma create_repo_run (i : nat) (c : RpmCase) (rs : list Dict) :
  cls_repos c = Some rs ->
  create_repo w i c
  = match gen_repo w (calls c) with
    | Raise e => (Raise e, called c [GenRepo])
    | Ok body =>
        match gen_distributor w (calls c ++ [GenRepo]) with
        | Raise e => (Raise e, called c [GenRepo; GenDistributor])
        | Ok dist =>
            let posted :=
              [GenRepo; GenDistributor; Post (REPOSITORY_PATH w) body [dist]] in
            match client_post w (calls c ++ [GenRepo; GenDistributor])
                    (REPOSITORY_PATH w) body [dist] with
            | Raise e => (Raise e, called c posted)
            | Ok p =>
                match dict_get p "_href" with
                | Raise e => (Raise e, tracking c posted (rs ++ [p]))
                | Ok href =>
                    match client_get w (calls c ++ posted) href with
                    | Raise e =>
                        (Raise e, tracking c (posted ++ [Get href]) (rs ++ [p]))
                    | Ok g => (Ok tt, tracking c (posted ++ [Get href]) (rs ++ [g]))
                    end
                end
            end
        end
    end.
Proof.
  intros Hrepos.
  unfold create_repo. unfold sbind at 1. rewrite hcall_run.
  destruct (gen_repo w (calls c)) as [body|e]; [|reflexivity].
  unfold sbind at 1. rewrite hcall_run. simpl calls.
  destruct (gen_distributor w (calls c ++ [GenRepo])) as [dist|e];
    [|now rewrite called_called].
  unfold sbind at 1. rewrite hcall_run, !called_called. simpl app. simpl calls.
  destruct (client_post w (calls c ++ [GenRepo; GenDistributor])
              (REPOSITORY_PATH w) body [dist]) as [p|e]; [|reflexivity].
  unfold sbind at 1, repos_append, sbind at 1, get_repos, set_repos.
  simpl cls_repos. rewrite Hrepos. cbv iota beta.
  unfold sbind at 1, slift.
  destruct (dict_get p "_href") as [href|e]; [|reflexivity].
  cbv iota beta. unfold sbind at 1. rewrite hcall_run. simpl calls.
  destruct (client_get w _ href) as [g|e].
  - unfold repos_set_last, sbind, get_repos, set_repos, called, tracking. simpl.
    destruct (rs ++ [p]) as [|x l] eqn:Hl; [now destruct rs|].
    rewrite <- Hl, removelast_last. simpl. now rewrite <- !app_assoc.
  - unfold called, tracking. simpl. now rewrite <- !app_assoc.
Qed.

(** One round of the loop: the repository the server made, if any, is in
    [cls.repos] when the round ends, however it ends, as the POST answered
    it or as the GET of its locator answered it. *)
Lemma create_repo_step (i : nat) (c : RpmCase) (rs : list Dict) :
  (forall t h g, client_get w t h = Ok g -> href_of g h) ->
  cls_repos c = Some rs ->
  exists tr new,
    snd (create_repo w i c) = tracking c tr (rs ++ new)
    /\ deleted tr = []
    /\ Forall2 same_href (answered_posts w (calls c) tr) new
    /\ (fst (create_repo w i c) = Ok tt -> List.length new = 1).
Proof.
  intros Hget_href Hrepos. rewrite (create_repo_run i c rs Hrepos).
  assert (Hsame : forall tr, called c tr = tracking c tr (rs ++ [])).
  { intros tr. unfold called, tracking. now rewrite app_nil_r, Hrepos. }
  assert (Hrefl : forall p, Forall2 same_href [p] [p]).
  { intros p. constructor; [|constructor]. now intros h Hh. }
  destruct (gen_repo w (calls c)) as [body|e].
  2: { exists [GenRepo], []. rewrite Hsame. simpl.
       repeat split; try discriminate. constructor. }
  destruct (gen_distributor w (calls c ++ [GenRepo])) as [dist|e].
  2: { exists [GenRepo; GenDistributor], []. rewrite Hsame. simpl.
       repeat split; try discriminate. constructor. }
  cbv zeta.
  set (posted := [GenRepo; GenDistributor; Post (REPOSITORY_PATH w) body [dist]]).
  destruct (client_post w (calls c ++ [GenRepo; GenDistributor])
              (REPOSITORY_PATH w) body [dist]) as [p|e] eqn:Hpost.
  2: { exists posted, []. rewrite Hsame. simpl. rewrite <- app_assoc. simpl.
       rewrite Hpost. repeat split; try discriminate. constructor. }
  assert (Hanswer : answered_posts w (calls c) posted = [p]).
  { simpl. rewrite <- app_assoc. simpl. now rewrite Hpost. }
  destruct (dict_get p "_href") as [href|e] eqn:Hhref.
  2: { exists posted, [p]. simpl fst. simpl snd. rewrite Hanswer.
       repeat split; try discriminate. apply Hrefl. }
  destruct (client_get w (calls c ++ posted) href) as [g|e] eqn:Hget.
  - exists (posted ++ [Get href]), [g]. simpl fst. simpl snd.
    rewrite answered_posts_app, Hanswer. repeat split.
    constructor; [|constructor].
    intros h Hh. unfold href_of in Hh. rewrite Hhref in Hh. injection Hh as <-.
    exact (Hget_href _ _ _ Hget).
  - exists (posted ++ [Get href]), [p]. simpl fst. simpl snd.
    rewrite answered_posts_app, Hanswer.
    repeat split; try discriminate. apply Hrefl.
Qed.

End SetUp.

Lemma create_repos_loop (w : PulpV2) (l : list nat) :
  (forall t h g, client_get w t h = Ok g -> href_of g h) ->
  forall c rs,
    cls_repos c = Some rs ->
    exists tr new,
      snd (sfor l (create_repo w) c) = tracking c tr (rs ++ new)
      /\ deleted tr = []
      /\ Forall2 same_href (answered_posts w (calls c) tr) new
      /\ (fst (sfor l (create_repo w) c) = Ok tt -> List.length new = List.length l).
Proof.
  intros Hget_href.
  induction l as [|i l IH]; intros c rs Hrepos.
  - exists [], []. simpl. unfold tracking. rewrite !app_nil_r, <- Hrepos.
    repeat split; [now destruct c|constructor].
  - simpl sfor. unfold sbind.
    destruct (create_repo_step w i c rs Hget_href Hrepos)
      as (tr1 & new1 & Hsnd1 & Hdel1 & Hmade1 & Hok1).
    destruct (create_repo w i c) as [[[]|e] c1]; simpl in Hsnd1, Hok1.
    + subst c1.
      destruct (IH (tracking c tr1 (rs ++ new1)) (rs ++ new1) eq_refl)
        as (tr2 & new2 & Hsnd2 & Hdel2 & Hmade2 & Hok2).
      exists (tr1 ++ tr2), (new1 ++ new2).
      rewrite Hsnd2, tracking_tracking, <- app_assoc.
      split; [reflexivity|].
      rewrite deleted_app, Hdel1, Hdel2, answered_posts_app.
      simpl in Hmade2.
      repeat split.
      * apply Forall2_app; assumption.
      * intros Hok. rewrite length_app, (Hok1 eq_refl), (Hok2 Hok). reflexivity.
    + exists tr1, new1. simpl. repeat split; try assumption. discriminate.
Qed.

(** Every POST answer carries a locator: so do the repositories made in a
    trace. *)
Lemma answered_posts_hrefs (w : PulpV2) (tr : list http_event) :
  (forall t path body ds p,
      client_post w t path body ds = Ok p -> exists h, href_of p h) ->
  forall before, exists hs, Forall2 href_of (answered_posts w before tr) hs.
Proof.
  intros Hpost_href. induction tr as [|ev tr IH]; intros before.
  - exists []. constructor.
  - destruct (IH (before ++ [ev])) as [hs Hhs]. simpl.
    destruct ev as [| |url| | |path body ds|href|href];
      try (exists hs; exact Hhs).
    destruct (client_post w before path body ds) as [p|e] eqn:Hpost.
    + destruct (Hpost_href _ _ _ _ _ Hpost) as [h Hh].
      exists (h :: hs). now constructor.
    + exists hs. exact Hhs.
Qed.

Lemma same_href_hrefs (made held : list Dict) (hs : list string) :
  Forall2 same_href made held ->
  Forall2 href_of made hs ->
  Forall2 href_of held hs.
Proof.
  intros Hsame. revert hs.
  induction Hsame as [|p x made held Hpx _ IH]; intros hs Hhs.
  - inversion Hhs. constructor.
  - inversion Hhs as [|p' h made' hs' Hh Hrest]; subst.
    constructor; [apply Hpx, Hh|apply IH, Hrest].
Qed.

(** X16: When the server lets repositories be deleted, every repository it
    makes carries its locator, and the description it sends for a locator
    carries that locator, [setUpClass] leaves no repository behind.  With
    [hs] the locators of the repositories the POST calls made, in order:
    if [setUpClass] returns, there are two of them, the class holds their
    descriptions, and nothing was deleted; if it raises before the loop,
    it made the first calls of the prelude only, no POST and no DELETE
    among them; and if it raises from the loop, the class holds the
    descriptions of the repositories made, and the calls end with one
    DELETE for each locator of [hs], in order, and one for the orphans. *)
Theorem setUpClass_leaves_no_repository_behind (w : PulpV2) (c : RpmCase) :
  (forall t h, client_delete w t h = Ok tt) ->
  (forall t path body ds p,
      client_post w t path body ds = Ok p -> exists h, href_of p h) ->
  (forall t h g, client_get w t h = Ok g -> href_of g h) ->
  let prelude := [GetConfig; CheckIssue2620; HttpGet (RPM_UNSIGNED_URL w)] in
  let run := setUpClass w c in
  exists tr,
    calls (snd run) = calls c ++ tr
    /\ match fst run with
       | Ok _ =>
           exists made rs hs,
             tr = prelude ++ made
             /\ cls_repos (snd run) = Some rs
             /\ Forall2 href_of (answered_posts w (calls c) tr) hs
             /\ Forall2 href_of rs hs
             /\ List.length hs = 2
             /\ deleted tr = []
       | Raise _ =>
           ((exists k, tr = firstn k prelude)
            /\ answered_posts w (calls c) tr = [] /\ deleted tr = [])
           \/ exists made rs hs,
                tr = prelude ++ made ++ map Delete (hs ++ [ORPHANS_PATH w])
                /\ deleted made = []
                /\ cls_repos (snd run) = Some rs
                /\ Forall2 href_of (answered_posts w (calls c) tr) hs
                /\ Forall2 href_of rs hs
                /\ deleted tr = hs ++ [ORPHANS_PATH w]
       end.
Proof.
  intros Hdelete Hpost_href Hget_href prelude run. subst run.
  destruct (setUpClass w c) as [res c'] eqn:Hrun. simpl fst. simpl snd.
  unfold setUpClass in Hrun. unfold sbind at 1 in Hrun. rewrite hcall_run in Hrun.
  destruct (get_config w (calls c)) as [cfg|e].
  2: { injection Hrun as <- <-. exists [GetConfig]. split; [reflexivity|].
       left. split; [now exists 1|now split]. }
  unfold sbind at 1, set_cfg in Hrun. unfold sbind at 1 in Hrun.
  rewrite hcall_run in Hrun. simpl calls in Hrun.
  destruct (check_issue_2620 w (calls c ++ [GetConfig])) as [skip|e].
  2: { injection Hrun as <- <-. exists [GetConfig; CheckIssue2620]. simpl.
       rewrite <- app_assoc. split; [reflexivity|].
       left. split; [now exists 2|now split]. }
  destruct skip.
  { injection Hrun as <- <-. exists [GetConfig; CheckIssue2620]. simpl.
    rewrite <- app_assoc. split; [reflexivity|].
    left. split; [now exists 2|now split]. }
  unfold sbind at 1 in Hrun. rewrite hcall_run in Hrun. simpl calls in Hrun.
  destruct (http_get w _ (RPM_UNSIGNED_URL w)) as [rpm|e].
  2: { injection Hrun as <- <-. exists prelude. simpl.
       rewrite <- !app_assoc. split; [reflexivity|].
       left. split; [now exists 3|now split]. }
  unfold sbind at 1, set_rpm in Hrun. unfold sbind at 1, set_repos in Hrun.
  simpl in Hrun.
  set (c0 := {| calls := ((calls c ++ [GetConfig]) ++ [CheckIssue2620])
                         ++ [HttpGet (RPM_UNSIGNED_URL w)];
                cls_cfg := Some cfg; cls_rpm := Some rpm;
                cls_repos := Some [] |}) in Hrun.
  assert (Hcalls0 : calls c0 = calls c ++ prelude).
  { unfold c0, prelude. simpl. now rewrite <- !app_assoc. }
  destruct (create_repos_loop w (range 2) Hget_href c0 [] eq_refl)
    as (tr & new & Hsnd & Hdel & Hmade & Hok).
  simpl app in Hsnd.
  assert (Hans : answered_posts w (calls c) (prelude ++ tr)
                 = answered_posts w (calls c0) tr).
  { rewrite answered_posts_app, Hcalls0. reflexivity. }
  destruct (answered_posts_hrefs w tr Hpost_href (calls c0)) as [hs Hhs].
  assert (Hheld : Forall2 href_of new hs)
    by exact (same_href_hrefs _ _ _ Hmade Hhs).
  unfold stry in Hrun.
  change (sbind (create_repo w 0)
            (fun _ => sbind (create_repo w 1) (fun _ => sret tt)))
    with (sfor (range 2) (create_repo w)) in Hrun.
  destruct (sfor (range 2) (create_repo w) c0) as [[[]|e] c1];
    simpl in Hsnd, Hok; subst c1.
  - injection Hrun as <- <-.
    exists (prelude ++ tr). split.
    { change (calls (tracking c0 tr new)) with (calls c0 ++ tr).
      now rewrite Hcalls0, <- app_assoc. }
    exists tr, new, hs.
    rewrite Hans, deleted_app, Hdel.
    repeat split; try assumption.
    rewrite <- (Forall2_length Hheld). exact (Hok eq_refl).
  - unfold sbind in Hrun.
    rewrite (tearDownClass_run w (tracking c0 tr new) cfg new hs eq_refl eq_refl Hheld)
      in Hrun.
    rewrite delete_each_all in Hrun by (intros; apply Hdelete).
    injection Hrun as <- <-.
    exists (prelude ++ tr ++ map Delete (hs ++ [ORPHANS_PATH w])). split.
    { change (calls (called (tracking c0 tr new)
                       (map Delete (hs ++ [ORPHANS_PATH w]))))
        with ((calls c0 ++ tr) ++ map Delete (hs ++ [ORPHANS_PATH w])).
      now rewrite Hcalls0, <- !app_assoc. }
    right. exists tr, new, hs.
    split; [reflexivity|]. split; [exact Hdel|]. split; [reflexivity|].
    rewrite app_assoc, answered_posts_app, answered_posts_deletes, app_nil_r.
    rewrite Hans.
    split; [exact Hhs|]. split; [exact Hheld|].
    now rewrite !deleted_app, Hdel, deleted_deletes.
Qed.

Lemma setUpClass_leaves_no_repository_behind_witness :
  exists tr hs,
    calls (snd (setUpClass (pulp_v2 1) new_class)) = tr
    /\ Forall2 href_of (answered_posts (pulp_v2 1) [] tr) hs
    /\ deleted tr = hs ++ ["/pulp/api/v2/content/orphans/"]%string.
Proof.
  destruct (setUpClass_leaves_no_repository_behind (pulp_v2 1) new_class)
    as (tr & Hcalls & Hrun).
  - intros t h. reflexivity.
  - intros t path body ds p Hpost.
    unfold pulp_v2, client_post in Hpost.
    destruct (count_posts t <? 1)%nat; [|discriminate Hpost].
    injection Hpost as <-. eexists. reflexivity.
  - intros t h g Hget. injection Hget as <-. reflexivity.
  - change (calls new_class ++ tr) with tr in Hcalls.
    change (fst (setUpClass (pulp_v2 1) new_class))
      with (@Raise unit (Exn (OtherException "HTTPError") "500 Server Error"))
      in Hrun.
    cbv beta iota in Hrun.
    destruct Hrun as [((k & Hk) & _ & Hnone)
                     |(made & rs & hs & _ & _ & _ & Hhs & _ & Hdel)].
    + exfalso. rewrite <- Hcalls in Hnone. vm_compute in Hnone.
      discriminate Hnone.
    + exists tr, hs. split; [exact Hcalls|]. split; [exact Hhs|exact Hdel].
Defined.

(** X17: A class that is to be skipped makes no HTTP call at all: after the
    configuration is read and the issue checked, [setUpClass] raises
    [SkipTest] without fetching the package, creating a repository or
    running the tear-down.  And when the very first POST fails, the
    tear-down run by the handler deletes the orphans only; if that deletion
    raises too, the caller gets its exception in place of the POST's. *)
Theorem setUpClass_skip_and_cleanup_failure (w : PulpV2) (c : RpmCase) (cfg : Cfg) :
  get_config w (calls c) = Ok cfg ->
  (check_issue_2620 w (calls c ++ [GetConfig]) = Ok true ->
   fst (setUpClass w c)
   = Raise (Exn (OtherException "SkipTest") "https://pulp.plan.io/issues/2620")
   /\ calls (snd (setUpClass w c)) = calls c ++ [GetConfig; CheckIssue2620]
   /\ cls_repos (snd (setUpClass w c)) = cls_repos c)
  /\ (forall rpm body dist e,
        let started :=
          calls c ++ [GetConfig; CheckIssue2620; HttpGet (RPM_UNSIGNED_URL w)] in
        let posted :=
          started ++ [GenRepo; GenDistributor; Post (REPOSITORY_PATH w) body [dist]] in
        check_issue_2620 w (calls c ++ [GetConfig]) = Ok false ->
        http_get w (calls c ++ [GetConfig; CheckIssue2620]) (RPM_UNSIGNED_URL w)
        = Ok rpm ->
        gen_repo w started = Ok body ->
        gen_distributor w (started ++ [GenRepo]) = Ok dist ->
        client_post w (started ++ [GenRepo; GenDistributor])
          (REPOSITORY_PATH w) body [dist] = Raise e ->
        calls (snd (setUpClass w c)) = posted ++ [Delete (ORPHANS_PATH w)]
        /\ fst (setUpClass w c)
           = match client_delete w posted (ORPHANS_PATH w) with
             | Ok _ => Raise e
             | Raise e' => Raise e'
             end).
Proof.
  intros Hcfg. split.
  - intros Hskip.
    unfold setUpClass, sbind, hcall, set_cfg, sraise. simpl.
    rewrite Hcfg. simpl. rewrite Hskip. simpl.
    rewrite <- ?app_assoc. repeat split.
  - intros rpm body dist e started posted Hcheck Hrpm Hbody Hdist Hpost.
    destruct (setUpClass w c) as [res c'] eqn:Hrun. simpl fst. simpl snd.
    unfold setUpClass in Hrun. unfold sbind at 1 in Hrun.
    rewrite hcall_run, Hcfg in Hrun.
    unfold sbind at 1, set_cfg in Hrun. unfold sbind at 1 in Hrun.
    rewrite hcall_run in Hrun. simpl calls in Hrun. rewrite Hcheck in Hrun.
    unfold sbind at 1 in Hrun. rewrite hcall_run in Hrun. simpl calls in Hrun.
    rewrite <- app_assoc in Hrun. simpl app in Hrun. rewrite Hrpm in Hrun.
    unfold sbind at 1, set_rpm in Hrun. unfold sbind at 1, set_repos in Hrun.
    simpl calls in Hrun. simpl cls_cfg in Hrun. simpl cls_rpm in Hrun.
    rewrite <- ?app_assoc in Hrun. simpl app in Hrun. fold started in Hrun.
    unfold stry in Hrun. simpl sfor in Hrun. unfold sbind at 1 in Hrun.
    set (c0 := {| calls := started; cls_cfg := Some cfg; cls_rpm := Some rpm;
                  cls_repos := Some [] |}) in Hrun.
    rewrite (create_repo_run w 0 c0 [] eq_refl) in Hrun.
    simpl calls in Hrun. rewrite Hbody, Hdist, Hpost in Hrun.
    unfold tearDownClass, sbind, get_cfg, get_repos, called in Hrun.
    simpl in Hrun. unfold sraise in Hrun. fold posted in Hrun.
    destruct (client_delete w posted (ORPHANS_PATH w)) as [[]|e'];
      injection Hrun as <- <-; split; reflexivity.
Qed.

Lemma setUpClass_skip_and_cleanup_failure_witness :
  calls (snd (setUpClass (pulp_v2 0) new_class))
  = [GetConfig; CheckIssue2620; HttpGet "https://fixtures/rpm-unsigned/bear.rpm";
     GenRepo; GenDistributor;
     Post "/pulp/api/v2/repositories/" [("id", "repo")] [[("distributor_id", "yum")]];
     Delete "/pulp/api/v2/content/orphans/"]%string
  /\ fst (setUpClass (pulp_v2 0) new_class)
     = Raise (Exn (OtherException "HTTPError") "500 Server Error").
Proof.
  apply (proj2 (setUpClass_skip_and_cleanup_failure (pulp_v2 0) new_class 0 eq_refl)
           "rpm" [("id", "repo")] [("distributor_id", "yum")]
           (Exn (OtherException "HTTPError") "500 Server Error"))%string;
    reflexivity.
Defined.

(** * Proxy fixtures *)

Example http_proxy_with_auth_local :
  http_proxy_with_auth local_proxies []
  = (Ok tt,
     [ProxyUnusedPort; Uuid4; Uuid4; UrlBuild "http" "127.0.0.1" 3128;
      ProxyEnter ["--num-workers"; "4"; "--hostname"; "127.0.0.1"; "--port"; "3128";
                  "--basic-auth"; "user-uuid:pass-uuid"]%string;
      YieldProxyData {| proxy_host := "127.0.0.1"; proxy_port := 3128;
                        username := Some "user-uuid"%string;
                        password := Some "pass-uuid"%string;
                        ssl := false; proxy_url := "http://127.0.0.1:3128" |};
      ProxyExit]).
Proof. reflexivity. Qed.

Lemma with_Proxy_run (w : ProxyWorld) (args : list string) (d : ProxyData)
    (t : list proxy_event) :
  with_Proxy w args d t
  = match proxy_enter w t args with
    | Raise e => (Raise e, t ++ [ProxyEnter args])
    | Ok _ =>
        (proxy_exit w (t ++ [ProxyEnter args; YieldProxyData d]),
         t ++ [ProxyEnter args; YieldProxyData d; ProxyExit])
    end.
Proof.
  unfold with_Proxy, sbind, tcall.
  destruct (proxy_enter w t args); [|reflexivity].
  rewrite <- !app_assoc. simpl.
  now destruct (proxy_exit w _).
Qed.

Lemma ProxyData_init_run (w : ProxyWorld) (host : string) (port : Z)
    (u p : option string) (tls : bool) (t : list proxy_event) :
  let scheme := (if tls then "https" else "http")%string in
  ProxyData_init w host port u p tls t
  = (match url_build w t scheme host port with
     | Ok url => Ok {| proxy_host := host; proxy_port := port; username := u;
                       password := p; ssl := tls; proxy_url := url |}
     | Raise e => Raise e
     end,
     t ++ [UrlBuild scheme host port]).
Proof.
  unfold ProxyData_init, sbind, tcall, sret. simpl.
  now destruct (url_build w t _ host port).
Qed.

(** Every way a proxy fixture can go. *)
Lemma proxy_fixture_cases (w : ProxyWorld) (k : proxy_kind) (t : list proxy_event) :
  exists tr,
    snd (proxy_fixture w k t) = t ++ tr
    /\ ((proxy_starts tr = [] /\ proxy_yields tr = [] /\ proxy_stops tr = 0
         /\ exists e, fst (proxy_fixture w k t) = Raise e)
        \/ (exists args e,
               proxy_starts tr = [args] /\ proxy_yields tr = []
               /\ proxy_stops tr = 0
               /\ proxy_enter w (t ++ removelast tr) args = Raise e
               /\ fst (proxy_fixture w k t) = Raise e)
        \/ exists pre args d,
             tr = pre ++ [ProxyEnter args; YieldProxyData d; ProxyExit]
             /\ proxy_starts pre = [] /\ proxy_yields pre = [] /\ proxy_stops pre = 0
             /\ proxy_data_matches w k args d
             /\ fst (proxy_fixture w k t)
                = proxy_exit w (t ++ pre ++ [ProxyEnter args; YieldProxyData d])).
Proof.
  destruct (proxy_fixture w k t) as [res t'] eqn:Hrun. simpl fst. simpl snd.
  assert (Hport : forall e,
             proxy_unused_port w t = Raise e ->
             (Raise e, t ++ [ProxyUnusedPort]) = (res, t') ->
             exists tr,
               t' = t ++ tr
               /\ ((proxy_starts tr = [] /\ proxy_yields tr = [] /\ proxy_stops tr = 0
                    /\ exists e, res = Raise e)
                   \/ (exists args e,
                          proxy_starts tr = [args] /\ proxy_yields tr = []
                          /\ proxy_stops tr = 0
                          /\ proxy_enter w (t ++ removelast tr) args = Raise e
                          /\ res = Raise e)
                   \/ exists pre args d,
                        tr = pre ++ [ProxyEnter args; YieldProxyData d; ProxyExit]
                        /\ proxy_starts pre = [] /\ proxy_yields pre = []
                        /\ proxy_stops pre = 0
                        /\ proxy_data_matches w k args d
                        /\ res = proxy_exit w
                                   (t ++ pre ++ [ProxyEnter args; YieldProxyData d]))).
  { intros e _ [= <- <-]. exists [ProxyUnusedPort]. split; [reflexivity|]. left.
    repeat split. now exists e. }
  destruct k as [| |pem]; simpl proxy_fixture in Hrun.
  - unfold http_proxy in Hrun. unfold sbind at 1, tcall at 1 in Hrun.
    destruct (proxy_unused_port w t) as [port|e] eqn:Hp;
      [clear Hport|exact (Hport e eq_refl Hrun)].
    unfold sbind at 1 in Hrun. rewrite ProxyData_init_run in Hrun. cbv zeta in Hrun.
    destruct (url_build w _ _ _ port) as [url|e].
    2: { injection Hrun as <- <-. eexists. rewrite <- app_assoc.
         split; [reflexivity|]. left. repeat split. now exists e. }
    rewrite with_Proxy_run in Hrun.
    destruct (proxy_enter w _ _) as [[]|e] eqn:Henter; injection Hrun as <- <-.
    + eexists. rewrite <- !app_assoc. split; [reflexivity|]. right. right.
      exists [ProxyUnusedPort; UrlBuild "http" (proxy_origin w) port].
      eexists. eexists. split; [reflexivity|].
      repeat split; try (simpl; now rewrite <- ?app_assoc).
    + eexists. rewrite <- !app_assoc. split; [reflexivity|]. right. left.
      eexists. exists e. repeat split.
      simpl. rewrite <- ?app_assoc in Henter. exact Henter.
  - unfold http_proxy_with_auth in Hrun. unfold sbind at 1, tcall at 1 in Hrun.
    destruct (proxy_unused_port w t) as [port|e] eqn:Hp;
      [clear Hport|exact (Hport e eq_refl Hrun)].
    unfold sbind at 1, tcall at 1 in Hrun. unfold sbind at 1, tcall at 1 in Hrun.
    unfold sbind at 1 in Hrun. rewrite ProxyData_init_run in Hrun. cbv zeta in Hrun.
    destruct (url_build w _ _ _ port) as [url|e].
    2: { injection Hrun as <- <-. eexists. rewrite <- !app_assoc.
         split; [reflexivity|]. left. repeat split. now exists e. }
    rewrite with_Proxy_run in Hrun.
    destruct (proxy_enter w _ _) as [[]|e] eqn:Henter; injection Hrun as <- <-.
    + eexists. rewrite <- !app_assoc. split; [reflexivity|]. right. right.
      exists [ProxyUnusedPort; Uuid4; Uuid4; UrlBuild "http" (proxy_origin w) port].
      eexists. eexists. split; [reflexivity|].
      repeat split; try (simpl; now rewrite <- ?app_assoc).
      eexists. eexists. repeat split.
    + eexists. rewrite <- !app_assoc. split; [reflexivity|]. right. left.
      eexists. exists e. repeat split.
      simpl. rewrite <- ?app_assoc in Henter. exact Henter.
  - unfold https_proxy in Hrun. unfold sbind at 1, tcall at 1 in Hrun.
    destruct (proxy_unused_port w t) as [port|e] eqn:Hp;
      [clear Hport|exact (Hport e eq_refl Hrun)].
    unfold sbind at 1 in Hrun. rewrite ProxyData_init_run in Hrun. cbv zeta in Hrun.
    destruct (url_build w _ _ _ port) as [url|e].
    2: { injection Hrun as <- <-. eexists. rewrite <- app_assoc.
         split; [reflexivity|]. left. repeat split. now exists e. }
    rewrite with_Proxy_run in Hrun.
    destruct (proxy_enter w _ _) as [[]|e] eqn:Henter; injection Hrun as <- <-.
    + eexists. rewrite <- !app_assoc. split; [reflexivity|]. right. right.
      exists [ProxyUnusedPort; UrlBuild "https" (proxy_origin w) port].
      eexists. eexists. split; [reflexivity|].
      repeat split; try (simpl; now rewrite <- ?app_assoc).
    + eexists. rewrite <- !app_assoc. split; [reflexivity|]. right. left.
      eexists. exists e. repeat split.
      simpl. rewrite <- ?app_assoc in Henter. exact Henter.
Qed.

Lemma proxy_stops_app (a b : list proxy_event) :
  proxy_stops (a ++ b) = proxy_stops a + proxy_stops b.
Proof. unfold proxy_stops. now rewrite filter_app, length_app. Qed.

(** X18: In each of the three proxy fixtures the proxy is started at most once,
    after the port, the credentials and the proxy data are there; the test
    is handed the proxy data only once the proxy has started, and the proxy
    is stopped once, right after the test; a fixture in which the port
    allocation, the URL or the start of the proxy fails raises what that
    call raised, makes no later call, and neither hands anything to a test
    nor stops a proxy; and when the three calls return the fixture makes
    exactly these calls, then starts the proxy, hands the data to the test
    and stops the proxy, its result being that of the stop. *)
Theorem proxy_is_stopped_after_the_test
    (w : ProxyWorld) (k : proxy_kind) (t : list proxy_event) :
  let t1 := t ++ proxy_prelude k in
  (exists tr,
      snd (proxy_fixture w k t) = t ++ tr
      /\ List.length (proxy_starts tr) <= 1
      /\ ((proxy_yields tr = [] /\ proxy_stops tr = 0
           /\ exists e, fst (proxy_fixture w k t) = Raise e)
          \/ exists pre args d,
               tr = pre ++ [ProxyEnter args; YieldProxyData d; ProxyExit]
               /\ proxy_starts pre = [] /\ proxy_yields pre = []
               /\ proxy_stops pre = 0))
  /\ (forall e,
        proxy_unused_port w t = Raise e ->
        proxy_fixture w k t = (Raise e, t ++ [ProxyUnusedPort]))
  /\ (forall port,
        proxy_unused_port w t = Ok port ->
        let build := UrlBuild (proxy_scheme k) (proxy_origin w) port in
        (forall e,
            url_build w t1 (proxy_scheme k) (proxy_origin w) port = Raise e ->
            proxy_fixture w k t = (Raise e, t1 ++ [build]))
        /\ (forall url,
              url_build w t1 (proxy_scheme k) (proxy_origin w) port = Ok url ->
              exists args d,
                proxy_data_matches w k args d
                /\ proxy_port d = port
                /\ proxy_url d = url
                /\ (forall e,
                      proxy_enter w (t1 ++ [build]) args = Raise e ->
                      proxy_fixture w k t
                      = (Raise e, t1 ++ [build; ProxyEnter args]))
                /\ (proxy_enter w (t1 ++ [build]) args = Ok tt ->
                    proxy_fixture w k t
                    = (proxy_exit w
                         (t1 ++ [build; ProxyEnter args; YieldProxyData d]),
                       t1 ++ [build; ProxyEnter args; YieldProxyData d;
                              ProxyExit])))).
Proof.
  intros t1. split; [|split].
  - destruct (proxy_fixture_cases w k t)
      as (tr & Hsnd & [(Hs & Hy & Hx & He)
                      |[(args & e & Hs & Hy & Hx & _ & He)
                       |(pre & args & d & -> & Hs & Hy & Hx & _)]]).
    + exists tr. rewrite Hs. simpl. repeat split; [assumption|lia|]. now left.
    + exists tr. rewrite Hs. simpl. repeat split; [assumption|lia|].
      left. repeat split; [assumption|assumption|]. now exists e.
    + eexists. split; [exact Hsnd|]. split.
      * unfold proxy_starts in *. rewrite flat_map_app, Hs. simpl. lia.
      * right. exists pre, args, d. repeat split; assumption.
  - intros e Hport.
    destruct k as [| |pem]; simpl proxy_fixture;
      unfold http_proxy, http_proxy_with_auth, https_proxy;
      unfold sbind at 1, tcall at 1; rewrite Hport; reflexivity.
  - intros port Hport build. subst t1 build.
    remember (proxy_fixture w k t) as run eqn:Hrun.
    destruct k as [| |pem]; simpl proxy_fixture in Hrun;
      simpl proxy_prelude; simpl proxy_scheme;
      unfold http_proxy, http_proxy_with_auth, https_proxy in Hrun;
      unfold sbind at 1, tcall at 1 in Hrun; rewrite Hport in Hrun;
      repeat (unfold sbind at 1, tcall at 1 in Hrun);
      unfold sbind at 1 in Hrun; rewrite ProxyData_init_run in Hrun;
      cbv zeta in Hrun; rewrite <- ?app_assoc in Hrun; cbn [app] in Hrun;
      (split;
       [intros e Hurl; rewrite Hurl in Hrun; rewrite <- ?app_assoc; exact Hrun
       |intros url Hurl; rewrite Hurl, with_Proxy_run in Hrun;
        rewrite <- ?app_assoc in Hrun; cbn [app] in Hrun;
        match type of Hrun with
        | context [ProxyEnter ?a :: YieldProxyData ?d :: _] => exists a, d
        end]).
    + split; [repeat split|].
      split; [reflexivity|]. split; [reflexivity|].
      split; [intros e Henter|intros Henter];
        rewrite <- ?app_assoc in Henter; cbn [app] in Henter;
        rewrite Henter in Hrun; rewrite <- ?app_assoc; exact Hrun.
    + split; [repeat split; eexists; eexists; repeat split|].
      split; [reflexivity|]. split; [reflexivity|].
      split; [intros e Henter|intros Henter];
        rewrite <- ?app_assoc in Henter; cbn [app] in Henter;
        rewrite Henter in Hrun; rewrite <- ?app_assoc; exact Hrun.
    + split; [repeat split|].
      split; [reflexivity|]. split; [reflexivity|].
      split; [intros e Henter|intros Henter];
        rewrite <- ?app_assoc in Henter; cbn [app] in Henter;
        rewrite Henter in Hrun; rewrite <- ?app_assoc; exact Hrun.
Qed.

Lemma proxy_is_stopped_after_the_test_witness :
  proxy_fixture no_free_port PlainProxy []
  = (Raise (Exn (OtherException "OSError") "Address already in use"),
     [ProxyUnusedPort])
  /\ proxy_fixture bad_origin (TlsProxy "/tmp/proxy.pem") []
     = (Raise (Exn ValueError "Can't build URL with this host"),
        [ProxyUnusedPort; UrlBuild "https" "http://pulp/" 3128])
  /\ (exists args,
         proxy_fixture proxy_cannot_start AuthProxy []
         = (Raise (Exn (OtherException "OSError") "Address already in use"),
            [ProxyUnusedPort; Uuid4; Uuid4; UrlBuild "http" "127.0.0.1" 3128;
             ProxyEnter args]))
  /\ (exists args d,
         proxy_fixture local_proxies AuthProxy []
         = (Ok tt,
            [ProxyUnusedPort; Uuid4; Uuid4; UrlBuild "http" "127.0.0.1" 3128;
             ProxyEnter args; YieldProxyData d; ProxyExit])
         /\ proxy_url d = "http://127.0.0.1:3128"%string).
Proof.
  split; [|split; [|split]].
  - destruct (proxy_is_stopped_after_the_test no_free_port PlainProxy [])
      as (_ & Hport & _).
    apply Hport. reflexivity.
  - destruct (proxy_is_stopped_after_the_test bad_origin
                (TlsProxy "/tmp/proxy.pem") []) as (_ & _ & Hlater).
    destruct (Hlater 3128%Z eq_refl) as (Hurl & _).
    apply Hurl. reflexivity.
  - destruct (proxy_is_stopped_after_the_test proxy_cannot_start AuthProxy [])
      as (_ & _ & Hlater).
    destruct (Hlater 3128%Z eq_refl) as (_ & Hbuilt).
    destruct (Hbuilt "http://127.0.0.1:3128"%string eq_refl)
      as (args & d & _ & _ & _ & Hfails & _).
    exists args. apply Hfails. reflexivity.
  - destruct (proxy_is_stopped_after_the_test local_proxies AuthProxy [])
      as (_ & _ & Hlater).
    destruct (Hlater 3128%Z eq_refl) as (_ & Hbuilt).
    destruct (Hbuilt "http://127.0.0.1:3128"%string eq_refl)
      as (args & d & _ & _ & Hd & _ & Hstarts).
    exists args, d. split; [apply Hstarts; reflexivity|exact Hd].
Defined.

(** X19: Whenever a test is handed proxy data, they describe the proxy that was
    started: host and port are those of the "--hostname" and "--port"
    arguments, with four workers; the plain fixture gives no credentials
    and no certificate, the one with authentication gives the user and the
    password of its "--basic-auth" argument, and the TLS one sets [ssl] and
    starts the proxy with one file as certificate and as key. *)
Theorem proxy_data_describe_the_proxy
    (w : ProxyWorld) (k : proxy_kind) (t : list proxy_event) :
  exists tr,
    snd (proxy_fixture w k t) = t ++ tr
    /\ (proxy_yields tr = []
        \/ exists args d,
             proxy_starts tr = [args] /\ proxy_yields tr = [d]
             /\ proxy_data_matches w k args d).
Proof.
  destruct (proxy_fixture_cases w k t)
    as (tr & Hsnd & [(Hs & Hy & Hx & He)
                    |[(args & e & Hs & Hy & Hx & _ & He)
                     |(pre & args & d & -> & Hs & Hy & Hx & Hmatch & _)]]).
  - exists tr. split; [assumption|now left].
  - exists tr. split; [assumption|now left].
  - eexists. split; [exact Hsnd|]. right. exists args, d.
    unfold proxy_starts, proxy_yields in *.
    rewrite !flat_map_app, Hs, Hy.
    split; [reflexivity|]. split; [reflexivity|exact Hmatch].
Qed.
